(** * Verification of the CI/CD monitor (monitoring/monitor.py)

    A shallow embedding of [CICDMonitor], [AlertManager] and [main] of
    [src/cicd_framework_scripts/monitoring/monitor.py], and the properties the
    specification states about them.

    Conventions of the embedding:
    - Python [str] is a Rocq [string] (a byte string; non-ASCII text is its
      UTF-8 encoding).
    - Python [int] is [Z]. Python [float] is [pyfloat]: a finite float is the
      exact rational it denotes ([Q]); binary64 rounding, overflow to
      infinity and the sign of zero are not represented.  [inf] and [nan]
      are represented, since [float()] accepts them.
    - A raised exception is a value [exn] carrying its class and its [str()].
      A fallible pure computation is a [result]; an effectful one is an [M],
      which also records the observable events (log records, network
      requests, file writes, sleeps) in program order.
    - The cluster, the network, the clock and the file system are the fields
      of a [World]. *)

From Stdlib Require Import ZArith QArith Qround Bool List String Ascii Lia.
From Stdlib Require Import Numbers.DecimalString.
Import ListNotations.

Set Warnings "-register-all".
Open Scope string_scope.
Open Scope Z_scope.

(* ===================================================================== *)
(** ** Exceptions and results *)
(* ===================================================================== *)

(** The exception classes the program can meet.  [KeyboardInterrupt] and
    [SystemExit] derive from [BaseException] only; all the others derive
    from [Exception]. *)
Inductive exn_class :=
| ApiException          (* kubernetes.client.rest.ApiException *)
| RequestException      (* requests.RequestException *)
| ValueError
| OverflowError
| ZeroDivisionError
| KeyError
| AttributeError
| TypeError
| OSError
| OtherException        (* any other subclass of Exception *)
| KeyboardInterrupt
| SystemExit.

Record exn := mk_exn { exn_cls : exn_class; exn_str : string }.

Definition exn_class_eqb (a b : exn_class) : bool :=
  match a, b with
  | ApiException, ApiException | RequestException, RequestException
  | ValueError, ValueError | OverflowError, OverflowError
  | ZeroDivisionError, ZeroDivisionError | KeyError, KeyError
  | AttributeError, AttributeError | TypeError, TypeError
  | OSError, OSError | OtherException, OtherException
  | KeyboardInterrupt, KeyboardInterrupt | SystemExit, SystemExit => true
  | _, _ => false
  end.

(** [isinstance(e, Exception)] *)
Definition is_Exception (e : exn) : bool :=
  match exn_cls e with
  | KeyboardInterrupt | SystemExit => false
  | _ => true
  end.

(** [isinstance(e, ApiException)] *)
Definition is_ApiException (e : exn) : bool := exn_class_eqb (exn_cls e) ApiException.

(** [isinstance(e, requests.RequestException)] *)
Definition is_RequestException (e : exn) : bool :=
  exn_class_eqb (exn_cls e) RequestException.

(** [isinstance(e, KeyboardInterrupt)] *)
Definition is_KeyboardInterrupt (e : exn) : bool :=
  exn_class_eqb (exn_cls e) KeyboardInterrupt.

Inductive result (A : Type) :=
| Ok (a : A)
| Raise (e : exn).
Arguments Ok {A} a.
Arguments Raise {A} e.

Definition rbind {A B} (r : result A) (k : A -> result B) : result B :=
  match r with
  | Ok a => k a
  | Raise e => Raise e
  end.

Notation "x <-- c ;; k" := (rbind c (fun x => k))
  (at level 61, c at next level, right associativity).

Definition is_ok {A} (r : result A) : bool :=
  match r with Ok _ => true | Raise _ => false end.

(* ===================================================================== *)
(** ** Strings: the [str] methods the program uses *)
(* ===================================================================== *)

(** [not s] for a string: the empty string is falsy. *)
Definition str_is_empty (s : string) : bool :=
  match s with EmptyString => true | String _ _ => false end.

(** [s.endswith(suffix)]: some tail of [s] is [suffix]. *)
Fixpoint endswith (s suffix : string) : bool :=
  String.eqb s suffix ||
  match s with
  | EmptyString => false
  | String _ s' => endswith s' suffix
  end.

(** [s[:-k]] for [k > 0]: all but the last [k] characters (empty when
    [s] has at most [k] characters). *)
Definition drop_last (k : nat) (s : string) : string :=
  substring 0 (String.length s - k) s.

(** [str(n)] for an [int]. *)
Definition str_of_Z (z : Z) : string := NilZero.string_of_int (Z.to_int z).

(** ["'" + s + "'"], the [repr] of a string without characters to escape. *)
Definition repr (s : string) : string := "'" ++ s ++ "'".

(* ===================================================================== *)
(** ** Numbers: [float] and the builtins [float()] and [int()] *)
(* ===================================================================== *)

Inductive pyfloat :=
| Fin (q : Q)          (* a finite float, as the rational it denotes *)
| Inf (neg : bool)     (* inf, -inf *)
| NaN.

Definition Qlt_bool (x y : Q) : bool := negb (Qle_bool y x).

(** [a > b] on floats; every comparison with [nan] is false. *)
Definition fgt (a b : pyfloat) : bool :=
  match a, b with
  | NaN, _ | _, NaN => false
  | Fin x, Fin y => Qlt_bool y x
  | Fin _, Inf neg => neg
  | Inf neg, Fin _ => negb neg
  | Inf na, Inf nb => negb na && nb
  end.

Definition Qsign_neg (q : Q) : bool := Qlt_bool q 0.
Definition Qis_zero (q : Q) : bool := Qeq_bool q 0.

(** [a / b] on floats; a zero divisor raises [ZeroDivisionError]. *)
Definition fdiv (a b : pyfloat) : result pyfloat :=
  match a, b with
  | _, Fin y =>
      if Qis_zero y then Raise (mk_exn ZeroDivisionError "float division by zero")
      else match a with
           | Fin x => Ok (Fin (x / y))
           | Inf neg => Ok (Inf (xorb neg (Qsign_neg y)))
           | NaN => Ok NaN
           end
  | NaN, _ | _, NaN => Ok NaN
  | Fin _, Inf _ => Ok (Fin 0)
  | Inf _, Inf _ => Ok NaN
  end.

(** [a * b] on floats. *)
Definition fmul (a b : pyfloat) : pyfloat :=
  match a, b with
  | NaN, _ | _, NaN => NaN
  | Fin x, Fin y => Fin (x * y)
  | Fin x, Inf neg | Inf neg, Fin x =>
      if Qis_zero x then NaN else Inf (xorb neg (Qsign_neg x))
  | Inf na, Inf nb => Inf (xorb na nb)
  end.

(** [float(n)] for an [int] [n]. *)
Definition float_of_int (z : Z) : pyfloat := Fin (inject_Z z).

(** Truncation of a rational towards zero. *)
Definition Qtruncate (q : Q) : Z := Z.quot (Qnum q) (Zpos (Qden q)).

(** [int(f)] for a float: truncation towards zero; [inf] and [nan] raise. *)
Definition int_of_float (f : pyfloat) : result Z :=
  match f with
  | Fin q => Ok (Qtruncate q)
  | Inf _ => Raise (mk_exn OverflowError "cannot convert float infinity to integer")
  | NaN => Raise (mk_exn ValueError "cannot convert float NaN to integer")
  end.

(** *** The literal grammar of [float()] and [int()]

<<
    floatvalue  ::= [sign] (floatnumber | "inf" | "infinity" | "nan")
    floatnumber ::= ([digitpart] "." digitpart | digitpart ["."]) [exponent]
    exponent    ::= ("e" | "E") [sign] digitpart
    digitpart   ::= digit (["_"] digit)*
>>
    surrounded by optional whitespace; [int()] accepts [[sign] digitpart].
    Only ASCII digits and ASCII whitespace are recognised. *)

Definition is_digit (c : ascii) : bool :=
  let n := nat_of_ascii c in ((48 <=? n) && (n <=? 57))%nat.

Definition digit_val (c : ascii) : Z := Z.of_nat (nat_of_ascii c - 48).

Definition is_space (c : ascii) : bool :=
  let n := nat_of_ascii c in
  ((n =? 32) || ((9 <=? n) && (n <=? 13)) || ((28 <=? n) && (n <=? 31)))%nat.

Fixpoint lstrip (l : list ascii) : list ascii :=
  match l with
  | c :: l' => if is_space c then lstrip l' else l
  | [] => []
  end.

Definition strip (l : list ascii) : list ascii := rev (lstrip (rev (lstrip l))).

(** ASCII lower-casing, for the case-insensitive [inf] and [nan]. *)
Definition lower (c : ascii) : ascii :=
  let n := nat_of_ascii c in
  if ((65 <=? n) && (n <=? 90))%nat then ascii_of_nat (n + 32) else c.

(** [(["_"] digit)*]: the digits that continue a digit part, and the rest. *)
Fixpoint digits_tail (l : list ascii) : list Z * list ascii :=
  match l with
  | [] => ([], [])
  | c :: l' =>
      if is_digit c then
        let (ds, r) := digits_tail l' in (digit_val c :: ds, r)
      else if Ascii.eqb c "_" then
        match l' with
        | d :: l'' =>
            if is_digit d then
              let (ds, r) := digits_tail l'' in (digit_val d :: ds, r)
            else ([], l)
        | [] => ([], l)
        end
      else ([], l)
  end.

Definition digitpart (l : list ascii) : option (list Z * list ascii) :=
  match l with
  | c :: l' =>
      if is_digit c then
        let (ds, r) := digits_tail l' in Some (digit_val c :: ds, r)
      else None
  | [] => None
  end.

(** The value of a digit sequence, most significant digit first. *)
Definition digits_value (ds : list Z) : Z :=
  fold_left (fun acc d => 10 * acc + d) ds 0.

(** [[sign]]: whether the sign is "-", and the rest. *)
Definition sign (l : list ascii) : bool * list ascii :=
  match l with
  | c :: l' =>
      if Ascii.eqb c "-" then (true, l')
      else if Ascii.eqb c "+" then (false, l')
      else (false, l)
  | [] => (false, [])
  end.

(** [floatnumber] without its exponent: integer digits, fraction digits
    and the rest. *)
Definition number (l : list ascii) : option (list Z * list Z * list ascii) :=
  match digitpart l with
  | Some (ip, r) =>
      match r with
      | c :: r' =>
          if Ascii.eqb c "." then
            match digitpart r' with
            | Some (fp, r'') => Some (ip, fp, r'')
            | None => Some (ip, [], r')
            end
          else Some (ip, [], r)
      | [] => Some (ip, [], [])
      end
  | None =>
      match l with
      | c :: r' =>
          if Ascii.eqb c "." then
            match digitpart r' with
            | Some (fp, r'') => Some ([], fp, r'')
            | None => None
            end
          else None
      | [] => None
      end
  end.

(** [[exponent]] up to the end of the literal: its value, or [None] when the
    rest is not an exponent. *)
Definition exponent (l : list ascii) : option Z :=
  match l with
  | [] => Some 0
  | c :: l' =>
      if Ascii.eqb (lower c) "e" then
        let (neg, r) := sign l' in
        match digitpart r with
        | Some (ds, []) => Some (if neg then - digits_value ds else digits_value ds)
        | _ => None
        end
      else None
  end.

(** [m * 10^e] as a rational. *)
Definition Qscale10 (m e : Z) : Q :=
  if 0 <=? e then inject_Z (m * 10 ^ e) else Qmake m (Z.to_pos (10 ^ (- e))).

Definition float_literal (l : list ascii) : option pyfloat :=
  let (neg, r) := sign (strip l) in
  let word := string_of_list_ascii (map lower r) in
  if String.eqb word "inf" || String.eqb word "infinity" then Some (Inf neg)
  else if String.eqb word "nan" then Some NaN
  else
    match number r with
    | Some (ip, fp, r') =>
        match exponent r' with
        | Some e =>
            let m := digits_value (ip ++ fp) in
            let q := Qscale10 m (e - Z.of_nat (List.length fp)) in
            Some (Fin (if neg then Qopp q else q))
        | None => None
        end
    | None => None
    end.

Definition int_literal (l : list ascii) : option Z :=
  let (neg, r) := sign (strip l) in
  match digitpart r with
  | Some (ds, []) => Some (if neg then - digits_value ds else digits_value ds)
  | _ => None
  end.

(** [float(s)] for a string [s]. *)
Definition py_float (s : string) : result pyfloat :=
  match float_literal (list_ascii_of_string s) with
  | Some f => Ok f
  | None => Raise (mk_exn ValueError ("could not convert string to float: " ++ repr s))
  end.

(** [int(s)] for a string [s]. *)
Definition py_int (s : string) : result Z :=
  match int_literal (list_ascii_of_string s) with
  | Some z => Ok z
  | None =>
      Raise (mk_exn ValueError ("invalid literal for int() with base 10: " ++ repr s))
  end.

(* ===================================================================== *)
(** ** The quantity parsers: [_parse_cpu] and [_parse_memory] *)
(* ===================================================================== *)

(** [CICDMonitor._parse_cpu]: a CPU quantity in cores. *)
Definition _parse_cpu (cpu_str : string) : result pyfloat :=
  if str_is_empty cpu_str then Ok (Fin 0)
  else if endswith cpu_str "m" then
    f <-- py_float (drop_last 1 cpu_str) ;;
    fdiv f (float_of_int 1000)
  else py_float cpu_str.

(** The [units] dictionary of [_parse_memory], in insertion order. *)
Definition units : list (string * Z) :=
  [("Ki", 1024); ("Mi", 1024 ^ 2); ("Gi", 1024 ^ 3); ("Ti", 1024 ^ 4)].

(** The [for unit, multiplier in units.items()] loop of [_parse_memory],
    followed by the final [return int(memory_str)]. *)
Fixpoint _parse_memory_units (memory_str : string) (us : list (string * Z))
  : result Z :=
  match us with
  | [] => py_int memory_str
  | (unit, multiplier) :: rest =>
      if endswith memory_str unit then
        f <-- py_float (drop_last 2 memory_str) ;;
        int_of_float (fmul f (float_of_int multiplier))
      else _parse_memory_units memory_str rest
  end.

(** [CICDMonitor._parse_memory]: a memory quantity in bytes. *)
Definition _parse_memory (memory_str : string) : result Z :=
  if str_is_empty memory_str then Ok 0
  else _parse_memory_units memory_str units.


(* ===================================================================== *)
(** ** Configuration values *)
(* ===================================================================== *)

(** What [yaml.safe_load] and [json.load] return: the configuration is a
    tree of dictionaries (in insertion order), lists and scalars.  Floats
    in the configuration are not represented. *)
Inductive json :=
| JNull
| JBool (b : bool)
| JInt (z : Z)
| JStr (s : string)
| JList (l : list json)
| JDict (d : list (string * json)).

(** Lookup in a dictionary kept as an association list. *)
Fixpoint assoc {A} (key : string) (d : list (string * A)) : option A :=
  match d with
  | [] => None
  | (k, v) :: d' => if String.eqb k key then Some v else assoc key d'
  end.

(** [v.get(key, default)]: only a dictionary has [get]. *)
Definition py_get (v : json) (key : string) (default : json) : result json :=
  match v with
  | JDict d => Ok (match assoc key d with Some x => x | None => default end)
  | _ => Raise (mk_exn AttributeError "object has no attribute 'get'")
  end.

(** [v[key]] for a string [key]. *)
Definition py_index (v : json) (key : string) : result json :=
  match v with
  | JDict d =>
      match assoc key d with
      | Some x => Ok x
      | None => Raise (mk_exn KeyError (repr key))
      end
  | JList _ | JStr _ => Raise (mk_exn TypeError "indices must be integers")
  | _ => Raise (mk_exn TypeError "object is not subscriptable")
  end.

(** The truth value of a configuration value. *)
Definition truthy (v : json) : bool :=
  match v with
  | JNull => false
  | JBool b => b
  | JInt z => negb (z =? 0)
  | JStr s => negb (str_is_empty s)
  | JList l => match l with [] => false | _ => true end
  | JDict d => match d with [] => false | _ => true end
  end.

(** [n > v] for an [int] [n]: only numbers are ordered with an [int]. *)
Definition py_gt_int (n : Z) (v : json) : result bool :=
  match v with
  | JInt z => Ok (z <? n)
  | JBool b => Ok ((if b then 1 else 0) <? n)
  | _ => Raise (mk_exn TypeError "'>' not supported between instances")
  end.

(** [n != v] for an [int] [n]. *)
Definition py_ne_int (n : Z) (v : json) : bool :=
  match v with
  | JInt z => negb (z =? n)
  | JBool b => negb ((if b then 1 else 0) =? n)
  | _ => true
  end.

Definition str_of_bool (b : bool) : string := if b then "True" else "False".

(** [repr(v)] *)
Fixpoint json_repr (v : json) : string :=
  match v with
  | JNull => "None"
  | JBool b => str_of_bool b
  | JInt z => str_of_Z z
  | JStr s => repr s
  | JList l =>
      "[" ++ (fix items (l : list json) : string :=
                match l with
                | [] => ""
                | [x] => json_repr x
                | x :: r => json_repr x ++ ", " ++ items r
                end) l ++ "]"
  | JDict d =>
      "{" ++ (fix items (d : list (string * json)) : string :=
                match d with
                | [] => ""
                | [(k, x)] => repr k ++ ": " ++ json_repr x
                | (k, x) :: r => repr k ++ ": " ++ json_repr x ++ ", " ++ items r
                end) d ++ "}"
  end.

(** [str(v)], as an f-string renders [v]. *)
Definition json_str (v : json) : string :=
  match v with
  | JStr s => s
  | _ => json_repr v
  end.

(** [iter(v)]: the elements a [for] loop over [v] visits. *)
Definition py_iter (v : json) : result (list json) :=
  match v with
  | JList l => Ok l
  | JDict d => Ok (map (fun kv => JStr (fst kv)) d)
  | JStr s => Ok (map (fun c => JStr (String c "")) (list_ascii_of_string s))
  | _ => Raise (mk_exn TypeError "object is not iterable")
  end.

(** [', '.join(v)] *)
Definition py_join (v : json) : result string :=
  items <-- py_iter v ;;
  (fix join (l : list json) : result string :=
     match l with
     | [] => Ok ""
     | JStr s :: r =>
         match r with
         | [] => Ok s
         | _ => rest <-- join r ;; Ok (s ++ ", " ++ rest)
         end
     | _ :: _ => Raise (mk_exn TypeError "sequence item: expected str instance")
     end) items.

(* ===================================================================== *)
(** ** Issues and the health report *)
(* ===================================================================== *)

(** An issue: the dictionary with the keys ['type'], ['severity'],
    ['resource'], ['message'] and ['timestamp'] that the checks append. *)
Record issue := mk_issue {
  type : string;
  severity : string;
  resource : string;
  message : string;
  timestamp : string
}.

Record issues_by_severity_t := mk_by_severity {
  critical : list issue;
  warning : list issue;
  info : list issue
}.

(** The dictionary [run_health_checks] returns. *)
Record HealthReport := mk_report {
  report_timestamp : string;
  total_issues : nat;
  issues_by_severity : issues_by_severity_t;
  all_issues : list issue
}.

(* ===================================================================== *)
(** ** Events and the monad of effectful code *)
(* ===================================================================== *)

(** The JSON body of a [requests.post]. *)
Inductive http_body :=
| SlackPayload (channel : json) (username text icon_emoji : string)
| WebhookPayload (severity_ : string) (issues : list issue) (timestamp_ : string).

Inductive event :=
| LogInfo (msg : string)                       (* logger.info *)
| LogError (msg : string)                      (* logger.error *)
| SmtpSend (smtp_config : json) (from to subject message : string)
| HttpPost (url : json) (body : http_body) (headers : json)
| HttpGet (url timeout : json)
| WriteFile (path : string) (report : HealthReport)
| Print (report : HealthReport)
| Sleep (seconds : Z).

(** A computation: the events it performed, in order, and how it ended. *)
Definition M (A : Type) : Type := (list event * result A)%type.

Definition ret {A} (a : A) : M A := ([], Ok a).

Definition bind {A B} (m : M A) (k : A -> M B) : M B :=
  match m with
  | (t, Ok a) => let (t', r) := k a in ((t ++ t')%list, r)
  | (t, Raise e) => (t, Raise e)
  end.

Notation "x <- c ;; k" := (bind c (fun x => k))
  (at level 61, c at next level, right associativity).

Notation "c ;; k" := (bind c (fun _ => k))
  (at level 61, right associativity).

Definition lift {A} (r : result A) : M A := ([], r).
Definition emit (ev : event) : M unit := ([ev], Ok tt).
Definition logger_info (msg : string) : M unit := emit (LogInfo msg).
Definition logger_error (msg : string) : M unit := emit (LogError msg).

Definition trace {A} (m : M A) : list event := fst m.
Definition outcome {A} (m : M A) : result A := snd m.

(** [try: body  except <class> as e: handler e]: an exception of another
    class propagates. *)
Definition try_except {A} (body : M A) (caught : exn -> bool) (handler : exn -> M A)
  : M A :=
  match body with
  | (t, Raise e) =>
      if caught e then let (t', r) := handler e in ((t ++ t')%list, r) else (t, Raise e)
  | (t, Ok a) => (t, Ok a)
  end.

(** A [for] loop that threads the list it extends. *)
Fixpoint foldM {A S} (f : S -> A -> M S) (l : list A) (s : S) : M S :=
  match l with
  | [] => ret s
  | x :: r => s' <- f s x ;; foldM f r s'
  end.

(* ===================================================================== *)
(** ** The cluster objects and the world *)
(* ===================================================================== *)

(** The fields of a [V1Deployment] that the monitor reads.  Times are in
    microseconds since the epoch; replica counts are the API's
    non-negative counters, absent ([None]) when unset. *)
Record V1Deployment := mk_deployment {
  d_name : string;                       (* metadata.name *)
  d_creation_timestamp : Z;              (* metadata.creation_timestamp *)
  d_spec_replicas : option nat;          (* spec.replicas *)
  d_ready_replicas : option nat;         (* status.ready_replicas *)
  d_available_replicas : option nat      (* status.available_replicas *)
}.

Record V1ContainerStatus := mk_container_status {
  cs_name : string;
  cs_restart_count : nat
}.

Record V1Pod := mk_pod {
  p_name : string;                                       (* metadata.name *)
  p_creation_timestamp : Z;                              (* metadata.creation_timestamp *)
  p_phase : option string;                               (* status.phase *)
  p_container_statuses : option (list V1ContainerStatus) (* status.container_statuses *)
}.

Record V1ResourceQuota := mk_quota {
  q_name : string;                                (* metadata.name *)
  q_hard : option (list (string * string));       (* status.hard *)
  q_used : option (list (string * string))        (* status.used *)
}.

Record V1Secret := mk_secret {
  s_type : option string;                         (* type *)
  s_data : option (list (string * string))        (* data *)
}.

(** Everything outside the process.  A call that fails carries the
    exception it raises; an interrupt arrives as a [KeyboardInterrupt]
    raised by the call during which it is delivered. *)
Record World := mk_world {
  (* datetime.now(), in microseconds since the epoch; one reading serves a
     whole evaluation pass *)
  now : Z;
  (* datetime.isoformat() *)
  isoformat : Z -> string;
  (* AppsV1Api / CoreV1Api: the [items] of the listing, or the exception *)
  list_namespaced_deployment : string -> result (list V1Deployment);
  list_namespaced_pod : string -> result (list V1Pod);
  list_namespaced_resource_quota : string -> result (list V1ResourceQuota);
  list_namespaced_secret : string -> result (list V1Secret);
  (* requests.get(url, timeout=timeout).status_code *)
  requests_get : json -> json -> result Z;
  (* requests.post(url, json=body, headers=headers, timeout=10) followed by
     response.raise_for_status() *)
  requests_post : json -> http_body -> json -> result unit;
  (* the SMTP conversation of send_email_alert, from smtplib.SMTP(host, port)
     to server.quit() *)
  smtp_conversation : json -> string -> string -> string -> string -> result unit;
  (* open(path, 'w') and json.dump *)
  write_report : string -> HealthReport -> result unit;
  (* time.sleep of a non-negative length *)
  sleep_outcome : Z -> result unit;
  (* open(config_file) and yaml.safe_load / json.load *)
  read_config : string -> result json;
  (* config.load_incluster_config() / load_kube_config() and the API objects *)
  kubernetes_client : result unit
}.

(** *** [datetime.timedelta], in microseconds *)

Definition us_per_second : Z := 1000000.
Definition us_per_day : Z := 86400 * us_per_second.

(** [age.days] *)
Definition timedelta_days (age : Z) : Z := age / us_per_day.

(** [age.total_seconds() > n] for an [int] [n] *)
Definition total_seconds_gt (age n : Z) : bool := n * us_per_second <? age.

(** Decimal digits of [n], left-padded with zeros to [width] characters. *)
Definition zero_pad (width : nat) (n : Z) : string :=
  let s := str_of_Z n in
  string_of_list_ascii (repeat "0"%char (width - String.length s)) ++ s.

(** [str(age)] *)
Definition str_timedelta (age : Z) : string :=
  let days := age / us_per_day in
  let rest := age mod us_per_day in
  let seconds := rest / us_per_second in
  let microseconds := rest mod us_per_second in
  let mm := seconds / 60 in
  let ss := seconds mod 60 in
  let hh := mm / 60 in
  let mm := mm mod 60 in
  let s := str_of_Z hh ++ ":" ++ zero_pad 2 mm ++ ":" ++ zero_pad 2 ss in
  let s :=
    if days =? 0 then s
    else str_of_Z days ++ " day" ++ (if Z.abs days =? 1 then "" else "s") ++ ", " ++ s in
  if microseconds =? 0 then s else s ++ "." ++ zero_pad 6 microseconds.

(** *** Numbers that are an [int] or a [float] *)

Inductive pynum :=
| PInt (z : Z)
| PFloat (f : pyfloat).

Definition to_float (n : pynum) : pyfloat :=
  match n with
  | PInt z => float_of_int z
  | PFloat f => f
  end.

(** [a > b] *)
Definition num_gt (a b : pynum) : bool := fgt (to_float a) (to_float b).

(** [a / b], true division *)
Definition num_truediv (a b : pynum) : result pyfloat := fdiv (to_float a) (to_float b).

(** Rounding to the nearest integer, ties to even. *)
Definition round_half_even (q : Q) : Z :=
  let f := Qfloor q in
  let r := (q - inject_Z f)%Q in
  if Qlt_bool r (1 # 2) then f
  else if Qlt_bool (1 # 2) r then f + 1
  else if Z.even f then f else f + 1.

(** [f"{x:.1f}"] *)
Definition format_1f (x : pynum) : string :=
  match to_float x with
  | Fin q =>
      let n := round_half_even (q * 10) in
      let a := Z.abs n in
      (if n <? 0 then "-" else "") ++ str_of_Z (a / 10) ++ "." ++ str_of_Z (a mod 10)
  | Inf neg => if neg then "-inf" else "inf"
  | NaN => "nan"
  end.

(* ===================================================================== *)
(** ** [AlertManager] *)
(* ===================================================================== *)

Record AlertManager := mk_alert_manager {
  am_config : json;
  smtp_config : json;
  slack_config : json;
  webhook_config : json
}.

(** [AlertManager.__init__] *)
Definition AlertManager_init (config_data : json) : result AlertManager :=
  smtp <-- py_get config_data "smtp" (JDict []) ;;
  slack <-- py_get config_data "slack" (JDict []) ;;
  webhook <-- py_get config_data "webhook" (JDict []) ;;
  Ok (mk_alert_manager config_data smtp slack webhook).

Section Alerts.
Variable w : World.
Variable am : AlertManager.

(** [AlertManager.send_email_alert] *)
Definition send_email_alert (subject message : string) (recipients : json) : M bool :=
  try_except
    (enabled <- lift (py_get (smtp_config am) "enabled" (JBool false)) ;;
     if negb (truthy enabled) then ret false
     else
       from <- lift (py_index (smtp_config am) "from") ;;
       to <- lift (py_join recipients) ;;
       _ <- lift (py_index (smtp_config am) "host") ;;
       _ <- lift (py_index (smtp_config am) "port") ;;
       emit (SmtpSend (smtp_config am) (json_str from) to subject message) ;;
       lift (smtp_conversation w (smtp_config am) (json_str from) to subject message) ;;
       logger_info ("Email alert sent to " ++ json_str recipients) ;;
       ret true)
    is_Exception
    (fun e => logger_error ("Failed to send email alert: " ++ exn_str e) ;; ret false).

(** [AlertManager.send_slack_alert]; [channel] is [None] when omitted. *)
Definition send_slack_alert (message : string) (channel : json) : M bool :=
  try_except
    (enabled <- lift (py_get (slack_config am) "enabled" (JBool false)) ;;
     if negb (truthy enabled) then ret false
     else
       webhook_url <- lift (py_index (slack_config am) "webhook_url") ;;
       channel <- (if truthy channel then ret channel
                   else lift (py_get (slack_config am) "default_channel" (JStr "#alerts"))) ;;
       let payload := SlackPayload channel "CI/CD Monitor" message ":warning:" in
       emit (HttpPost webhook_url payload JNull) ;;
       lift (requests_post w webhook_url payload JNull) ;;
       logger_info ("Slack alert sent to " ++ json_str channel) ;;
       ret true)
    is_Exception
    (fun e => logger_error ("Failed to send Slack alert: " ++ exn_str e) ;; ret false).

(** [AlertManager.send_webhook_alert] *)
Definition send_webhook_alert (alert_data : http_body) : M bool :=
  try_except
    (enabled <- lift (py_get (webhook_config am) "enabled" (JBool false)) ;;
     if negb (truthy enabled) then ret false
     else
       webhook_url <- lift (py_index (webhook_config am) "url") ;;
       headers <- lift (py_get (webhook_config am) "headers" (JDict [])) ;;
       emit (HttpPost webhook_url alert_data headers) ;;
       lift (requests_post w webhook_url alert_data headers) ;;
       logger_info "Webhook alert sent successfully" ;;
       ret true)
    is_Exception
    (fun e => logger_error ("Failed to send webhook alert: " ++ exn_str e) ;; ret false).

End Alerts.

(* ===================================================================== *)
(** ** [CICDMonitor] *)
(* ===================================================================== *)

Record CICDMonitor := mk_monitor {
  config : json;
  alert_manager : AlertManager
}.

(** [x or 0] for an optional counter. *)
Definition or0 (x : option nat) : nat :=
  match x with Some n => n | None => 0%nat end.

Definition str_of_nat (n : nat) : string := str_of_Z (Z.of_nat n).

(** [s.lower()], on ASCII letters. *)
Definition str_lower (s : string) : string :=
  string_of_list_ascii (map lower (list_ascii_of_string s)).

(** [CICDMonitor._format_alert_message].  The [for] loop extends the
    message with one entry per issue of [issues[:10]]. *)
Definition format_issue (text : string) (i : issue) : string :=
  text
    ++ ("â€¢ " ++ type i ++ ": " ++ message i ++ "
")
    ++ ("  Resource: " ++ resource i ++ "
")
    ++ ("  Time: " ++ timestamp i ++ "

").

Definition _format_alert_message (issues : list issue) (severity : string) : string :=
  let message := "ðŸš¨ " ++ severity ++ " CI/CD Infrastructure Alert

" in
  let message :=
    message ++ ("Found " ++ str_of_nat (List.length issues) ++ " " ++ str_lower severity
                ++ " issues:

") in
  let message := fold_left format_issue (firstn 10 issues) message in
  if (10 <? List.length issues)%nat then
    message ++ ("... and " ++ str_of_nat (List.length issues - 10) ++ " more issues
")
  else message.

Section Monitor.
Variable w : World.
Variable self : CICDMonitor.

(** [datetime.now().isoformat()] *)
Definition now_iso : string := isoformat w (now w).

(** The issue appended by the [except ApiException] handlers. *)
Definition api_error_issue (namespace : string) (e : exn) : issue :=
  {| type := "api_error";
     severity := "critical";
     resource := "namespace/" ++ namespace;
     message := "Failed to access Kubernetes API: " ++ exn_str e;
     timestamp := now_iso |}.

(** [self.config.get('thresholds', {}).get(key, default)] *)
Definition threshold (key : string) (default : Z) : result json :=
  thresholds <-- py_get (config self) "thresholds" (JDict []) ;;
  py_get thresholds key (JInt default).

(** *** [check_deployment_health] *)

(** The body of [for deployment in deployments.items]. *)
Definition deployment_step (namespace : string) (issues : list issue)
           (deployment : V1Deployment) : M (list issue) :=
  let name := d_name deployment in
  let spec_replicas := or0 (d_spec_replicas deployment) in
  let ready_replicas := or0 (d_ready_replicas deployment) in
  let available_replicas := or0 (d_available_replicas deployment) in
  let issues :=
    if (ready_replicas <? spec_replicas)%nat then
      (issues ++ [ {| type := "deployment_unhealthy";
                      severity := if (ready_replicas =? 0)%nat then "critical" else "warning";
                      resource := namespace ++ "/" ++ name;
                      message := "Deployment " ++ name ++ " has " ++ str_of_nat ready_replicas
                                 ++ "/" ++ str_of_nat spec_replicas ++ " ready replicas";
                      timestamp := now_iso |} ])%list
    else issues in
  let creation_time := d_creation_timestamp deployment in
  let age := now w - creation_time in
  max_age_days <- lift (threshold "max_deployment_age_days" 90) ;;
  old <- lift (py_gt_int (timedelta_days age) max_age_days) ;;
  if old then
    ret (issues ++ [ {| type := "deployment_old";
                        severity := "info";
                        resource := namespace ++ "/" ++ name;
                        message := "Deployment " ++ name ++ " is "
                                   ++ str_of_Z (timedelta_days age) ++ " days old";
                        timestamp := now_iso |} ])%list
  else ret issues.

(** The listing is the only statement of the [try] block that can raise
    [ApiException], and it runs before any issue is appended: the handler
    appends to the list as it is on entry. *)
Definition check_deployment_health (namespace : string) : M (list issue) :=
  let issues := [] in
  try_except
    (deployments <- lift (list_namespaced_deployment w namespace) ;;
     foldM (deployment_step namespace) deployments issues)
    is_ApiException
    (fun e =>
       logger_error ("Failed to check deployment health: " ++ exn_str e) ;;
       ret (issues ++ [api_error_issue namespace e])%list).

(** *** [check_pod_health] *)

(** The body of [for container_status in pod.status.container_statuses]. *)
Definition container_step (namespace name : string) (issues : list issue)
           (container_status : V1ContainerStatus) : M (list issue) :=
  let restart_count := cs_restart_count container_status in
  max_restarts <- lift (threshold "max_container_restarts" 5) ;;
  high <- lift (py_gt_int (Z.of_nat restart_count) max_restarts) ;;
  if high then
    ret (issues ++ [ {| type := "high_restart_count";
                        severity := "warning";
                        resource := namespace ++ "/" ++ name ++ "/" ++ cs_name container_status;
                        message := "Container " ++ cs_name container_status ++ " has restarted "
                                   ++ str_of_nat restart_count ++ " times";
                        timestamp := now_iso |} ])%list
  else ret issues.

Definition phase_is (phase : option string) (s : string) : bool :=
  match phase with Some p => String.eqb p s | None => false end.

(** The body of [for pod in pods.items]. *)
Definition pod_step (namespace : string) (issues : list issue) (pod : V1Pod)
  : M (list issue) :=
  let name := p_name pod in
  let phase := p_phase pod in
  let issues :=
    if phase_is phase "Failed" then
      (issues ++ [ {| type := "pod_failed";
                      severity := "critical";
                      resource := namespace ++ "/" ++ name;
                      message := "Pod " ++ name ++ " is in Failed state";
                      timestamp := now_iso |} ])%list
    else if phase_is phase "Pending" then
      let creation_time := p_creation_timestamp pod in
      let age := now w - creation_time in
      if total_seconds_gt age 300 then
        (issues ++ [ {| type := "pod_pending";
                        severity := "warning";
                        resource := namespace ++ "/" ++ name;
                        message := "Pod " ++ name ++ " has been pending for "
                                   ++ str_timedelta age;
                        timestamp := now_iso |} ])%list
      else issues
    else issues in
  match p_container_statuses pod with
  | Some (cs :: css) => foldM (container_step namespace name) (cs :: css) issues
  | _ => ret issues
  end.

Definition check_pod_health (namespace : string) : M (list issue) :=
  let issues := [] in
  try_except
    (pods <- lift (list_namespaced_pod w namespace) ;;
     foldM (pod_step namespace) pods issues)
    is_ApiException
    (fun e =>
       logger_error ("Failed to check pod health: " ++ exn_str e) ;;
       ret (issues ++ [api_error_issue namespace e])%list).

(** *** [check_resource_usage] *)

(** The conversion "to comparable values": [(hard_val, used_val)]. *)
Definition quota_values (resource hard_limit used : string) : result (pynum * pynum) :=
  if endswith resource ".cpu" then
    hard_val <-- _parse_cpu hard_limit ;;
    used_val <-- _parse_cpu used ;;
    Ok (PFloat hard_val, PFloat used_val)
  else if endswith resource ".memory" then
    hard_val <-- _parse_memory hard_limit ;;
    used_val <-- _parse_memory used ;;
    Ok (PInt hard_val, PInt used_val)
  else
    hard_val <-- py_int hard_limit ;;
    used_val <-- py_int used ;;
    Ok (PInt hard_val, PInt used_val).

(** [(used_val / hard_val) * 100 if hard_val > 0 else 0] *)
Definition usage_percent (used_val hard_val : pynum) : result pynum :=
  if num_gt hard_val (PInt 0) then
    ratio <-- num_truediv used_val hard_val ;;
    Ok (PFloat (fmul ratio (float_of_int 100)))
  else Ok (PInt 0).

(** The body of [for resource, hard_limit in quota.status.hard.items()]. *)
Definition quota_step (namespace quota_name : string) (used_map : list (string * string))
           (issues : list issue) (entry : string * string) : M (list issue) :=
  let (resource, hard_limit) := entry in
  let used := match assoc resource used_map with Some u => u | None => "0" end in
  vals <- lift (quota_values resource hard_limit used) ;;
  let (hard_val, used_val) := (vals : pynum * pynum) in
  usage_percent <- lift (usage_percent used_val hard_val) ;;
  if num_gt usage_percent (PInt 90) then
    ret (issues ++ [ {| type := "resource_quota_high";
                        severity := if num_gt usage_percent (PInt 95)
                                    then "critical" else "warning";
                        resource := namespace ++ "/" ++ quota_name ++ "/" ++ resource;
                        message := "Resource quota " ++ resource ++ " is "
                                   ++ format_1f usage_percent ++ "% used (" ++ used
                                   ++ "/" ++ hard_limit ++ ")";
                        timestamp := now_iso |} ])%list
  else ret issues.

(** The body of [for quota in quotas.items]. *)
Definition quota_loop_step (namespace : string) (issues : list issue)
           (quota : V1ResourceQuota) : M (list issue) :=
  match q_hard quota, q_used quota with
  | Some (h :: hs), Some (u :: us) =>
      foldM (quota_step namespace (q_name quota) (u :: us)) (h :: hs) issues
  | _, _ => ret issues
  end.

Definition check_resource_usage (namespace : string) : M (list issue) :=
  let issues := [] in
  try_except
    (quotas <- lift (list_namespaced_resource_quota w namespace) ;;
     foldM (quota_loop_step namespace) quotas issues)
    is_ApiException
    (fun e =>
       logger_error ("Failed to check resource usage: " ++ exn_str e) ;;
       ret issues).

(** *** [check_external_services] *)

(** The issue appended when a service answers with another status. *)
Definition unhealthy_issue (name : json) (status_code : Z) (expected_status : json)
  : issue :=
  {| type := "external_service_unhealthy";
     severity := "critical";
     resource := json_str name;
     message := "Service " ++ json_str name ++ " returned status " ++ str_of_Z status_code
                ++ ", expected " ++ json_str expected_status;
     timestamp := now_iso |}.

Definition unreachable_issue (name : json) (e : exn) : issue :=
  {| type := "external_service_unreachable";
     severity := "critical";
     resource := json_str name;
     message := "Service " ++ json_str name ++ " is unreachable: " ++ exn_str e;
     timestamp := now_iso |}.

(** The body of [for service in external_services]. *)
Definition service_step (issues : list issue) (service : json) : M (list issue) :=
  try_except
    (url <- lift (py_index service "url") ;;
     timeout <- lift (py_get service "timeout" (JInt 10)) ;;
     expected_status <- lift (py_get service "expected_status" (JInt 200)) ;;
     emit (HttpGet url timeout) ;;
     status_code <- lift (requests_get w url timeout) ;;
     if py_ne_int status_code expected_status then
       name <- lift (py_index service "name") ;;
       ret (issues ++ [unhealthy_issue name status_code expected_status])%list
     else ret issues)
    is_RequestException
    (fun e =>
       name <- lift (py_index service "name") ;;
       ret (issues ++ [unreachable_issue name e])%list).

Definition check_external_services : M (list issue) :=
  let issues := [] in
  external_services <- lift (py_get (config self) "external_services" (JList [])) ;;
  services <- lift (py_iter external_services) ;;
  foldM service_step services issues.

(** *** [check_certificate_expiry]: the loop over the secrets only passes. *)
Definition check_certificate_expiry (namespace : string) : M (list issue) :=
  let issues := [] in
  try_except
    (secrets <- lift (list_namespaced_secret w namespace) ;;
     foldM (fun issues (secret : V1Secret) => ret issues) secrets issues)
    is_ApiException
    (fun e =>
       logger_error ("Failed to check certificates: " ++ exn_str e) ;;
       ret issues).

(** *** [run_health_checks] *)

Definition has_severity (s : string) (i : issue) : bool := String.eqb (severity i) s.

(** The body of [for namespace in namespaces]. *)
Definition namespace_step (all_issues : list issue) (namespace : string)
  : M (list issue) :=
  logger_info ("Checking health for namespace: " ++ namespace) ;;
  d <- check_deployment_health namespace ;;
  let all_issues := (all_issues ++ d)%list in
  p <- check_pod_health namespace ;;
  let all_issues := (all_issues ++ p)%list in
  r <- check_resource_usage namespace ;;
  let all_issues := (all_issues ++ r)%list in
  c <- check_certificate_expiry namespace ;;
  ret (all_issues ++ c)%list.

Definition run_health_checks (namespaces : list string) : M HealthReport :=
  let all_issues := [] in
  all_issues <- foldM namespace_step namespaces all_issues ;;
  e <- check_external_services ;;
  let all_issues := (all_issues ++ e)%list in
  let issues_by_severity :=
    {| critical := filter (has_severity "critical") all_issues;
       warning := filter (has_severity "warning") all_issues;
       info := filter (has_severity "info") all_issues |} in
  ret {| report_timestamp := now_iso;
         total_issues := List.length all_issues;
         issues_by_severity := issues_by_severity;
         all_issues := all_issues |}.

(** *** [send_alerts] *)

(** [self.config.get('alerts', {}).get(channel, {}).get(key, False)] *)
Definition alert_gate (channel key : string) : result bool :=
  alerts <-- py_get (config self) "alerts" (JDict []) ;;
  ch <-- py_get alerts channel (JDict []) ;;
  v <-- py_get ch key (JBool false) ;;
  Ok (truthy v).

(** The [if critical_issues:] block. *)
Definition send_critical_alerts (health_report : HealthReport) : M unit :=
  let critical_issues := critical (issues_by_severity health_report) in
  match critical_issues with
  | [] => ret tt
  | _ :: _ =>
      let message := _format_alert_message critical_issues "CRITICAL" in
      email <- lift (alert_gate "email" "critical") ;;
      (if email then
         alerts <- lift (py_index (config self) "alerts") ;;
         email_cfg <- lift (py_index alerts "email") ;;
         recipients <- lift (py_index email_cfg "recipients") ;;
         send_email_alert w (alert_manager self)
           "CRITICAL: CI/CD Infrastructure Issues" message recipients ;;
         ret tt
       else ret tt) ;;
      slack <- lift (alert_gate "slack" "critical") ;;
      (if slack then send_slack_alert w (alert_manager self) message JNull ;; ret tt
       else ret tt) ;;
      webhook <- lift (alert_gate "webhook" "critical") ;;
      (if webhook then
         send_webhook_alert w (alert_manager self)
           (WebhookPayload "critical" critical_issues (report_timestamp health_report)) ;;
         ret tt
       else ret tt)
  end.

(** [self.config.get('alerts', {}).get('send_warnings', True)] *)
Definition send_warnings : result bool :=
  alerts <-- py_get (config self) "alerts" (JDict []) ;;
  v <-- py_get alerts "send_warnings" (JBool true) ;;
  Ok (truthy v).

(** The [if warning_issues and ...send_warnings...:] block. *)
Definition send_warning_alerts (health_report : HealthReport) : M unit :=
  let warning_issues := warning (issues_by_severity health_report) in
  match warning_issues with
  | [] => ret tt
  | _ :: _ =>
      enabled <- lift send_warnings ;;
      if enabled then
        let message := _format_alert_message warning_issues "WARNING" in
        slack <- lift (alert_gate "slack" "warning") ;;
        if slack then send_slack_alert w (alert_manager self) message JNull ;; ret tt
        else ret tt
      else ret tt
  end.

Definition send_alerts (health_report : HealthReport) : M unit :=
  send_critical_alerts health_report ;;
  send_warning_alerts health_report.

End Monitor.

(** [CICDMonitor._load_config] *)
Definition _load_config (w : World) (config_file : string) : M json :=
  try_except
    (lift (read_config w config_file))
    is_Exception
    (fun e =>
       logger_error ("Failed to load config file " ++ config_file ++ ": " ++ exn_str e) ;;
       lift (Raise e)).

(** [CICDMonitor.__init__] *)
Definition CICDMonitor_init (w : World) (config_file : string) : M CICDMonitor :=
  config <- _load_config w config_file ;;
  alerts <- lift (py_get config "alerts" (JDict [])) ;;
  alert_manager <- lift (AlertManager_init alerts) ;;
  try_except
    (lift (kubernetes_client w))
    is_Exception
    (fun e =>
       logger_error ("Failed to initialize Kubernetes client: " ++ exn_str e) ;;
       lift (Raise e)) ;;
  ret (mk_monitor config alert_manager).

(* ===================================================================== *)
(** ** [main] *)
(* ===================================================================== *)

(** The parsed command line. *)
Record Args := mk_args {
  args_config : string;
  args_namespaces : list string;
  args_once : bool;
  args_interval : Z;
  args_output : option string
}.

(** [if args.output:] *)
Definition output_path (args : Args) : option string :=
  match args_output args with
  | Some p => if str_is_empty p then None else Some p
  | None => None
  end.

(** [time.sleep(seconds)]: a negative length is a [ValueError]. *)
Definition time_sleep (w : World) (seconds : Z) : M unit :=
  if seconds <? 0 then lift (Raise (mk_exn ValueError "sleep length must be non-negative"))
  else emit (Sleep seconds) ;; lift (sleep_outcome w seconds).

(** [with open(args.output, 'w') as f: json.dump(health_report, f, indent=2)] *)
Definition dump_report (w : World) (path : string) (health_report : HealthReport) : M unit :=
  emit (WriteFile path health_report) ;;
  lift (write_report w path health_report).

(** The [if args.once:] branch. *)
Definition run_once (w : World) (monitor : CICDMonitor) (args : Args) : M unit :=
  health_report <- run_health_checks w monitor (args_namespaces args) ;;
  match output_path args with
  | Some path =>
      dump_report w path health_report ;;
      logger_info ("Health report saved to " ++ path)
  | None => emit (Print health_report)
  end ;;
  send_alerts w monitor health_report.

(** The [try] block inside [while True]: one monitoring cycle. *)
Definition cycle_body (w : World) (monitor : CICDMonitor) (args : Args) : M unit :=
  health_report <- run_health_checks w monitor (args_namespaces args) ;;
  send_alerts w monitor health_report ;;
  match output_path args with
  | Some path => dump_report w path health_report
  | None => ret tt
  end ;;
  logger_info ("Health check completed. Found " ++ str_of_nat (total_issues health_report)
               ++ " issues.").

(** One iteration of [while True]: the guarded cycle, then the sleep. *)
Definition cycle (w : World) (monitor : CICDMonitor) (args : Args) : M unit :=
  try_except
    (cycle_body w monitor args)
    is_Exception
    (fun e => logger_error ("Health check failed: " ++ exn_str e)) ;;
  time_sleep w (args_interval args).

(** [while True], observed for [fuel] iterations starting with iteration
    [k]; iteration [k] runs in the world [worlds k].  [Ok tt] means that no
    iteration raised: the loop is still running when the observation ends. *)
Fixpoint monitor_loop (worlds : nat -> World) (monitor : CICDMonitor) (args : Args)
         (fuel k : nat) : M unit :=
  match fuel with
  | O => ret tt
  | S fuel' =>
      cycle (worlds k) monitor args ;;
      monitor_loop worlds monitor args fuel' (S k)
  end.

(** How an observation of [main] ends. *)
Inductive exit_status :=
| Exit (code : Z)       (* main returned [code], the argument of [exit] *)
| Running.              (* the continuous loop is still running *)

(** [main], after [parser.parse_args()].  Start-up and the single-shot run
    happen in [worlds 0]; the continuous loop is observed for [fuel]
    iterations.  The two [except] clauses of the outer [try] are two nested
    handlers here: neither handler raises, so none of them sees an exception
    of the other. *)
Definition main (worlds : nat -> World) (args : Args) (fuel : nat) : M exit_status :=
  try_except
    (try_except
       (monitor <- CICDMonitor_init (worlds O) (args_config args) ;;
        if args_once args then
          run_once (worlds O) monitor args ;;
          ret (Exit 0)
        else
          logger_info ("Starting continuous monitoring with "
                       ++ str_of_Z (args_interval args) ++ "s interval") ;;
          monitor_loop worlds monitor args fuel O ;;
          ret Running)
       is_KeyboardInterrupt
       (fun _ => logger_info "Monitoring stopped by user" ;; ret (Exit 0)))
    is_Exception
    (fun e => logger_error ("Monitor failed: " ++ exn_str e) ;; ret (Exit 1)).

(* ===================================================================== *)
(** * Vocabulary of the properties *)
(* ===================================================================== *)


(** One formatted entry: kind and message, resource, time. *)
Definition render_issue (i : issue) : string :=
  "â€¢ " ++ type i ++ ": " ++ message i ++ "
  Resource: " ++ resource i ++ "
  Time: " ++ timestamp i ++ "

".

(** The two heading lines of the message for [n] issues. *)
Definition alert_header (n : nat) (severity : string) : string :=
  "ðŸš¨ " ++ severity ++ " CI/CD Infrastructure Alert

Found " ++ str_of_nat n ++ " " ++ str_lower severity ++ " issues:

".

(** The closing line that counts the issues left out. *)
Definition more_issues (n : nat) : string :=
  "... and " ++ str_of_nat n ++ " more issues
".

Definition concat_all (l : list string) : string := fold_right append "" l.

Definition sample_issue : issue :=
  mk_issue "pod_failed" "critical" "prod/api" "Pod api is in Failed state" "t0".

Definition ready_of (d : V1Deployment) : nat := or0 (d_ready_replicas d).
Definition desired_of (d : V1Deployment) : nat := or0 (d_spec_replicas d).

(** [ready_replicas < spec_replicas] *)
Definition has_deficit (d : V1Deployment) : bool := (ready_of d <? desired_of d)%nat.

Definition has_type (t : string) (i : issue) : bool := String.eqb (type i) t.

(** The issues one deployment adds to the list. *)
Definition deployment_added (w : World) (self : CICDMonitor) (namespace : string)
           (d : V1Deployment) : list issue :=
  match outcome (deployment_step w self namespace [] d) with
  | Ok l => l
  | Raise _ => []
  end.

(** *** Sample worlds and monitors *)

(** An empty cluster behind a network, a mail server and a file system that
    all work; the configuration file holds an empty dictionary. *)
Definition quiet_world : World :=
  {| now := 1700000000000000;
     isoformat := str_of_Z;
     list_namespaced_deployment := fun _ => Ok [];
     list_namespaced_pod := fun _ => Ok [];
     list_namespaced_resource_quota := fun _ => Ok [];
     list_namespaced_secret := fun _ => Ok [];
     requests_get := fun _ _ => Ok 200;
     requests_post := fun _ _ _ => Ok tt;
     smtp_conversation := fun _ _ _ _ _ => Ok tt;
     write_report := fun _ _ => Ok tt;
     sleep_outcome := fun _ => Ok tt;
     read_config := fun _ => Ok (JDict []);
     kubernetes_client := Ok tt |}.

(** [w] with the deployments answered by [f]. *)
Definition with_deployments (w : World)
           (f : string -> result (list V1Deployment)) : World :=
  {| now := now w;
     isoformat := isoformat w;
     list_namespaced_deployment := f;
     list_namespaced_pod := list_namespaced_pod w;
     list_namespaced_resource_quota := list_namespaced_resource_quota w;
     list_namespaced_secret := list_namespaced_secret w;
     requests_get := requests_get w;
     requests_post := requests_post w;
     smtp_conversation := smtp_conversation w;
     write_report := write_report w;
     sleep_outcome := sleep_outcome w;
     read_config := read_config w;
     kubernetes_client := kubernetes_client w |}.

(** [w] with the resource quotas answered by [f]. *)
Definition with_quotas (w : World)
           (f : string -> result (list V1ResourceQuota)) : World :=
  {| now := now w;
     isoformat := isoformat w;
     list_namespaced_deployment := list_namespaced_deployment w;
     list_namespaced_pod := list_namespaced_pod w;
     list_namespaced_resource_quota := f;
     list_namespaced_secret := list_namespaced_secret w;
     requests_get := requests_get w;
     requests_post := requests_post w;
     smtp_conversation := smtp_conversation w;
     write_report := write_report w;
     sleep_outcome := sleep_outcome w;
     read_config := read_config w;
     kubernetes_client := kubernetes_client w |}.

(** [w] with the configuration file holding [c]. *)
Definition with_config (w : World) (c : json) : World :=
  {| now := now w;
     isoformat := isoformat w;
     list_namespaced_deployment := list_namespaced_deployment w;
     list_namespaced_pod := list_namespaced_pod w;
     list_namespaced_resource_quota := list_namespaced_resource_quota w;
     list_namespaced_secret := list_namespaced_secret w;
     requests_get := requests_get w;
     requests_post := requests_post w;
     smtp_conversation := smtp_conversation w;
     write_report := write_report w;
     sleep_outcome := sleep_outcome w;
     read_config := fun _ => Ok c;
     kubernetes_client := kubernetes_client w |}.

(** The monitor that [CICDMonitor.__init__] builds from the configuration [c]
    when [c] and its ['alerts'] are dictionaries. *)
Definition monitor_of (c : json) : CICDMonitor :=
  let get v k := match py_get v k (JDict []) with Ok x => x | Raise _ => JDict [] end in
  let alerts := get c "alerts" in
  mk_monitor c (mk_alert_manager alerts (get alerts "smtp") (get alerts "slack")
                                 (get alerts "webhook")).

(** A monitor with the empty configuration. *)
Definition plain_monitor : CICDMonitor := monitor_of (JDict []).

(** Three deployments: none of three replicas ready, two of three, three of
    three. *)
Definition three_deployments : list V1Deployment :=
  [ mk_deployment "web" 1699000000000000 (Some 3%nat) (Some 0%nat) (Some 0%nat);
    mk_deployment "db" 1699000000000000 (Some 3%nat) (Some 2%nat) (Some 2%nat);
    mk_deployment "cache" 1699000000000000 (Some 3%nat) (Some 3%nat) (Some 3%nat) ].

(** A deployment whose status carries no replica counts. *)
Definition unset_status_deployment : V1Deployment :=
  mk_deployment "api" 1699000000000000 (Some 2%nat) None None.

(** A deployment whose desired replica count is unset. *)
Definition unset_spec_deployment : V1Deployment :=
  mk_deployment "job" 1699000000000000 None (Some 1%nat) None.

(** *** Quota usage *)

(** [used / hard * 100] *)
Definition percent_used (used hard : Q) : Q := (used / hard * 100)%Q.


(** [quota.status.used.get(resource, '0')] *)
Definition used_of (used_map : list (string * string)) (resource : string) : string :=
  match assoc resource used_map with Some u => u | None => "0" end.



(** *** Malformed quantities *)

(** A quota of the namespace [namespace] holds a quantity that cannot be
    converted: the conversion of the hard limit and the usage of [resource]
    raises [e]. *)
Definition malformed_quantity (w : World) (namespace : string) (e : exn) : Prop :=
  exists quotas q hard used resource hard_limit,
    list_namespaced_resource_quota w namespace = Ok quotas
    /\ In q quotas
    /\ q_hard q = Some hard
    /\ q_used q = Some used
    /\ used <> []
    /\ In (resource, hard_limit) hard
    /\ quota_values resource hard_limit (used_of used resource) = Raise e.



(** *** A cluster whose quota listing fails *)

Definition api_outage : exn := mk_exn ApiException "(500) Reason: Internal Server Error".

(** A quota with 96 of 100 pods used. *)
Definition pods_quota : V1ResourceQuota :=
  mk_quota "compute" (Some [("pods", "100")]) (Some [("pods", "96")]).

(** The quotas of "payments" cannot be listed; those of every other
    namespace can. *)
Definition quota_outage_world : World :=
  with_quotas quiet_world
    (fun namespace =>
       if String.eqb namespace "payments" then Raise api_outage else Ok [pods_quota]).

(** The deployments of "payments" cannot be listed. *)
Definition deployment_outage_world : World :=
  with_deployments quiet_world
    (fun namespace =>
       if String.eqb namespace "payments" then Raise api_outage
       else Ok three_deployments).

(** *** Alert channels *)

Inductive channel := Email | Slack | Webhook.

(** The key of a channel's gates under ['alerts']. *)
Definition channel_key (c : channel) : string :=
  match c with Email => "email" | Slack => "slack" | Webhook => "webhook" end.

(** The transport configuration [AlertManager] keeps for a channel. *)
Definition channel_config (am : AlertManager) (c : channel) : json :=
  match c with
  | Email => smtp_config am
  | Slack => slack_config am
  | Webhook => webhook_config am
  end.

(** [config.get('enabled', False)] of a channel. *)
Definition channel_enabled (am : AlertManager) (c : channel) : result bool :=
  v <-- py_get (channel_config am c) "enabled" (JBool false) ;;
  Ok (truthy v).

(** The events by which a channel's transport is engaged. *)
Definition is_transport (c : channel) (ev : event) : bool :=
  match c, ev with
  | Email, SmtpSend _ _ _ _ _ => true
  | Slack, HttpPost _ (SlackPayload _ _ _ _) _ => true
  | Webhook, HttpPost _ (WebhookPayload _ _ _) _ => true
  | _, _ => false
  end.

(** A send over the channel [c] was attempted in the trace [t]. *)
Definition attempted (c : channel) (t : list event) : bool := existsb (is_transport c) t.

(** The dispatch of warnings as the specification states it: every enabled
    channel whose warning gate is set is attempted. *)
Definition warning_dispatch_as_stated : Prop :=
  forall (w : World) (self : CICDMonitor) (report : HealthReport) (c : channel),
    warning (issues_by_severity report) <> [] ->
    send_warnings self = Ok true ->
    channel_enabled (alert_manager self) c = Ok true ->
    alert_gate self (channel_key c) "warning" = Ok true ->
    attempted c (trace (send_alerts w self report)) = true.

(** A configuration with every channel enabled, fully parameterised and
    gated for both severities. *)
Definition all_channels_config : json :=
  JDict
    [("alerts",
      JDict
        [("send_warnings", JBool true);
         ("email", JDict [("critical", JBool true); ("warning", JBool true);
                          ("recipients", JList [JStr "ops@example.com"])]);
         ("slack", JDict [("critical", JBool true); ("warning", JBool true);
                          ("enabled", JBool true);
                          ("webhook_url", JStr "https://hooks.example.com/T0")]);
         ("webhook", JDict [("critical", JBool true); ("warning", JBool true);
                            ("enabled", JBool true);
                            ("url", JStr "https://alerts.example.com/in")]);
         ("smtp", JDict [("enabled", JBool true); ("from", JStr "monitor@example.com");
                         ("host", JStr "smtp.example.com"); ("port", JInt 25)])])].

Definition sample_warning : issue :=
  mk_issue "pod_pending" "warning" "prod/api" "Pod api has been pending for 0:10:00" "t0".

(** A report with one warning and nothing else. *)
Definition warning_report : HealthReport :=
  {| report_timestamp := "t0";
     total_issues := 1;
     issues_by_severity := {| critical := []; warning := [sample_warning]; info := [] |};
     all_issues := [sample_warning] |}.

(** *** Single-shot runs *)

(** The exit status of a single-shot run as the specification states it:
    non-zero when the report holds a critical issue, 0 when it holds no
    issue. *)
Definition exit_status_as_stated : Prop :=
  forall (worlds : nat -> World) (args : Args) (fuel : nat)
         (monitor : CICDMonitor) (report : HealthReport) (code : Z)
         (t0 t1 : list event),
    args_once args = true ->
    CICDMonitor_init (worlds O) (args_config args) = (t0, Ok monitor) ->
    run_health_checks (worlds O) monitor (args_namespaces args) = (t1, Ok report) ->
    outcome (main worlds args fuel) = Ok (Exit code) ->
    (critical (issues_by_severity report) <> [] -> code <> 0)
    /\ (total_issues report = 0%nat -> code = 0).

(** The whole of a single-shot run: start-up, then the [--once] branch. *)
Definition single_shot (w : World) (args : Args) : M unit :=
  monitor <- CICDMonitor_init w (args_config args) ;;
  run_once w monitor args.

(** [monitor.py --config monitor.yaml --namespaces prod --once] *)
Definition once_args : Args := mk_args "monitor.yaml" ["prod"] true 300 None.

(** [monitor.py --config monitor.yaml --namespaces prod --interval 300] *)
Definition continuous_args : Args := mk_args "monitor.yaml" ["prod"] false 300 None.

(** A cluster with a deployment that has none of its replicas ready. *)
Definition degraded_world : World :=
  with_deployments quiet_world (fun _ => Ok three_deployments).

(** *** Continuous runs *)

(** The interrupt and the failures that a call can only get from outside. *)
Definition interrupts_only (r : result unit) : Prop :=
  forall e, r = Raise e -> is_Exception e = false.

(** A cluster whose deployment listing fails with a connection error, which
    is not an [ApiException]. *)
Definition unreachable_world : World :=
  with_deployments quiet_world
    (fun _ => Raise (mk_exn OtherException "Max retries exceeded")).

(* ===================================================================== *)
(** * Vocabulary of the further properties *)
(* ===================================================================== *)

(** The list a computation returns, empty when it raises. *)
Definition issues_of (m : M (list issue)) : list issue :=
  match outcome m with
  | Ok l => l
  | Raise _ => []
  end.

(** The computation [m], with what it returns appended to [s]. *)
Definition appended (s : list issue) (m : M (list issue)) : M (list issue) :=
  (trace m,
   match outcome m with
   | Ok l => Ok (s ++ l)%list
   | Raise e => Raise e
   end).

(** One of the three severities the report groups by. *)
Definition known_severity (i : issue) : bool :=
  has_severity "critical" i || has_severity "warning" i || has_severity "info" i.

(** What the three checks of one namespace that can report issues return,
    in the order [run_health_checks] calls them. *)
Definition namespace_issues (w : World) (self : CICDMonitor) (namespace : string)
  : list issue :=
  (issues_of (check_deployment_health w self namespace)
   ++ issues_of (check_pod_health w self namespace)
   ++ issues_of (check_resource_usage w namespace))%list.

(** *** Pods *)

(** [pod.status.container_statuses], empty when absent. *)
Definition containers_of (pod : V1Pod) : list V1ContainerStatus :=
  match p_container_statuses pod with
  | Some l => l
  | None => []
  end.

(** [pod.status.phase == 'Failed'] *)
Definition is_failed (pod : V1Pod) : bool :=
  match p_phase pod with Some p => String.eqb p "Failed" | None => false end.

(** The pod is pending and older than 300 seconds at the time [t]. *)
Definition is_stuck_pending (t : Z) (pod : V1Pod) : bool :=
  match p_phase pod with
  | Some p => String.eqb p "Pending" && (300 * us_per_second <? t - p_creation_timestamp pod)
  | None => false
  end.

(** [restart_count > max_restarts] *)
Definition restarts_above (max_restarts : Z) (c : V1ContainerStatus) : bool :=
  max_restarts <? Z.of_nat (cs_restart_count c).

(** The issues one pod adds to the list. *)
Definition pod_added (w : World) (self : CICDMonitor) (namespace : string) (pod : V1Pod)
  : list issue :=
  issues_of (pod_step w self namespace [] pod).

(** The pod without its container statuses. *)
Definition without_containers (pod : V1Pod) : V1Pod :=
  mk_pod (p_name pod) (p_creation_timestamp pod) (p_phase pod) None.

(** [w] with the pods answered by [f]. *)
Definition with_pods (w : World) (f : string -> result (list V1Pod)) : World :=
  {| now := now w;
     isoformat := isoformat w;
     list_namespaced_deployment := list_namespaced_deployment w;
     list_namespaced_pod := f;
     list_namespaced_resource_quota := list_namespaced_resource_quota w;
     list_namespaced_secret := list_namespaced_secret w;
     requests_get := requests_get w;
     requests_post := requests_post w;
     smtp_conversation := smtp_conversation w;
     write_report := write_report w;
     sleep_outcome := sleep_outcome w;
     read_config := read_config w;
     kubernetes_client := kubernetes_client w |}.

(** A failed pod, a pod pending for 301 seconds, a pod pending for exactly
    300 seconds, and a running pod with a container restarted 6 times and
    one restarted 5 times; the clock of [quiet_world] reads
    1700000000000000. *)
Definition four_pods : list V1Pod :=
  [ mk_pod "crashed" 1699000000000000 (Some "Failed") None;
    mk_pod "waiting" 1699999699000000 (Some "Pending") None;
    mk_pod "fresh" 1699999700000000 (Some "Pending") (Some []);
    mk_pod "flaky" 1699000000000000 (Some "Running")
           (Some [mk_container_status "app" 6; mk_container_status "sidecar" 5]) ].

(** *** Deployments *)

(** [age.days > max_age_days] at the time [t] *)
Definition older_than (t max_age_days : Z) (d : V1Deployment) : bool :=
  max_age_days <? timedelta_days (t - d_creation_timestamp d).

(** A deployment created 91 days before the clock of [quiet_world], and one
    created exactly 90 days before it; both have their replicas ready. *)
Definition two_aged_deployments : list V1Deployment :=
  [ mk_deployment "legacy" (1700000000000000 - 91 * us_per_day)
                  (Some 1%nat) (Some 1%nat) (Some 1%nat);
    mk_deployment "recent" (1700000000000000 - 90 * us_per_day)
                  (Some 1%nat) (Some 1%nat) (Some 1%nat) ].

(** A configuration whose age threshold is a string. *)
Definition text_threshold_config : json :=
  JDict [("thresholds", JDict [("max_deployment_age_days", JStr "ninety")])].

(** *** External services *)

(** [service['url']] and [service['name']] of an entry that has them. *)
Definition svc_url (service : json) : json :=
  match py_index service "url" with Ok v => v | Raise _ => JNull end.


(** [service.get('timeout', 10)] and [service.get('expected_status', 200)]. *)
Definition svc_timeout (service : json) : json :=
  match py_get service "timeout" (JInt 10) with Ok v => v | Raise _ => JInt 10 end.

Definition svc_expected (service : json) : json :=
  match py_get service "expected_status" (JInt 200) with Ok v => v | Raise _ => JInt 200 end.

(** The answer to the request the check sends for a service. *)
Definition probe (w : World) (service : json) : result Z :=
  requests_get w (svc_url service) (svc_timeout service).

(** The service answers with another status than expected, or the request
    fails with a [RequestException]. *)
Definition service_down (w : World) (service : json) : bool :=
  match probe w service with
  | Ok code => py_ne_int code (svc_expected service)
  | Raise e => is_RequestException e
  end.






(** An entry without a URL. *)
Definition nameless_url_service : json := JDict [("name", JStr "artifacts")].



(** *** Dispatch *)

(** [self.config['alerts']['email']['recipients']] *)
Definition recipients_of (self : CICDMonitor) : result json :=
  alerts <-- py_index (config self) "alerts" ;;
  email <-- py_index alerts "email" ;;
  py_index email "recipients".

(** The transports fail only with exceptions of class [Exception]. *)
Definition transports_fail_softly (w : World) : Prop :=
  (forall cfg from to subject message e,
      smtp_conversation w cfg from to subject message = Raise e -> is_Exception e = true)
  /\ (forall url body headers e,
        requests_post w url body headers = Raise e -> is_Exception e = true).

(** [w] with the SMTP conversation ending as [r]. *)
Definition with_smtp (w : World) (r : result unit) : World :=
  {| now := now w;
     isoformat := isoformat w;
     list_namespaced_deployment := list_namespaced_deployment w;
     list_namespaced_pod := list_namespaced_pod w;
     list_namespaced_resource_quota := list_namespaced_resource_quota w;
     list_namespaced_secret := list_namespaced_secret w;
     requests_get := requests_get w;
     requests_post := requests_post w;
     smtp_conversation := fun _ _ _ _ _ => r;
     write_report := write_report w;
     sleep_outcome := sleep_outcome w;
     read_config := read_config w;
     kubernetes_client := kubernetes_client w |}.

Definition sample_critical : issue :=
  mk_issue "pod_failed" "critical" "prod/api" "Pod api is in Failed state" "t0".

(** A report with one critical issue and nothing else. *)
Definition critical_report : HealthReport :=
  {| report_timestamp := "t0";
     total_issues := 1;
     issues_by_severity := {| critical := [sample_critical]; warning := []; info := [] |};
     all_issues := [sample_critical] |}.

Definition sample_info : issue :=
  mk_issue "deployment_old" "info" "prod/api" "Deployment api is 120 days old" "t0".

(** A report with one info issue and nothing else. *)
Definition info_report : HealthReport :=
  {| report_timestamp := "t0";
     total_issues := 1;
     issues_by_severity := {| critical := []; warning := []; info := [sample_info] |};
     all_issues := [sample_info] |}.

(** The email gate is set for critical issues, and no recipients are
    configured; Slack is enabled and gated. *)
Definition no_recipients_config : json :=
  JDict
    [("alerts",
      JDict
        [("email", JDict [("critical", JBool true)]);
         ("slack", JDict [("critical", JBool true); ("warning", JBool true);
                          ("enabled", JBool true);
                          ("webhook_url", JStr "https://hooks.example.com/T0")]);
         ("smtp", JDict [("enabled", JBool true); ("from", JStr "monitor@example.com");
                         ("host", JStr "smtp.example.com"); ("port", JInt 25)])])].

(** Whatever the computation [m] raises satisfies [P]. *)
Definition raises_in {A} (P : exn -> Prop) (m : M A) : Prop :=
  forall e, outcome m = Raise e -> P e.

(** *** Start-up and the loop *)

(** [w] whose configuration file cannot be read. *)
Definition unreadable_config_world : World :=
  {| now := now quiet_world;
     isoformat := isoformat quiet_world;
     list_namespaced_deployment := list_namespaced_deployment quiet_world;
     list_namespaced_pod := list_namespaced_pod quiet_world;
     list_namespaced_resource_quota := list_namespaced_resource_quota quiet_world;
     list_namespaced_secret := list_namespaced_secret quiet_world;
     requests_get := requests_get quiet_world;
     requests_post := requests_post quiet_world;
     smtp_conversation := smtp_conversation quiet_world;
     write_report := write_report quiet_world;
     sleep_outcome := sleep_outcome quiet_world;
     read_config := fun _ => Raise (mk_exn OSError "No such file or directory");
     kubernetes_client := kubernetes_client quiet_world |}.

(** The guarded part of one iteration of [while True]. *)
Definition guarded_cycle (w : World) (monitor : CICDMonitor) (args : Args) : M unit :=
  try_except
    (cycle_body w monitor args)
    is_Exception
    (fun e => logger_error ("Health check failed: " ++ exn_str e)).

(** [monitor.py --config monitor.yaml --namespaces prod --interval -5] *)
Definition negative_interval_args : Args := mk_args "monitor.yaml" ["prod"] false (-5) None.

(** [w] in which the sleep is interrupted from the keyboard. *)
Definition interrupted_world : World :=
  {| now := now quiet_world;
     isoformat := isoformat quiet_world;
     list_namespaced_deployment := list_namespaced_deployment quiet_world;
     list_namespaced_pod := list_namespaced_pod quiet_world;
     list_namespaced_resource_quota := list_namespaced_resource_quota quiet_world;
     list_namespaced_secret := list_namespaced_secret quiet_world;
     requests_get := requests_get quiet_world;
     requests_post := requests_post quiet_world;
     smtp_conversation := smtp_conversation quiet_world;
     write_report := write_report quiet_world;
     sleep_outcome := fun _ => Raise (mk_exn KeyboardInterrupt "");
     read_config := read_config quiet_world;
     kubernetes_client := kubernetes_client quiet_world |}.

(** *** Quantities *)

(** An ASCII character that no [int()] literal contains: neither a digit,
    nor a sign, nor an underscore, nor whitespace. *)
Definition not_integer_char (c : ascii) : bool :=
  (nat_of_ascii c <? 128)%nat
  && negb (is_space c || is_digit c || Ascii.eqb c "_" || Ascii.eqb c "+"
           || Ascii.eqb c "-").

(** A quota under the plain keys [cpu] and [memory]. *)
Definition plain_keys_quota : V1ResourceQuota :=
  mk_quota "compute" (Some [("memory", "8Gi")]) (Some [("memory", "1Gi")]).

(** A quota with a limit on pods and no usage recorded for them. *)
Definition unused_pods_quota : V1ResourceQuota :=
  mk_quota "compute" (Some [("pods", "10")]) (Some [("services", "3")]).

(** The email gate is set and the ['email'] section claims to be enabled,
    but there is no ['smtp'] section. *)
Definition email_without_smtp_config : json :=
  JDict
    [("alerts",
      JDict
        [("email", JDict [("enabled", JBool true); ("critical", JBool true);
                          ("recipients", JList [JStr "ops@example.com"])])])].

(** [monitor.py --config monitor.yaml --namespaces prod --once --output report.json] *)
Definition once_output_args : Args :=
  mk_args "monitor.yaml" ["prod"] true 300 (Some "report.json").

(** [w] in which the report cannot be written. *)
Definition read_only_world : World :=
  {| now := now quiet_world;
     isoformat := isoformat quiet_world;
     list_namespaced_deployment := list_namespaced_deployment quiet_world;
     list_namespaced_pod := list_namespaced_pod quiet_world;
     list_namespaced_resource_quota := list_namespaced_resource_quota quiet_world;
     list_namespaced_secret := list_namespaced_secret quiet_world;
     requests_get := requests_get quiet_world;
     requests_post := requests_post quiet_world;
     smtp_conversation := smtp_conversation quiet_world;
     write_report := fun _ _ => Raise (mk_exn OSError "Read-only file system");
     sleep_outcome := sleep_outcome quiet_world;
     read_config := read_config quiet_world;
     kubernetes_client := kubernetes_client quiet_world |}.

(** The key under ['alerts'] of the section in which [AlertManager] looks for
    the transport of a channel and for its ['enabled'] flag. *)
Definition transport_section (c : channel) : string :=
  match c with Email => "smtp" | Slack => "slack" | Webhook => "webhook" end.

(* ===================================================================== *)
(** * Properties *)
(* ===================================================================== *)

(** ** Strings *)

Lemma append_empty_r (s : string) : s ++ "" = s.
Proof. induction s as [|c s IH]; simpl; [reflexivity | now rewrite IH]. Qed.

Lemma append_assoc (a b c : string) : (a ++ b) ++ c = a ++ (b ++ c).
Proof. induction a as [|x a IH]; simpl; [reflexivity | now rewrite IH]. Qed.


Lemma substring_whole (s : string) : substring 0 (String.length s) s = s.
Proof. induction s as [|c s IH]; simpl; [reflexivity | now rewrite IH]. Qed.








(** ** Numbers *)

Lemma Qlt_bool_iff (x y : Q) : Qlt_bool x y = true <-> (x < y)%Q.
Proof.
  unfold Qlt_bool. rewrite negb_true_iff. split; intros H.
  - apply Qnot_le_lt. intros L. apply Qle_bool_iff in L. congruence.
  - destruct (Qle_bool y x) eqn:E; [|reflexivity].
    apply Qle_bool_iff in E. exfalso. exact (Qlt_not_le _ _ H E).
Qed.

Lemma Qlt_bool_false_iff (x y : Q) : Qlt_bool x y = false <-> (y <= x)%Q.
Proof.
  unfold Qlt_bool. rewrite negb_false_iff. apply Qle_bool_iff.
Qed.


(** ** The quantity parsers *)








(** ** The alert message *)

Lemma format_issue_render (text : string) (i : issue) :
  format_issue text i = text ++ render_issue i.
Proof.
  unfold format_issue, render_issue.
  repeat rewrite append_assoc. reflexivity.
Qed.

Lemma fold_format_issue (l : list issue) (text : string) :
  fold_left format_issue l text = text ++ concat_all (map render_issue l).
Proof.
  revert text. induction l as [|i l IH]; intros text; simpl.
  - now rewrite append_empty_r.
  - rewrite IH, format_issue_render, append_assoc. reflexivity.
Qed.

Lemma firstn_min_length {A} (l : list A) (k : nat) :
  firstn (Nat.min (List.length l) k) l = firstn k l.
Proof.
  destruct (Nat.le_ge_cases (List.length l) k) as [H | H].
  - rewrite Nat.min_l by exact H.
    rewrite firstn_all, firstn_all2 by exact H. reflexivity.
  - now rewrite Nat.min_r.
Qed.

Lemma format_alert_message_shape (issues : list issue) (severity : string) :
  _format_alert_message issues severity =
  alert_header (List.length issues) severity
  ++ concat_all (map render_issue (firstn 10 issues))
  ++ (if (10 <? List.length issues)%nat then more_issues (List.length issues - 10)
      else "").
Proof.
  unfold _format_alert_message. rewrite fold_format_issue.
  unfold alert_header, more_issues.
  destruct (10 <? List.length issues)%nat;
    repeat rewrite append_assoc; repeat rewrite append_empty_r; reflexivity.
Qed.

(** C8.  The alert message for [n] issues consists of its heading, the
    entries of exactly the first [min n 10] issues in input order, each made
    of kind, message, resource and time, and the line "... and N more
    issues" with [N = n - 10] exactly when [n > 10]; 15 issues give 10
    entries and "... and 5 more issues". *)
Theorem C8_format_alert_message_truncates (issues : list issue) (severity : string) :
  let n := List.length issues in
  let shown := firstn (Nat.min n 10) issues in
  _format_alert_message issues severity =
    alert_header n severity
    ++ concat_all (map render_issue shown)
    ++ (if (10 <? n)%nat then more_issues (n - 10) else "")
  /\ List.length (map render_issue shown) = Nat.min n 10
  /\ (forall k i, nth_error shown k = Some i <-> (k < 10)%nat /\ nth_error issues k = Some i)
  /\ (n = 15%nat ->
      _format_alert_message issues severity =
        alert_header 15 severity
        ++ concat_all (map render_issue (firstn 10 issues))
        ++ "... and 5 more issues
"
      /\ List.length (map render_issue (firstn 10 issues)) = 10%nat).
Proof.
  intros n shown. subst shown n.
  rewrite firstn_min_length.
  split; [apply format_alert_message_shape|].
  split; [rewrite length_map, length_firstn; apply Nat.min_comm|].
  split.
  { intros k i. split.
    - intros H. assert (k < 10)%nat as Hk.
      { apply Nat.lt_le_trans with (List.length (firstn 10 issues)).
        - apply nth_error_Some. congruence.
        - rewrite length_firstn. apply Nat.le_min_l. }
      split; [exact Hk|]. now rewrite nth_error_firstn, (proj2 (Nat.ltb_lt _ _) Hk) in H.
    - intros [Hk H]. now rewrite nth_error_firstn, (proj2 (Nat.ltb_lt _ _) Hk). }
  intros Hn. split.
  - rewrite format_alert_message_shape, Hn. reflexivity.
  - rewrite length_map, length_firstn, Hn. reflexivity.
Qed.

(** C8 at fifteen copies of one issue. *)
Lemma C8_witness :
  _format_alert_message (repeat sample_issue 15) "CRITICAL" =
    alert_header 15 "CRITICAL"
    ++ concat_all (map render_issue (firstn 10 (repeat sample_issue 15)))
    ++ "... and 5 more issues
"
  /\ List.length (map render_issue (firstn 10 (repeat sample_issue 15))) = 10%nat.
Proof.
  apply (C8_format_alert_message_truncates (repeat sample_issue 15) "CRITICAL").
  reflexivity.
Defined.

(** ** Computations *)

Lemma bind_ok {A B} (a : A) (k : A -> M B) : bind (ret a) k = k a.
Proof. unfold bind, ret. destruct (k a). reflexivity. Qed.

Lemma bind_lift_ok {A B} (a : A) (k : A -> M B) : bind (lift (Ok a)) k = k a.
Proof. apply bind_ok. Qed.

Lemma bind_lift_raise {A B} (e : exn) (k : A -> M B) :
  bind (lift (Raise e)) k = ([], Raise e).
Proof. reflexivity. Qed.

Lemma bind_unfold {A B} (m : M A) (k : A -> M B) :
  bind m k =
  match outcome m with
  | Ok a => ((trace m ++ trace (k a))%list, outcome (k a))
  | Raise e => (trace m, Raise e)
  end.
Proof.
  destruct m as [t [a | e]]; simpl; [|reflexivity]. destruct (k a). reflexivity.
Qed.

Lemma outcome_bind_raise {A B} (m : M A) (k : A -> M B) (e : exn) :
  outcome m = Raise e -> outcome (bind m k) = Raise e.
Proof. intros H. rewrite bind_unfold, H. reflexivity. Qed.

Lemma outcome_bind_ok {A B} (m : M A) (k : A -> M B) (a : A) :
  outcome m = Ok a -> outcome (bind m k) = outcome (k a).
Proof. intros H. rewrite bind_unfold, H. reflexivity. Qed.

Lemma try_except_unfold {A} (body : M A) (caught : exn -> bool) (handler : exn -> M A) :
  try_except body caught handler =
  match outcome body with
  | Ok a => (trace body, Ok a)
  | Raise e =>
      if caught e then ((trace body ++ trace (handler e))%list, outcome (handler e))
      else (trace body, Raise e)
  end.
Proof.
  destruct body as [t [a | e]]; simpl; [reflexivity|].
  destruct (caught e); [|reflexivity]. destruct (handler e). reflexivity.
Qed.

(** A loop whose every iteration silently extends the list by [g x]. *)
Lemma foldM_extends {A B} (f : list B -> A -> M (list B)) (g : A -> list B)
      (l : list A) :
  (forall s x, In x l -> f s x = ([], Ok (s ++ g x)%list)) ->
  forall s, foldM f l s = ([], Ok (s ++ flat_map g l)%list).
Proof.
  induction l as [|x l IH]; intros Hf s; simpl.
  - now rewrite app_nil_r.
  - rewrite (Hf s x (or_introl eq_refl)).
    change (([] : list event, Ok (s ++ g x)%list)) with (ret (s ++ g x)%list).
    rewrite bind_ok, IH, <- app_assoc; [reflexivity|].
    intros s' x' Hin. apply Hf. now right.
Qed.

(** A loop raises as soon as one of its iterations raises whatever the list
    it is given. *)
Lemma foldM_raises {A S} (f : S -> A -> M S) (l : list A) (x : A) :
  In x l ->
  (forall s, is_ok (outcome (f s x)) = false) ->
  forall s, is_ok (outcome (foldM f l s)) = false.
Proof.
  induction l as [|y l IH]; intros Hin Hx s; [destruct Hin|].
  simpl. rewrite bind_unfold.
  destruct (outcome (f s y)) as [s' | e] eqn:E; [|reflexivity].
  destruct Hin as [-> | Hin].
  - specialize (Hx s). rewrite E in Hx. discriminate.
  - simpl. now apply IH.
Qed.

(** ** Deployments *)

Section DeploymentHealth.
Variable w : World.
Variable self : CICDMonitor.
Variable namespace : string.
Variable max_age_days : Z.
Hypothesis Hthreshold :
  threshold self "max_deployment_age_days" 90 = Ok (JInt max_age_days).

Lemma deployment_step_extends (issues : list issue) (d : V1Deployment) :
  deployment_step w self namespace issues d
  = ([], Ok (issues ++ deployment_added w self namespace d)%list).
Proof.
  unfold deployment_added, deployment_step. rewrite Hthreshold.
  rewrite !bind_lift_ok. cbn [py_gt_int]. rewrite !bind_lift_ok.
  destruct (max_age_days <? _); destruct (_ <? _)%nat;
    cbn [ret outcome snd app]; rewrite <- ?app_assoc, ?app_nil_r; reflexivity.
Qed.

(** What a deployment adds under the tag of the replica deficit. *)
Lemma deployment_added_deficit (d : V1Deployment) :
  filter (has_type "deployment_unhealthy") (deployment_added w self namespace d)
  = if has_deficit d
    then [ {| type := "deployment_unhealthy";
              severity := if (ready_of d =? 0)%nat then "critical" else "warning";
              resource := namespace ++ "/" ++ d_name d;
              message := "Deployment " ++ d_name d ++ " has " ++ str_of_nat (ready_of d)
                         ++ "/" ++ str_of_nat (desired_of d) ++ " ready replicas";
              timestamp := now_iso w |} ]
    else [].
Proof.
  unfold deployment_added, deployment_step, has_deficit, ready_of, desired_of.
  rewrite Hthreshold. rewrite !bind_lift_ok. cbn [py_gt_int]. rewrite !bind_lift_ok.
  destruct (max_age_days <? _); destruct (_ <? _)%nat; reflexivity.
Qed.

Lemma check_deployment_health_ok (ds : list V1Deployment) :
  list_namespaced_deployment w namespace = Ok ds ->
  check_deployment_health w self namespace
  = ([], Ok (flat_map (deployment_added w self namespace) ds)).
Proof.
  intros Hlist. unfold check_deployment_health. rewrite Hlist, bind_lift_ok.
  rewrite (foldM_extends _ (deployment_added w self namespace)).
  - reflexivity.
  - intros s x _. apply deployment_step_extends.
Qed.

Lemma deficits_of_deployments (ds : list V1Deployment) :
  let deficits :=
    filter (has_type "deployment_unhealthy")
           (flat_map (deployment_added w self namespace) ds) in
  let short := filter has_deficit ds in
  map resource deficits = map (fun d => namespace ++ "/" ++ d_name d) short
  /\ map severity deficits
     = map (fun d => if (ready_of d =? 0)%nat then "critical" else "warning") short.
Proof.
  induction ds as [|d ds [IHr IHs]]; [split; reflexivity|].
  cbn [flat_map filter]. rewrite filter_app, !map_app, IHr, IHs.
  rewrite deployment_added_deficit.
  destruct (has_deficit d); split; reflexivity.
Qed.

End DeploymentHealth.


(** C7.  When the deployments of a namespace are listed and the age
    threshold is an integer, the check returns; its replica-deficit issues
    correspond one to one, in order, to the deployments with
    [ready_replicas < spec_replicas], each with severity critical exactly
    when [ready_replicas] is 0 and warning otherwise; a deployment with
    [ready_replicas >= spec_replicas] adds no replica-deficit issue. *)
Theorem C7_replica_deficit_rule
        (w : World) (self : CICDMonitor) (namespace : string)
        (ds : list V1Deployment) (max_age_days : Z) :
  list_namespaced_deployment w namespace = Ok ds ->
  threshold self "max_deployment_age_days" 90 = Ok (JInt max_age_days) ->
  exists issues,
    check_deployment_health w self namespace = ([], Ok issues)
    /\ issues = flat_map (deployment_added w self namespace) ds
    /\ (let deficits := filter (has_type "deployment_unhealthy") issues in
        let short := filter has_deficit ds in
        map resource deficits = map (fun d => namespace ++ "/" ++ d_name d) short
        /\ map severity deficits
           = map (fun d => if (ready_of d =? 0)%nat then "critical" else "warning") short)
    /\ (forall d,
          let deficits :=
            filter (has_type "deployment_unhealthy")
                   (deployment_added w self namespace d) in
          ((ready_of d < desired_of d)%nat ->
             exists i, deficits = [i]
                       /\ severity i = if (ready_of d =? 0)%nat then "critical" else "warning")
          /\ ((desired_of d <= ready_of d)%nat -> deficits = [])).
Proof.
  intros Hlist Hthr. eexists. split; [|split; [reflexivity|split]].
  - now apply check_deployment_health_ok with (max_age_days := max_age_days).
  - now apply deficits_of_deployments with (max_age_days := max_age_days).
  - intros d. cbv zeta.
    rewrite (deployment_added_deficit w self namespace max_age_days Hthr).
    unfold has_deficit. split.
    + intros H. apply Nat.ltb_lt in H. rewrite H. eexists. split; reflexivity.
    + intros H. apply Nat.ltb_ge in H. now rewrite H.
Qed.

(** C7 at a namespace with 0/3, 2/3 and 3/3 ready replicas. *)
Lemma C7_witness :
  exists issues,
    check_deployment_health
      (with_deployments quiet_world (fun _ => Ok three_deployments)) plain_monitor "prod"
    = ([], Ok issues)
    /\ map severity (filter (has_type "deployment_unhealthy") issues)
       = ["critical"; "warning"].
Proof.
  destruct (C7_replica_deficit_rule
              (with_deployments quiet_world (fun _ => Ok three_deployments))
              plain_monitor "prod" three_deployments 90 eq_refl eq_refl)
    as (issues & Hrun & _ & [_ Hsev] & _).
  exists issues. split; [exact Hrun | exact Hsev].
Defined.

(** C10.  A deployment whose desired, ready or available replica count is
    absent does not make the check fail: the iteration for it returns, and
    adds what it adds for the same deployment with 0 in place of each absent
    count.  With the desired count absent it adds no replica-deficit issue;
    with a positive desired count and the ready count absent it adds a
    critical one. *)
Theorem C10_absent_counts_are_zero
        (w : World) (self : CICDMonitor) (namespace : string)
        (d : V1Deployment) (max_age_days : Z) :
  threshold self "max_deployment_age_days" 90 = Ok (JInt max_age_days) ->
  let zeroed :=
    mk_deployment (d_name d) (d_creation_timestamp d)
                  (Some (or0 (d_spec_replicas d))) (Some (or0 (d_ready_replicas d)))
                  (Some (or0 (d_available_replicas d))) in
  let deficits :=
    filter (has_type "deployment_unhealthy") (deployment_added w self namespace d) in
  (forall issues,
      deployment_step w self namespace issues d
      = ([], Ok (issues ++ deployment_added w self namespace d)%list))
  /\ (forall ds, list_namespaced_deployment w namespace = Ok ds ->
        outcome (check_deployment_health w self namespace)
        = Ok (flat_map (deployment_added w self namespace) ds))
  /\ deployment_added w self namespace d = deployment_added w self namespace zeroed
  /\ (d_spec_replicas d = None -> deficits = [])
  /\ (forall n, d_spec_replicas d = Some (S n) -> d_ready_replicas d = None ->
        exists i, deficits = [i] /\ severity i = "critical").
Proof.
  intros Hthr zeroed deficits. subst zeroed deficits.
  split; [intros issues; now apply deployment_step_extends with (max_age_days := max_age_days)|].
  split.
  { intros ds Hlist.
    now rewrite (check_deployment_health_ok w self namespace max_age_days Hthr ds Hlist). }
  split; [reflexivity|].
  rewrite (deployment_added_deficit w self namespace max_age_days Hthr).
  unfold has_deficit, ready_of, desired_of. split.
  - intros ->. reflexivity.
  - intros n -> ->. cbn [or0]. eexists. split; reflexivity.
Qed.

(** C10 at a deployment with two desired replicas and no status counts. *)
Lemma C10_witness :
  exists i,
    filter (has_type "deployment_unhealthy")
           (deployment_added quiet_world plain_monitor "prod" unset_status_deployment) = [i]
    /\ severity i = "critical".
Proof.
  exact (proj2 (proj2 (proj2 (proj2
           (C10_absent_counts_are_zero quiet_world plain_monitor "prod"
              unset_status_deployment 90 eq_refl)))) 1%nat eq_refl eq_refl).
Defined.

(** ** Resource quotas *)

Lemma Qis_zero_pos (h : Q) : (0 < h)%Q -> Qis_zero h = false.
Proof.
  intros H. unfold Qis_zero. destruct (Qeq_bool h 0) eqn:E; [|reflexivity].
  apply Qeq_bool_iff in E. rewrite E in H. exfalso. exact (Qlt_irrefl _ H).
Qed.

Lemma usage_percent_finite (hard_val used_val : pynum) (hard used : Q) :
  to_float hard_val = Fin hard ->
  to_float used_val = Fin used ->
  usage_percent used_val hard_val
  = Ok (if Qlt_bool 0 hard then PFloat (Fin (percent_used used hard)) else PInt 0).
Proof.
  intros Hh Hu. unfold usage_percent, num_gt, num_truediv. rewrite Hh, Hu.
  cbn [to_float float_of_int fgt].
  change (inject_Z 0) with 0%Q.
  destruct (Qlt_bool 0 hard) eqn:E; [|reflexivity].
  apply Qlt_bool_iff in E. unfold fdiv. rewrite (Qis_zero_pos _ E). reflexivity.
Qed.





(** ** Exceptions of the conversions *)

Lemma py_float_not_api (s : string) (e : exn) :
  py_float s = Raise e -> is_ApiException e = false.
Proof.
  unfold py_float. destruct (float_literal _); intros H;
    [discriminate | injection H as <-; reflexivity].
Qed.

Lemma py_int_not_api (s : string) (e : exn) :
  py_int s = Raise e -> is_ApiException e = false.
Proof.
  unfold py_int. destruct (int_literal _); intros H;
    [discriminate | injection H as <-; reflexivity].
Qed.

Lemma fdiv_not_api (a b : pyfloat) (e : exn) :
  fdiv a b = Raise e -> is_ApiException e = false.
Proof.
  unfold fdiv. destruct a, b; try discriminate;
    destruct (Qis_zero _); try discriminate; intros H; injection H as <-; reflexivity.
Qed.

Lemma int_of_float_not_api (f : pyfloat) (e : exn) :
  int_of_float f = Raise e -> is_ApiException e = false.
Proof.
  destruct f; simpl; intros H; try discriminate; injection H as <-; reflexivity.
Qed.

Lemma parse_cpu_not_api (s : string) (e : exn) :
  _parse_cpu s = Raise e -> is_ApiException e = false.
Proof.
  unfold _parse_cpu. destruct (str_is_empty s); [discriminate|].
  destruct (endswith s "m"); [|apply py_float_not_api].
  destruct (py_float _) eqn:E; cbn [rbind].
  - apply fdiv_not_api.
  - intros H. injection H as <-. exact (py_float_not_api _ _ E).
Qed.

Lemma parse_memory_not_api (s : string) (e : exn) :
  _parse_memory s = Raise e -> is_ApiException e = false.
Proof.
  unfold _parse_memory. destruct (str_is_empty s); [discriminate|].
  induction units as [|[u m] us IH]; cbn [_parse_memory_units].
  - apply py_int_not_api.
  - destruct (endswith s u); [|exact IH].
    destruct (py_float _) eqn:E; cbn [rbind].
    + apply int_of_float_not_api.
    + intros H. injection H as <-. exact (py_float_not_api _ _ E).
Qed.

Lemma quota_values_not_api (resource hard_limit used : string) (e : exn) :
  quota_values resource hard_limit used = Raise e -> is_ApiException e = false.
Proof.
  unfold quota_values.
  destruct (endswith resource ".cpu"); [|destruct (endswith resource ".memory")].
  - destruct (_parse_cpu hard_limit) eqn:Eh; cbn [rbind].
    + destruct (_parse_cpu used) eqn:Eu; cbn [rbind]; [discriminate|].
      intros H. injection H as <-. exact (parse_cpu_not_api _ _ Eu).
    + intros H. injection H as <-. exact (parse_cpu_not_api _ _ Eh).
  - destruct (_parse_memory hard_limit) eqn:Eh; cbn [rbind].
    + destruct (_parse_memory used) eqn:Eu; cbn [rbind]; [discriminate|].
      intros H. injection H as <-. exact (parse_memory_not_api _ _ Eu).
    + intros H. injection H as <-. exact (parse_memory_not_api _ _ Eh).
  - destruct (py_int hard_limit) eqn:Eh; cbn [rbind].
    + destruct (py_int used) eqn:Eu; cbn [rbind]; [discriminate|].
      intros H. injection H as <-. exact (py_int_not_api _ _ Eu).
    + intros H. injection H as <-. exact (py_int_not_api _ _ Eh).
Qed.

Lemma usage_percent_not_api (used_val hard_val : pynum) (e : exn) :
  usage_percent used_val hard_val = Raise e -> is_ApiException e = false.
Proof.
  unfold usage_percent, num_truediv. destruct (num_gt _ _); [|discriminate].
  destruct (fdiv _ _) eqn:E; cbn [rbind]; [discriminate|].
  intros H. injection H as <-. exact (fdiv_not_api _ _ _ E).
Qed.

(** ** Failures inside [run_health_checks] *)

Lemma is_ok_false {A} (r : result A) : is_ok r = false -> exists e, r = Raise e.
Proof. destruct r as [a | e]; [discriminate | now exists e]. Qed.

Lemma bind_not_ok {A B} (m : M A) (k : A -> M B) :
  (forall a, outcome m = Ok a -> is_ok (outcome (k a)) = false) ->
  is_ok (outcome (bind m k)) = false.
Proof.
  intros H. rewrite bind_unfold. destruct (outcome m) as [a | e]; [|reflexivity].
  now apply H.
Qed.

Lemma bind_not_ok_l {A B} (m : M A) (k : A -> M B) :
  is_ok (outcome m) = false -> is_ok (outcome (bind m k)) = false.
Proof.
  intros H. apply bind_not_ok. intros a E. rewrite E in H. discriminate.
Qed.

(** The exceptions of a loop are those of its iterations. *)
Lemma foldM_raise_class {A S} (P : exn -> Prop) (f : S -> A -> M S) (l : list A) :
  (forall s x e, In x l -> outcome (f s x) = Raise e -> P e) ->
  forall s e, outcome (foldM f l s) = Raise e -> P e.
Proof.
  induction l as [|y l IH]; intros Hf s e; simpl; [discriminate|].
  rewrite bind_unfold. destruct (outcome (f s y)) as [s' | e'] eqn:E.
  - cbn [outcome snd]. apply IH. intros s0 x e0 Hin. apply Hf. now right.
  - cbn [outcome snd]. intros H. injection H as <-. exact (Hf s y e' (or_introl eq_refl) E).
Qed.

Section QuotaFailures.
Variable w : World.
Variable namespace : string.

Lemma quota_step_not_api (quota_name : string) (used_map : list (string * string))
      (issues : list issue) (entry : string * string) (e : exn) :
  outcome (quota_step w namespace quota_name used_map issues entry) = Raise e ->
  is_ApiException e = false.
Proof.
  destruct entry as [res hard_limit]. unfold quota_step.
  destruct (quota_values _ _ _) as [[hard_val used_val] | e'] eqn:Ev.
  - rewrite bind_lift_ok.
    destruct (usage_percent used_val hard_val) as [pct | e'] eqn:Ep.
    + rewrite bind_lift_ok. destruct (num_gt pct _); discriminate.
    + rewrite bind_lift_raise. cbn [outcome snd]. intros H. injection H as <-.
      exact (usage_percent_not_api _ _ _ Ep).
  - rewrite bind_lift_raise. cbn [outcome snd]. intros H. injection H as <-.
    exact (quota_values_not_api _ _ _ _ Ev).
Qed.

Lemma quota_step_raises (quota_name : string) (used_map : list (string * string))
      (issues : list issue) (res hard_limit : string) (e : exn) :
  quota_values res hard_limit (used_of used_map res) = Raise e ->
  is_ok (outcome (quota_step w namespace quota_name used_map issues (res, hard_limit)))
  = false.
Proof.
  intros Ev. unfold quota_step. fold (used_of used_map res). now rewrite Ev.
Qed.

Lemma quota_loop_step_not_api (issues : list issue) (q : V1ResourceQuota) (e : exn) :
  outcome (quota_loop_step w namespace issues q) = Raise e -> is_ApiException e = false.
Proof.
  unfold quota_loop_step.
  destruct (q_hard q) as [[|h hs]|]; try discriminate.
  destruct (q_used q) as [[|u us]|]; try discriminate.
  apply (foldM_raise_class (fun e => is_ApiException e = false)).
  intros s x e0 _. apply quota_step_not_api.
Qed.

Lemma quota_loop_step_raises (issues : list issue) (q : V1ResourceQuota)
      (hard used : list (string * string)) (res hard_limit : string) (e : exn) :
  q_hard q = Some hard -> q_used q = Some used -> used <> [] ->
  In (res, hard_limit) hard ->
  quota_values res hard_limit (used_of used res) = Raise e ->
  is_ok (outcome (quota_loop_step w namespace issues q)) = false.
Proof.
  intros Hh Hu Hne Hin Ev. unfold quota_loop_step. rewrite Hh, Hu.
  destruct hard as [|h hs]; [destruct Hin|].
  destruct used as [|u us]; [congruence|].
  apply foldM_raises with (x := (res, hard_limit)); [exact Hin|].
  intros s. now apply quota_step_raises with (e := e).
Qed.

(** Nothing in [check_resource_usage] absorbs a failed conversion. *)
Lemma check_resource_usage_raises (e : exn) :
  malformed_quantity w namespace e ->
  is_ok (outcome (check_resource_usage w namespace)) = false.
Proof.
  intros (quotas & q & hard & used & res & hard_limit
          & Hlist & Hq & Hh & Hu & Hne & Hin & Ev).
  unfold check_resource_usage. rewrite Hlist, bind_lift_ok, try_except_unfold.
  pose proof (foldM_raises (quota_loop_step w namespace) quotas q Hq
                (fun s => quota_loop_step_raises s q hard used res hard_limit e
                            Hh Hu Hne Hin Ev) []) as Hraise.
  destruct (is_ok_false _ Hraise) as [e' He']. rewrite He'.
  assert (is_ApiException e' = false) as ->; [|reflexivity].
  revert He'. apply (foldM_raise_class (fun e => is_ApiException e = false)).
  intros s x e0 _. apply quota_loop_step_not_api.
Qed.

End QuotaFailures.

Lemma namespace_step_raises (w : World) (self : CICDMonitor) (all_issues : list issue)
      (namespace : string) (e : exn) :
  malformed_quantity w namespace e ->
  is_ok (outcome (namespace_step w self all_issues namespace)) = false.
Proof.
  intros Hbad. unfold namespace_step.
  apply bind_not_ok. intros _ _.
  apply bind_not_ok. intros d _.
  apply bind_not_ok. intros p _.
  apply bind_not_ok_l. now apply check_resource_usage_raises with (e := e).
Qed.





(** ** API failures *)

(** A failed listing of the deployments becomes one critical [api_error]
    issue for the namespace; the exception does not propagate. *)
Lemma check_deployment_health_api_error
      (w : World) (self : CICDMonitor) (namespace : string) (e : exn) :
  list_namespaced_deployment w namespace = Raise e ->
  is_ApiException e = true ->
  check_deployment_health w self namespace
  = ([LogError ("Failed to check deployment health: " ++ exn_str e)],
     Ok [api_error_issue w namespace e]).
Proof.
  intros Hlist Hapi. unfold check_deployment_health.
  rewrite Hlist, bind_lift_raise. cbn [try_except]. rewrite Hapi. reflexivity.
Qed.

(** The same for the pods. *)
Lemma check_pod_health_api_error
      (w : World) (self : CICDMonitor) (namespace : string) (e : exn) :
  list_namespaced_pod w namespace = Raise e ->
  is_ApiException e = true ->
  check_pod_health w self namespace
  = ([LogError ("Failed to check pod health: " ++ exn_str e)],
     Ok [api_error_issue w namespace e]).
Proof.
  intros Hlist Hapi. unfold check_pod_health.
  rewrite Hlist, bind_lift_raise. cbn [try_except]. rewrite Hapi. reflexivity.
Qed.

(** A failed listing of the resource quotas is logged and leaves no issue. *)
Lemma check_resource_usage_api_error (w : World) (namespace : string) (e : exn) :
  list_namespaced_resource_quota w namespace = Raise e ->
  is_ApiException e = true ->
  check_resource_usage w namespace
  = ([LogError ("Failed to check resource usage: " ++ exn_str e)], Ok []).
Proof.
  intros Hlist Hapi. unfold check_resource_usage.
  rewrite Hlist, bind_lift_raise. cbn [try_except]. rewrite Hapi. reflexivity.
Qed.

(** The deployments of "payments" cannot be listed: the report holds the
    [api_error] issue of "payments" and the issues of "billing". *)
Example deployment_outage_reported :
  exists report,
    outcome (run_health_checks deployment_outage_world plain_monitor
                               ["payments"; "billing"]) = Ok report
    /\ map resource (filter (has_type "api_error") (all_issues report))
       = ["namespace/payments"]
    /\ map resource (filter (has_type "deployment_unhealthy") (all_issues report))
       = ["billing/web"; "billing/db"].
Proof. eexists. split; [reflexivity|]. split; reflexivity. Qed.

(** C2.  The quotas of "payments" cannot be listed ([ApiException]) while
    those of "billing" can: the exception does not propagate and the issue
    of "billing" is in the report, but the failure is only logged, and the
    report holds no [api_error] issue for "payments". *)
Theorem C2_quota_outage_leaves_no_issue :
  exists report,
    run_health_checks quota_outage_world plain_monitor ["payments"; "billing"]
    = ([LogInfo "Checking health for namespace: payments";
        LogError "Failed to check resource usage: (500) Reason: Internal Server Error";
        LogInfo "Checking health for namespace: billing"],
       Ok report)
    /\ list_namespaced_resource_quota quota_outage_world "payments" = Raise api_outage
    /\ is_ApiException api_outage = true
    /\ filter (has_type "api_error") (all_issues report) = []
    /\ map resource (all_issues report) = ["billing/compute/pods"]
    /\ total_issues report = 1%nat.
Proof. eexists. repeat split. Qed.

(** ** Dispatch *)

Lemma attempted_app (c : channel) (t t' : list event) :
  attempted c (t ++ t')%list = attempted c t || attempted c t'.
Proof. apply existsb_app. Qed.

(** Case analysis of a computation down to its branches. *)
Ltac branches :=
  repeat first
    [ progress cbn [bind lift ret emit logger_info logger_error try_except app
                    trace outcome fst snd negb rbind]
    | match goal with
      | |- context [match ?x with Ok _ => _ | Raise _ => _ end] => destruct x
      | |- context [negb (truthy ?v)] => destruct (truthy v)
      | |- context [if ?b then _ else _] => destruct b
      end ].

(** [send_slack_alert] engages no transport but Slack's. *)
Lemma send_slack_alert_only_slack (w : World) (am : AlertManager) (message : string)
      (ch : json) (c : channel) :
  c <> Slack -> attempted c (trace (send_slack_alert w am message ch)) = false.
Proof.
  intros Hc. unfold send_slack_alert. branches; destruct c; try congruence; reflexivity.
Qed.

(** With Slack enabled and its webhook URL configured, [send_slack_alert]
    posts the message. *)
Lemma send_slack_alert_posts (w : World) (am : AlertManager) (message : string)
      (url : json) :
  channel_enabled am Slack = Ok true ->
  py_index (slack_config am) "webhook_url" = Ok url ->
  attempted Slack (trace (send_slack_alert w am message JNull)) = true.
Proof.
  unfold channel_enabled, channel_config, send_slack_alert. intros Hen Hurl.
  destruct (slack_config am) as [| | | | |d]; try discriminate.
  cbn [py_get rbind] in Hen. injection Hen as Hen.
  rewrite Hurl. cbn [py_get bind lift]. rewrite Hen. cbn [truthy negb].
  branches; reflexivity.
Qed.

Lemma send_warning_alerts_unfold (w : World) (self : CICDMonitor) (report : HealthReport)
      (gate : bool) :
  warning (issues_by_severity report) <> [] ->
  send_warnings self = Ok true ->
  alert_gate self "slack" "warning" = Ok gate ->
  send_warning_alerts w self report
  = if gate
    then send_slack_alert w (alert_manager self)
           (_format_alert_message (warning (issues_by_severity report)) "WARNING") JNull ;;
         ret tt
    else ret tt.
Proof.
  intros Hne Hsw Hgate. unfold send_warning_alerts.
  destruct (warning (issues_by_severity report)) as [|i l]; [congruence|].
  rewrite Hsw, bind_lift_ok, Hgate, bind_lift_ok. reflexivity.
Qed.

Lemma send_warning_alerts_only_slack (w : World) (self : CICDMonitor)
      (report : HealthReport) (c : channel) :
  c <> Slack -> attempted c (trace (send_warning_alerts w self report)) = false.
Proof.
  intros Hc. unfold send_warning_alerts.
  destruct (warning (issues_by_severity report)) as [|i l]; [reflexivity|].
  destruct (send_warnings self) as [[|] | e]; try reflexivity.
  rewrite bind_lift_ok.
  destruct (alert_gate self "slack" "warning") as [[|] | e]; try reflexivity.
  rewrite bind_lift_ok, bind_unfold.
  pose proof (send_slack_alert_only_slack w (alert_manager self)
                (_format_alert_message (i :: l) "WARNING") JNull c Hc) as H.
  destruct (outcome (send_slack_alert _ _ _ _)); cbn [trace fst ret];
    rewrite ?app_nil_r; exact H.
Qed.

(** C5 (amended).  For a report whose warning bucket is non-empty, with
    [send_warnings] true, the warnings are formatted and handed to the Slack
    sender exactly when the Slack warning gate is set, and the sender posts
    them when Slack is enabled and has its webhook URL; no send over email
    or the generic webhook is attempted for warnings, whatever their
    configuration.  The warning block runs after the critical block, if that
    one completes. *)
Theorem C5_warnings_go_to_slack_only
        (w : World) (self : CICDMonitor) (report : HealthReport) :
  warning (issues_by_severity report) <> [] ->
  send_warnings self = Ok true ->
  let message := _format_alert_message (warning (issues_by_severity report)) "WARNING" in
  (forall gate, alert_gate self "slack" "warning" = Ok gate ->
     send_warning_alerts w self report
     = if gate then send_slack_alert w (alert_manager self) message JNull ;; ret tt
       else ret tt)
  /\ (forall url,
        alert_gate self "slack" "warning" = Ok true ->
        channel_enabled (alert_manager self) Slack = Ok true ->
        py_index (slack_config (alert_manager self)) "webhook_url" = Ok url ->
        attempted Slack (trace (send_warning_alerts w self report)) = true)
  /\ attempted Email (trace (send_warning_alerts w self report)) = false
  /\ attempted Webhook (trace (send_warning_alerts w self report)) = false
  /\ (outcome (send_critical_alerts w self report) = Ok tt ->
      trace (send_alerts w self report)
      = (trace (send_critical_alerts w self report)
         ++ trace (send_warning_alerts w self report))%list).
Proof.
  intros Hne Hsw message. subst message.
  split; [intros gate; now apply send_warning_alerts_unfold|].
  split.
  { intros url Hgate Hen Hurl.
    rewrite (send_warning_alerts_unfold w self report true Hne Hsw Hgate).
    rewrite bind_unfold.
    pose proof (send_slack_alert_posts w (alert_manager self)
                  (_format_alert_message (warning (issues_by_severity report)) "WARNING")
                  url Hen Hurl) as H.
    destruct (outcome (send_slack_alert _ _ _ _)); cbn [trace fst ret];
      rewrite ?app_nil_r; exact H. }
  split; [apply send_warning_alerts_only_slack; discriminate|].
  split; [apply send_warning_alerts_only_slack; discriminate|].
  intros Hcrit. unfold send_alerts. rewrite bind_unfold, Hcrit. reflexivity.
Qed.

(** C5 at a report with one warning and every channel configured. *)
Lemma C5_witness :
  attempted Slack
    (trace (send_warning_alerts quiet_world (monitor_of all_channels_config) warning_report))
  = true
  /\ attempted Email
       (trace (send_warning_alerts quiet_world (monitor_of all_channels_config)
                                   warning_report))
     = false.
Proof.
  destruct (C5_warnings_go_to_slack_only quiet_world (monitor_of all_channels_config)
              warning_report ltac:(discriminate) eq_refl)
    as (_ & Hslack & Hemail & _).
  split; [|exact Hemail].
  apply (Hslack (JStr "https://hooks.example.com/T0")); reflexivity.
Defined.

(** C5 as stated fails: with the email channel enabled, parameterised and
    gated for warnings, a report with one warning engages no SMTP send. *)
Lemma C5_counterexample : ~ warning_dispatch_as_stated.
Proof.
  intros H.
  specialize (H quiet_world (monitor_of all_channels_config) warning_report Email
                ltac:(discriminate) eq_refl eq_refl eq_refl).
  vm_compute in H. discriminate.
Qed.

(** ** [main]: the single-shot run *)

Lemma main_once_outcome (worlds : nat -> World) (args : Args) (fuel : nat) :
  args_once args = true ->
  outcome (main worlds args fuel)
  = match outcome (single_shot (worlds O) args) with
    | Ok _ => Ok (Exit 0)
    | Raise e =>
        if is_KeyboardInterrupt e then Ok (Exit 0)
        else if is_Exception e then Ok (Exit 1)
        else Raise e
    end.
Proof.
  intros Honce. unfold main, single_shot. rewrite Honce.
  destruct (CICDMonitor_init (worlds O) (args_config args)) as [t0 [monitor | e]].
  - cbn [bind].
    destruct (run_once (worlds O) monitor args) as [t1 [[] | e]]; cbn.
    + reflexivity.
    + destruct (is_KeyboardInterrupt e); [reflexivity|].
      cbn. destruct (is_Exception e); reflexivity.
  - cbn. destruct (is_KeyboardInterrupt e); [reflexivity|].
    cbn. destruct (is_Exception e); reflexivity.
Qed.

(** C6 (amended).  In single-shot mode the exit status tells whether the run
    raised, not what it found: it is 0 whenever start-up, the evaluation, the
    output of the report and the dispatch complete, whatever issues the
    report holds (and so also when it holds none), and 1 when one of them
    raises an exception of class [Exception]; an interrupt gives 0. *)
Theorem C6_exit_status_ignores_issues
        (worlds : nat -> World) (args : Args) (fuel : nat) :
  args_once args = true ->
  (forall monitor report t0 t1,
      CICDMonitor_init (worlds O) (args_config args) = (t0, Ok monitor) ->
      run_health_checks (worlds O) monitor (args_namespaces args) = (t1, Ok report) ->
      outcome (run_once (worlds O) monitor args) = Ok tt ->
      outcome (main worlds args fuel) = Ok (Exit 0))
  /\ (forall e,
        outcome (single_shot (worlds O) args) = Raise e ->
        is_Exception e = true ->
        outcome (main worlds args fuel) = Ok (Exit 1))
  /\ (forall e,
        outcome (single_shot (worlds O) args) = Raise e ->
        is_KeyboardInterrupt e = true ->
        outcome (main worlds args fuel) = Ok (Exit 0)).
Proof.
  intros Honce. rewrite (main_once_outcome worlds args fuel Honce).
  split; [|split].
  - intros monitor report t0 t1 Hinit _ Hrun. unfold single_shot.
    rewrite bind_unfold, Hinit. cbn [outcome snd]. rewrite Hrun. reflexivity.
  - intros e -> He. destruct e as [[] msg]; try discriminate; reflexivity.
  - intros e -> ->. reflexivity.
Qed.

(** C6 at a cluster with unready deployments: the run completes with exit
    status 0. *)
Lemma C6_witness :
  outcome (main (fun _ => degraded_world) once_args 0) = Ok (Exit 0).
Proof.
  refine (proj1 (C6_exit_status_ignores_issues (fun _ => degraded_world) once_args 0
                   eq_refl) _ _ _ _ eq_refl eq_refl eq_refl).
Defined.

(** C6 as stated fails: a single-shot run over a deployment with none of its
    three replicas ready reports a critical issue and exits with status 0. *)
Lemma C6_counterexample : ~ exit_status_as_stated.
Proof.
  intros H.
  destruct (H (fun _ => degraded_world) once_args O _ _ 0 _ _
              eq_refl eq_refl eq_refl eq_refl) as [Hcritical _].
  apply Hcritical; [|reflexivity].
  vm_compute. discriminate.
Qed.

(** ** [main]: the continuous loop *)

Lemma time_sleep_nonneg (w : World) (seconds : Z) :
  0 <= seconds ->
  time_sleep w seconds = ([Sleep seconds], sleep_outcome w seconds).
Proof.
  intros H. unfold time_sleep.
  destruct (seconds <? 0) eqn:E; [apply Z.ltb_lt in E; lia|].
  cbn. destruct (sleep_outcome w seconds); reflexivity.
Qed.

(** A cycle whose body raises an [Exception]: the error is logged, then the
    process sleeps. *)
Lemma cycle_after_failure (w : World) (monitor : CICDMonitor) (args : Args)
      (t : list event) (e : exn) :
  0 <= args_interval args ->
  cycle_body w monitor args = (t, Raise e) ->
  is_Exception e = true ->
  cycle w monitor args
  = ((t ++ [LogError ("Health check failed: " ++ exn_str e);
            Sleep (args_interval args)])%list,
     sleep_outcome w (args_interval args)).
Proof.
  intros Hint Hbody He. unfold cycle.
  rewrite Hbody, (time_sleep_nonneg _ _ Hint). cbn [try_except]. rewrite He.
  cbn [logger_error emit bind]. rewrite <- app_assoc. reflexivity.
Qed.

(** A cycle whose body completes: the process sleeps. *)
Lemma cycle_after_success (w : World) (monitor : CICDMonitor) (args : Args)
      (t : list event) :
  0 <= args_interval args ->
  cycle_body w monitor args = (t, Ok tt) ->
  cycle w monitor args
  = ((t ++ [Sleep (args_interval args)])%list, sleep_outcome w (args_interval args)).
Proof.
  intros Hint Hbody. unfold cycle.
  rewrite Hbody, (time_sleep_nonneg _ _ Hint). reflexivity.
Qed.

(** What a cycle raises is not of class [Exception], when the sleep can only
    be interrupted. *)
Lemma cycle_raises_interrupt_only (w : World) (monitor : CICDMonitor) (args : Args)
      (e : exn) :
  0 <= args_interval args ->
  interrupts_only (sleep_outcome w (args_interval args)) ->
  outcome (cycle w monitor args) = Raise e ->
  is_Exception e = false.
Proof.
  intros Hint Hsleep. unfold cycle. rewrite (time_sleep_nonneg _ _ Hint).
  destruct (cycle_body w monitor args) as [t [[] | e']]; cbn [try_except].
  - cbn. intros H. now apply Hsleep.
  - destruct (is_Exception e') eqn:E.
    + cbn. intros H. now apply Hsleep.
    + cbn. intros H. injection H as <-. exact E.
Qed.

Lemma cycle_completes (w : World) (monitor : CICDMonitor) (args : Args) :
  0 <= args_interval args ->
  sleep_outcome w (args_interval args) = Ok tt ->
  (forall e, outcome (cycle_body w monitor args) = Raise e -> is_Exception e = true) ->
  outcome (cycle w monitor args) = Ok tt.
Proof.
  intros Hint Hsleep Hbody. unfold cycle. rewrite (time_sleep_nonneg _ _ Hint), Hsleep.
  destruct (cycle_body w monitor args) as [t [[] | e']]; cbn [try_except].
  - reflexivity.
  - rewrite (Hbody e' eq_refl). reflexivity.
Qed.

(** The three steps of a cycle: a failure of any of them is a failure of the
    cycle body. *)
Lemma cycle_body_step_failure (w : World) (monitor : CICDMonitor) (args : Args)
      (e : exn) :
  (outcome (run_health_checks w monitor (args_namespaces args)) = Raise e
   \/ exists report,
       outcome (run_health_checks w monitor (args_namespaces args)) = Ok report
       /\ (outcome (send_alerts w monitor report) = Raise e
           \/ exists path,
               outcome (send_alerts w monitor report) = Ok tt
               /\ output_path args = Some path
               /\ outcome (dump_report w path report) = Raise e)) ->
  outcome (cycle_body w monitor args) = Raise e.
Proof.
  unfold cycle_body. intros [Hrun | (report & Hrun & [Hsend | (path & Hsend & Hpath & Hdump)])].
  - now apply outcome_bind_raise.
  - rewrite (outcome_bind_ok _ _ _ Hrun). now apply outcome_bind_raise.
  - rewrite (outcome_bind_ok _ _ _ Hrun), (outcome_bind_ok _ _ _ Hsend), Hpath.
    now apply outcome_bind_raise.
Qed.

(** C1.  In continuous mode, with a non-negative interval: when the
    evaluation, the dispatch or the writing of the report raises an
    exception of class [Exception] in a cycle, the exception is caught and
    logged, the process sleeps the whole interval, and the loop goes on with
    the next cycle; the loop never ends with an exception of class
    [Exception], so it ends only when it is interrupted; and while no
    interrupt arrives it is still running after any number of cycles. *)
Theorem C1_cycle_failure_keeps_loop_running
        (worlds : nat -> World) (monitor : CICDMonitor) (args : Args) (fuel k : nat) :
  0 <= args_interval args ->
  (forall e,
      (outcome (run_health_checks (worlds k) monitor (args_namespaces args)) = Raise e
       \/ exists report,
           outcome (run_health_checks (worlds k) monitor (args_namespaces args)) = Ok report
           /\ (outcome (send_alerts (worlds k) monitor report) = Raise e
               \/ exists path,
                   outcome (send_alerts (worlds k) monitor report) = Ok tt
                   /\ output_path args = Some path
                   /\ outcome (dump_report (worlds k) path report) = Raise e)) ->
      outcome (cycle_body (worlds k) monitor args) = Raise e)
  /\ (forall t e,
        cycle_body (worlds k) monitor args = (t, Raise e) ->
        is_Exception e = true ->
        sleep_outcome (worlds k) (args_interval args) = Ok tt ->
        monitor_loop worlds monitor args (S fuel) k
        = ((t ++ [LogError ("Health check failed: " ++ exn_str e);
                  Sleep (args_interval args)]
              ++ trace (monitor_loop worlds monitor args fuel (S k)))%list,
           outcome (monitor_loop worlds monitor args fuel (S k))))
  /\ (forall e,
        (forall j, interrupts_only (sleep_outcome (worlds j) (args_interval args))) ->
        outcome (monitor_loop worlds monitor args fuel k) = Raise e ->
        is_Exception e = false)
  /\ ((forall j, sleep_outcome (worlds j) (args_interval args) = Ok tt) ->
      (forall j e, outcome (cycle_body (worlds j) monitor args) = Raise e ->
                   is_Exception e = true) ->
      outcome (monitor_loop worlds monitor args fuel k) = Ok tt).
Proof.
  intros Hint. split; [|split; [|split]].
  - intros e. apply cycle_body_step_failure.
  - intros t e Hbody He Hsleep. cbn [monitor_loop].
    rewrite (cycle_after_failure _ _ _ _ _ Hint Hbody He), Hsleep.
    cbn [bind]. destruct (monitor_loop worlds monitor args fuel (S k)) as [t' r].
    cbn [trace outcome fst snd]. rewrite <- app_assoc. reflexivity.
  - intros e Hsleep. revert k. induction fuel as [|fuel IH]; intros k; [discriminate|].
    cbn [monitor_loop]. rewrite bind_unfold.
    destruct (outcome (cycle (worlds k) monitor args)) as [[] | e'] eqn:E.
    + cbn [outcome snd]. apply IH.
    + cbn [outcome snd]. intros H. injection H as <-.
      exact (cycle_raises_interrupt_only _ _ _ _ Hint (Hsleep k) E).
  - intros Hsleep Hbody. revert k. induction fuel as [|fuel IH]; intros k; [reflexivity|].
    cbn [monitor_loop].
    rewrite (outcome_bind_ok _ _ tt); [apply IH|].
    apply cycle_completes; [exact Hint | apply Hsleep | apply Hbody].
Qed.

(** C1 at a cluster that cannot be reached: the first cycle fails, the
    failure is logged, the process sleeps 300 seconds and starts the second
    cycle. *)
Lemma C1_witness :
  monitor_loop (fun _ => unreachable_world) plain_monitor continuous_args 2 0
  = (([LogInfo "Checking health for namespace: prod"]
        ++ [LogError "Health check failed: Max retries exceeded"; Sleep 300]
        ++ trace (monitor_loop (fun _ => unreachable_world) plain_monitor
                               continuous_args 1 1))%list,
     outcome (monitor_loop (fun _ => unreachable_world) plain_monitor
                           continuous_args 1 1)).
Proof.
  refine (proj1 (proj2 (C1_cycle_failure_keeps_loop_running
                          (fun _ => unreachable_world) plain_monitor continuous_args 1 0
                          _))
                [LogInfo "Checking health for namespace: prod"]
                (mk_exn OtherException "Max retries exceeded") eq_refl eq_refl eq_refl).
  simpl. lia.
Defined.

(* ===================================================================== *)
(** * Further properties of the monitor *)
(* ===================================================================== *)

(** ** Loops that extend a list *)

Lemma appended_nil (m : M (list issue)) : appended [] m = m.
Proof. destruct m as [t [l | e]]; reflexivity. Qed.

Lemma appended_ret (s l : list issue) : appended s (ret l) = ret (s ++ l)%list.
Proof. reflexivity. Qed.

Lemma appended_bind {A} (s : list issue) (m : M A) (k : A -> M (list issue)) :
  appended s (bind m k) = bind m (fun a => appended s (k a)).
Proof.
  destruct m as [t [a | e]]; [|reflexivity].
  cbn [bind]. destruct (k a) as [t' [l | e]]; reflexivity.
Qed.

Lemma appended_try_except (s : list issue) (body : M (list issue)) (caught : exn -> bool)
      (handler : exn -> M (list issue)) :
  appended s (try_except body caught handler)
  = try_except (appended s body) caught (fun e => appended s (handler e)).
Proof.
  destruct body as [t [l | e]]; [reflexivity|].
  cbn. destruct (caught e); [|reflexivity].
  destruct (handler e) as [t' [l | e']]; reflexivity.
Qed.

Lemma appended_appended (s s' : list issue) (m : M (list issue)) :
  appended s (appended s' m) = appended (s ++ s')%list m.
Proof.
  destruct m as [t [l | e]]; unfold appended; cbn [trace outcome fst snd];
    [now rewrite app_assoc | reflexivity].
Qed.

Lemma bind_appended (s : list issue) (m : M (list issue))
      (k : list issue -> M (list issue)) :
  bind (appended s m) k = bind m (fun l => k (s ++ l)%list).
Proof. destruct m as [t [l | e]]; reflexivity. Qed.

(** A loop whose iterations only append to the list they are given appends,
    as a whole, what it appends to the empty list. *)
Lemma foldM_appended {A} (f : list issue -> A -> M (list issue)) (l : list A) :
  (forall s x, In x l -> f s x = appended s (f [] x)) ->
  forall s, foldM f l s = appended s (foldM f l []).
Proof.
  induction l as [|x l IH]; intros Hf s;
    [unfold appended; cbn [foldM ret trace outcome fst snd]; now rewrite app_nil_r|].
  assert (forall s0, foldM f l s0 = appended s0 (foldM f l [])) as IH'.
  { apply IH. intros s0 y Hy. apply Hf. now right. }
  cbn [foldM]. rewrite (Hf s x (or_introl eq_refl)).
  destruct (f [] x) as [t [a | e]]; [|reflexivity].
  unfold appended at 1. cbn [trace outcome fst snd bind].
  rewrite (IH' (s ++ a)%list), (IH' a).
  destruct (foldM f l []) as [t' [b | e]]; unfold appended; cbn [trace outcome fst snd];
    [now rewrite app_assoc | reflexivity].
Qed.

(** What a loop returns, when it returns: the lists its iterations append,
    in order; and then every iteration returns. *)
Lemma foldM_appended_ok {A} (f : list issue -> A -> M (list issue)) (l : list A) :
  (forall s x, In x l -> f s x = appended s (f [] x)) ->
  forall s s', outcome (foldM f l s) = Ok s' ->
    s' = (s ++ flat_map (fun x => issues_of (f [] x)) l)%list
    /\ forall x, In x l -> is_ok (outcome (f [] x)) = true.
Proof.
  induction l as [|x l IH]; intros Hf s s'.
  - cbn [foldM ret outcome snd flat_map]. intros H. injection H as <-.
    rewrite app_nil_r. split; [reflexivity | contradiction].
  - cbn [foldM flat_map]. rewrite (Hf s x (or_introl eq_refl)).
    unfold issues_of at 1.
    destruct (f [] x) as [t [a | e]] eqn:E; [|discriminate].
    unfold appended. cbn [trace outcome fst snd bind].
    destruct (foldM f l (s ++ a)%list) as [t' r] eqn:E'. cbn [outcome snd]. intros ->.
    destruct (IH (fun s0 y Hy => Hf s0 y (or_intror Hy)) (s ++ a)%list s') as [-> Hall].
    { now rewrite E'. }
    split; [now rewrite app_assoc|].
    intros y [<- | Hy]; [now rewrite E | now apply Hall].
Qed.

(** An invariant of the list that every iteration keeps is kept by the loop. *)
Lemma foldM_invariant {A S} (P : S -> Prop) (f : S -> A -> M S) (l : list A) :
  (forall s x s', In x l -> P s -> outcome (f s x) = Ok s' -> P s') ->
  forall s s', P s -> outcome (foldM f l s) = Ok s' -> P s'.
Proof.
  induction l as [|x l IH]; intros Hf s s' Hs.
  - cbn. intros H. injection H as <-. exact Hs.
  - cbn [foldM]. rewrite bind_unfold.
    destruct (outcome (f s x)) as [s1 | e] eqn:E; [|discriminate].
    cbn [outcome snd]. apply IH.
    + intros s0 y s0' Hy. apply Hf. now right.
    + exact (Hf s x s1 (or_introl eq_refl) Hs E).
Qed.

(** ** The checks only append *)

Ltac appended_done :=
  unfold appended;
  cbn [trace outcome fst snd ret lift bind app try_except];
  rewrite <- ?app_assoc, ?app_nil_r; reflexivity.

Section StepsAppend.
Variable w : World.
Variable self : CICDMonitor.

Lemma deployment_step_appended (namespace : string) (s : list issue) (d : V1Deployment) :
  deployment_step w self namespace s d
  = appended s (deployment_step w self namespace [] d).
Proof.
  unfold deployment_step.
  destruct (threshold self "max_deployment_age_days" 90) as [v | e];
    [rewrite !bind_lift_ok | appended_done].
  destruct (py_gt_int _ v) as [b | e]; [rewrite !bind_lift_ok | appended_done].
  destruct b; destruct (_ <? _)%nat; appended_done.
Qed.

Lemma container_step_appended (namespace name : string) (s : list issue)
      (c : V1ContainerStatus) :
  container_step w self namespace name s c
  = appended s (container_step w self namespace name [] c).
Proof.
  unfold container_step.
  destruct (threshold self "max_container_restarts" 5) as [v | e];
    [rewrite !bind_lift_ok | appended_done].
  destruct (py_gt_int _ v) as [b | e]; [rewrite !bind_lift_ok | appended_done].
  destruct b; appended_done.
Qed.

Lemma pod_step_appended (namespace : string) (s : list issue) (pod : V1Pod) :
  pod_step w self namespace s pod = appended s (pod_step w self namespace [] pod).
Proof.
  unfold pod_step.
  assert (forall l s0 x,
             foldM (container_step w self namespace (p_name pod)) l (s0 ++ x)%list
             = appended s0 (foldM (container_step w self namespace (p_name pod)) l
                                  ([] ++ x)%list)) as Hloop.
  { intros l s0 x.
    rewrite (foldM_appended _ l (fun s1 c _ => container_step_appended _ _ s1 c)
                            (s0 ++ x)%list).
    rewrite (foldM_appended _ l (fun s1 c _ => container_step_appended _ _ s1 c)
                            ([] ++ x)%list).
    now rewrite appended_appended. }
  destruct (p_container_statuses pod) as [[|c cs]|].
  - destruct (phase_is _ "Failed"); [appended_done|].
    destruct (phase_is _ "Pending"); [|appended_done].
    destruct (total_seconds_gt _ _); appended_done.
  - assert (foldM (container_step w self namespace (p_name pod)) (c :: cs) s
            = appended s (foldM (container_step w self namespace (p_name pod)) (c :: cs) []))
      as Hplain.
    { apply foldM_appended. intros s0 x _. apply container_step_appended. }
    destruct (phase_is _ "Failed"); [apply Hloop|].
    destruct (phase_is _ "Pending"); [|exact Hplain].
    destruct (total_seconds_gt _ _); [apply Hloop | exact Hplain].
  - destruct (phase_is _ "Failed"); [appended_done|].
    destruct (phase_is _ "Pending"); [|appended_done].
    destruct (total_seconds_gt _ _); appended_done.
Qed.

Lemma quota_step_appended (namespace quota_name : string)
      (used_map : list (string * string)) (s : list issue) (entry : string * string) :
  quota_step w namespace quota_name used_map s entry
  = appended s (quota_step w namespace quota_name used_map [] entry).
Proof.
  destruct entry as [res hard_limit]. unfold quota_step.
  destruct (quota_values _ _ _) as [[hard_val used_val] | e];
    [rewrite !bind_lift_ok | appended_done].
  destruct (usage_percent used_val hard_val) as [pct | e];
    [rewrite !bind_lift_ok | appended_done].
  destruct (num_gt pct _); appended_done.
Qed.

Lemma quota_loop_step_appended (namespace : string) (s : list issue)
      (q : V1ResourceQuota) :
  quota_loop_step w namespace s q = appended s (quota_loop_step w namespace [] q).
Proof.
  unfold quota_loop_step.
  destruct (q_hard q) as [[|h hs]|]; try appended_done.
  destruct (q_used q) as [[|u us]|]; try appended_done.
  apply foldM_appended. intros s0 x _. apply quota_step_appended.
Qed.

Lemma service_step_appended (s : list issue) (service : json) :
  service_step w s service = appended s (service_step w [] service).
Proof.
  unfold service_step.
  destruct (py_index service "url") as [url | e];
    [rewrite !bind_lift_ok | cbn; destruct (is_RequestException e);
                             [destruct (py_index service "name")|]; appended_done].
  destruct (py_get service "timeout" (JInt 10)) as [timeout | e];
    [rewrite !bind_lift_ok | cbn; destruct (is_RequestException e);
                             [destruct (py_index service "name")|]; appended_done].
  destruct (py_get service "expected_status" (JInt 200)) as [expected | e];
    [rewrite !bind_lift_ok | cbn; destruct (is_RequestException e);
                             [destruct (py_index service "name")|]; appended_done].
  destruct (requests_get w url timeout) as [code | e]; cbn.
  - destruct (py_ne_int code expected); [|appended_done].
    destruct (py_index service "name") as [name | e]; cbn; [appended_done|].
    destruct (is_RequestException e); [|appended_done].
    destruct (py_index service "name"); appended_done.
  - destruct (is_RequestException e); [|appended_done].
    destruct (py_index service "name"); appended_done.
Qed.

Lemma namespace_step_appended (s : list issue) (namespace : string) :
  namespace_step w self s namespace = appended s (namespace_step w self [] namespace).
Proof.
  unfold namespace_step. cbn [logger_info emit bind].
  destruct (check_deployment_health w self namespace) as [t1 [d | e]]; [|appended_done].
  cbn [bind].
  destruct (check_pod_health w self namespace) as [t2 [p | e]]; [|appended_done].
  cbn [bind].
  destruct (check_resource_usage w namespace) as [t3 [r | e]]; [|appended_done].
  cbn [bind].
  destruct (check_certificate_expiry w namespace) as [t4 [c | e]]; appended_done.
Qed.

End StepsAppend.

(** ** Every issue has one of the three severities *)

Lemma foldM_issues_Forall {A} (P : issue -> Prop)
      (f : list issue -> A -> M (list issue)) (l : list A) :
  (forall s x, In x l -> f s x = appended s (f [] x)) ->
  (forall x, In x l -> Forall P (issues_of (f [] x))) ->
  Forall P (issues_of (foldM f l [])).
Proof.
  intros Happ HP. unfold issues_of at 1.
  destruct (outcome (foldM f l [])) as [s' | e] eqn:E; [|constructor].
  destruct (foldM_appended_ok f l Happ [] s' E) as [-> _].
  cbn [app]. apply Forall_flat_map. apply Forall_forall. exact HP.
Qed.

Ltac known_done :=
  unfold issues_of;
  cbn [trace outcome fst snd ret lift bind app try_except];
  repeat constructor.

Section KnownSeverities.
Variable w : World.
Variable self : CICDMonitor.
Local Abbreviation known := (fun i => known_severity i = true).

Lemma deployment_step_known (namespace : string) (d : V1Deployment) :
  Forall known (issues_of (deployment_step w self namespace [] d)).
Proof.
  unfold deployment_step.
  destruct (threshold self "max_deployment_age_days" 90) as [v | e];
    [rewrite !bind_lift_ok | known_done].
  destruct (py_gt_int _ v) as [b | e]; [rewrite !bind_lift_ok | known_done].
  destruct b; destruct (_ <? _)%nat; try known_done;
    destruct (_ =? 0)%nat; known_done.
Qed.

Lemma container_step_known (namespace name : string) (c : V1ContainerStatus) :
  Forall known (issues_of (container_step w self namespace name [] c)).
Proof.
  unfold container_step.
  destruct (threshold self "max_container_restarts" 5) as [v | e];
    [rewrite !bind_lift_ok | known_done].
  destruct (py_gt_int _ v) as [b | e]; [rewrite !bind_lift_ok | known_done].
  destruct b; known_done.
Qed.

Lemma pod_step_known (namespace : string) (pod : V1Pod) :
  Forall known (issues_of (pod_step w self namespace [] pod)).
Proof.
  rewrite <- (appended_nil (pod_step w self namespace [] pod)).
  unfold pod_step.
  assert (forall l x, Forall known x ->
            Forall known
              (issues_of (appended []
                 (foldM (container_step w self namespace (p_name pod)) l ([] ++ x)%list))))
    as Hloop.
  { intros l x Hx. rewrite appended_nil.
    rewrite (foldM_appended _ l (fun s1 c _ => container_step_appended w self _ _ s1 c)).
    pose proof (foldM_issues_Forall known _ l
                  (fun s1 c _ => container_step_appended w self namespace (p_name pod) s1 c)
                  (fun c _ => container_step_known namespace (p_name pod) c)) as H.
    unfold issues_of in *. unfold appended. cbn [outcome snd].
    destruct (outcome (foldM _ l [])); [|constructor].
    apply Forall_app. split; assumption. }
  destruct (p_container_statuses pod) as [[|c cs]|].
  - destruct (phase_is _ "Failed"); [known_done|].
    destruct (phase_is _ "Pending"); [|known_done].
    destruct (total_seconds_gt _ _); known_done.
  - destruct (phase_is _ "Failed"); [apply Hloop; repeat constructor|].
    destruct (phase_is _ "Pending"); [|apply (Hloop _ []); constructor].
    destruct (total_seconds_gt _ _);
      [apply Hloop; repeat constructor | apply (Hloop _ []); constructor].
  - destruct (phase_is _ "Failed"); [known_done|].
    destruct (phase_is _ "Pending"); [|known_done].
    destruct (total_seconds_gt _ _); known_done.
Qed.

Lemma quota_step_known (namespace quota_name : string)
      (used_map : list (string * string)) (entry : string * string) :
  Forall known (issues_of (quota_step w namespace quota_name used_map [] entry)).
Proof.
  destruct entry as [res hard_limit]. unfold quota_step.
  destruct (quota_values _ _ _) as [[hard_val used_val] | e];
    [rewrite !bind_lift_ok | known_done].
  destruct (usage_percent used_val hard_val) as [pct | e];
    [rewrite !bind_lift_ok | known_done].
  destruct (num_gt pct (PInt 90)); [|known_done].
  destruct (num_gt pct (PInt 95)); known_done.
Qed.

Lemma quota_loop_step_known (namespace : string) (q : V1ResourceQuota) :
  Forall known (issues_of (quota_loop_step w namespace [] q)).
Proof.
  unfold quota_loop_step.
  destruct (q_hard q) as [[|h hs]|]; try known_done.
  destruct (q_used q) as [[|u us]|]; try known_done.
  apply foldM_issues_Forall.
  - intros s x _. apply quota_step_appended.
  - intros x _. apply quota_step_known.
Qed.

Lemma service_step_known (service : json) :
  Forall known (issues_of (service_step w [] service)).
Proof.
  unfold service_step.
  destruct (py_index service "url") as [url | e];
    [rewrite !bind_lift_ok | cbn; destruct (is_RequestException e);
                             [destruct (py_index service "name")|]; known_done].
  destruct (py_get service "timeout" (JInt 10)) as [timeout | e];
    [rewrite !bind_lift_ok | cbn; destruct (is_RequestException e);
                             [destruct (py_index service "name")|]; known_done].
  destruct (py_get service "expected_status" (JInt 200)) as [expected | e];
    [rewrite !bind_lift_ok | cbn; destruct (is_RequestException e);
                             [destruct (py_index service "name")|]; known_done].
  destruct (requests_get w url timeout) as [code | e]; cbn.
  - destruct (py_ne_int code expected); [|known_done].
    destruct (py_index service "name") as [name | e]; cbn; [known_done|].
    destruct (is_RequestException e); [|known_done].
    destruct (py_index service "name"); known_done.
  - destruct (is_RequestException e); [|known_done].
    destruct (py_index service "name"); known_done.
Qed.

(** The issues of a guarded listing loop. *)
Lemma guarded_loop_known {A} (listing : result (list A))
      (f : list issue -> A -> M (list issue)) (handler : exn -> M (list issue)) :
  (forall s x, f s x = appended s (f [] x)) ->
  (forall x, Forall known (issues_of (f [] x))) ->
  (forall e, Forall known (issues_of (handler e))) ->
  Forall known
    (issues_of (try_except (items <- lift listing ;; foldM f items [])
                           is_ApiException handler)).
Proof.
  intros Happ Hf Hh. destruct listing as [items | e].
  - rewrite bind_lift_ok.
    pose proof (foldM_issues_Forall known f items (fun s x _ => Happ s x)
                  (fun x _ => Hf x)) as H.
    unfold issues_of in *. rewrite try_except_unfold.
    destruct (outcome (foldM f items [])) as [l | e]; [exact H|].
    destruct (is_ApiException e); [apply Hh | constructor].
  - rewrite bind_lift_raise. cbn [try_except].
    specialize (Hh e). unfold issues_of in *.
    destruct (is_ApiException e); [|constructor].
    destruct (handler e) as [t r]. exact Hh.
Qed.

Lemma check_deployment_health_known (namespace : string) :
  Forall known (issues_of (check_deployment_health w self namespace)).
Proof.
  apply guarded_loop_known.
  - apply deployment_step_appended.
  - apply deployment_step_known.
  - intros e. known_done.
Qed.

Lemma check_pod_health_known (namespace : string) :
  Forall known (issues_of (check_pod_health w self namespace)).
Proof.
  apply guarded_loop_known.
  - apply pod_step_appended.
  - apply pod_step_known.
  - intros e. known_done.
Qed.

Lemma check_resource_usage_known (namespace : string) :
  Forall known (issues_of (check_resource_usage w namespace)).
Proof.
  apply guarded_loop_known.
  - apply quota_loop_step_appended.
  - apply quota_loop_step_known.
  - intros e. known_done.
Qed.

End KnownSeverities.

(** ** The certificate check and the report *)

Lemma secrets_loop (secrets : list V1Secret) (s : list issue) :
  foldM (fun issues (_ : V1Secret) => ret issues) secrets s = ([], Ok s).
Proof.
  induction secrets as [|x l IH]; [reflexivity|]. cbn [foldM]. now rewrite bind_ok.
Qed.

Lemma check_certificate_expiry_cases (w : World) (namespace : string) :
  check_certificate_expiry w namespace
  = match list_namespaced_secret w namespace with
    | Ok _ => ([], Ok [])
    | Raise e =>
        if is_ApiException e
        then ([LogError ("Failed to check certificates: " ++ exn_str e)], Ok [])
        else ([], Raise e)
    end.
Proof.
  unfold check_certificate_expiry.
  destruct (list_namespaced_secret w namespace) as [secrets | e].
  - now rewrite bind_lift_ok, secrets_loop.
  - rewrite bind_lift_raise. cbn [try_except]. destruct (is_ApiException e); reflexivity.
Qed.

Lemma namespace_step_issues (w : World) (self : CICDMonitor) (namespace : string)
      (l : list issue) :
  outcome (namespace_step w self [] namespace) = Ok l ->
  l = namespace_issues w self namespace.
Proof.
  unfold namespace_step, namespace_issues, issues_of. cbn [logger_info emit bind].
  destruct (check_deployment_health w self namespace) as [t1 [d | e]]; [|discriminate].
  cbn [bind outcome snd].
  destruct (check_pod_health w self namespace) as [t2 [p | e]]; [|discriminate].
  cbn [bind outcome snd].
  destruct (check_resource_usage w namespace) as [t3 [r | e]]; [|discriminate].
  cbn [bind outcome snd].
  rewrite check_certificate_expiry_cases.
  destruct (list_namespaced_secret w namespace) as [secrets | e].
  - cbn. intros H. injection H as <-. now rewrite app_nil_r, <- app_assoc.
  - destruct (is_ApiException e); [|discriminate].
    cbn. intros H. injection H as <-. now rewrite app_nil_r, <- app_assoc.
Qed.

Lemma run_health_checks_issues (w : World) (self : CICDMonitor)
      (namespaces : list string) (report : HealthReport) :
  outcome (run_health_checks w self namespaces) = Ok report ->
  all_issues report
  = (flat_map (namespace_issues w self) namespaces
     ++ issues_of (check_external_services w self))%list
  /\ total_issues report = List.length (all_issues report)
  /\ critical (issues_by_severity report)
     = filter (has_severity "critical") (all_issues report)
  /\ warning (issues_by_severity report)
     = filter (has_severity "warning") (all_issues report)
  /\ info (issues_by_severity report) = filter (has_severity "info") (all_issues report).
Proof.
  unfold run_health_checks. rewrite bind_unfold.
  destruct (outcome (foldM (namespace_step w self) namespaces [])) as [l | e] eqn:E;
    [|discriminate].
  destruct (foldM_appended_ok _ namespaces
              (fun s x _ => namespace_step_appended w self s x) [] l E) as [-> Hall].
  cbn [outcome snd app]. rewrite bind_unfold.
  destruct (outcome (check_external_services w self)) as [ext | e] eqn:Eext;
    [|discriminate].
  cbn [outcome snd ret]. intros H. injection H as <-.
  cbn [all_issues total_issues issues_by_severity critical warning info].
  split; [|repeat split].
  f_equal; [|unfold issues_of; now rewrite Eext].
  clear E. induction namespaces as [|ns nss IH]; [reflexivity|].
  cbn [flat_map]. rewrite IH by (intros x Hx; apply Hall; now right).
  f_equal. specialize (Hall ns (or_introl eq_refl)). unfold issues_of.
  destruct (outcome (namespace_step w self [] ns)) as [l | e] eqn:E; [|discriminate].
  now apply namespace_step_issues.
Qed.

Lemma check_external_services_known (w : World) (self : CICDMonitor) :
  Forall (fun i => known_severity i = true) (issues_of (check_external_services w self)).
Proof.
  unfold check_external_services.
  destruct (py_get (config self) "external_services" (JList [])) as [ext | e];
    [rewrite bind_lift_ok | known_done].
  destruct (py_iter ext) as [services | e]; [rewrite bind_lift_ok | known_done].
  apply foldM_issues_Forall.
  - intros s x _. apply service_step_appended.
  - intros x _. apply service_step_known.
Qed.

Lemma namespace_issues_known (w : World) (self : CICDMonitor) (namespace : string) :
  Forall (fun i => known_severity i = true) (namespace_issues w self namespace).
Proof.
  unfold namespace_issues. repeat (apply Forall_app; split).
  - apply check_deployment_health_known.
  - apply check_pod_health_known.
  - apply check_resource_usage_known.
Qed.

(** The three buckets are disjoint, and they cover the issues with a known
    severity. *)
Lemma severity_buckets_partition (l : list issue) :
  Forall (fun i => known_severity i = true) l ->
  List.length l
  = (List.length (filter (has_severity "critical") l)
     + List.length (filter (has_severity "warning") l)
     + List.length (filter (has_severity "info") l))%nat.
Proof.
  induction 1 as [|i l Hi _ IH]; [reflexivity|].
  cbn [filter]. unfold known_severity, has_severity in *.
  destruct (String.eqb_spec (severity i) "critical") as [E | _];
    [rewrite E; simpl; lia|].
  destruct (String.eqb_spec (severity i) "warning") as [E | _];
    [rewrite E; simpl; lia|].
  destruct (String.eqb_spec (severity i) "info") as [E | _];
    [simpl; lia | discriminate].
Qed.

(** X1.  When [run_health_checks] returns, the report lists the issues of
    the deployments, the pods and the quotas of each namespace, namespace by
    namespace in the order given, and then the issues of the external
    services; [total_issues] is their number, and each bucket is the
    sub-list of the issues of its severity, in the same order. *)
Theorem X1_report_lists_namespaces_in_order
        (w : World) (self : CICDMonitor) (namespaces : list string)
        (report : HealthReport) :
  outcome (run_health_checks w self namespaces) = Ok report ->
  all_issues report
  = (flat_map (namespace_issues w self) namespaces
     ++ issues_of (check_external_services w self))%list
  /\ total_issues report = List.length (all_issues report)
  /\ critical (issues_by_severity report)
     = filter (has_severity "critical") (all_issues report)
  /\ warning (issues_by_severity report)
     = filter (has_severity "warning") (all_issues report)
  /\ info (issues_by_severity report) = filter (has_severity "info") (all_issues report)
  /\ (forall before after,
        namespaces = (before ++ after)%list ->
        all_issues report
        = (flat_map (namespace_issues w self) before
           ++ flat_map (namespace_issues w self) after
           ++ issues_of (check_external_services w self))%list).
Proof.
  intros Hrun.
  destruct (run_health_checks_issues w self namespaces report Hrun)
    as (Hall & Htotal & Hc & Hw & Hi).
  repeat (split; [assumption|]).
  intros before after ->. now rewrite Hall, flat_map_app, <- app_assoc.
Qed.

(** X1 at a namespace with three deployments. *)
Lemma X1_witness :
  exists report,
    outcome (run_health_checks degraded_world plain_monitor ["prod"]) = Ok report
    /\ all_issues report
       = (flat_map (namespace_issues degraded_world plain_monitor) ["prod"]
          ++ issues_of (check_external_services degraded_world plain_monitor))%list.
Proof.
  eexists. split; [reflexivity|].
  apply (X1_report_lists_namespaces_in_order degraded_world plain_monitor ["prod"]).
  reflexivity.
Defined.

(** X2.  Every issue the checks produce is critical, warning or info: when
    [run_health_checks] returns, the three buckets of the report are
    disjoint and cover [all_issues], so that [total_issues] is the sum of
    their sizes. *)
Theorem X2_buckets_partition_the_issues
        (w : World) (self : CICDMonitor) (namespaces : list string)
        (report : HealthReport) :
  outcome (run_health_checks w self namespaces) = Ok report ->
  Forall (fun i => known_severity i = true) (all_issues report)
  /\ total_issues report
     = (List.length (critical (issues_by_severity report))
        + List.length (warning (issues_by_severity report))
        + List.length (info (issues_by_severity report)))%nat
  /\ (forall i, In i (all_issues report) <->
                In i (critical (issues_by_severity report))
                \/ In i (warning (issues_by_severity report))
                \/ In i (info (issues_by_severity report)))
  /\ (forall i, In i (critical (issues_by_severity report)) ->
                ~ In i (warning (issues_by_severity report))
                /\ ~ In i (info (issues_by_severity report)))
  /\ (forall i, In i (warning (issues_by_severity report)) ->
                ~ In i (info (issues_by_severity report))).
Proof.
  intros Hrun.
  destruct (run_health_checks_issues w self namespaces report Hrun)
    as (Hall & Htotal & Hc & Hw & Hi).
  assert (Forall (fun i => known_severity i = true) (all_issues report)) as Hknown.
  { rewrite Hall. apply Forall_app. split.
    - apply Forall_flat_map. apply Forall_forall. intros ns _.
      apply namespace_issues_known.
    - apply check_external_services_known. }
  split; [exact Hknown|].
  split; [rewrite Htotal, Hc, Hw, Hi; now apply severity_buckets_partition|].
  rewrite Hc, Hw, Hi. split; [|split].
  - intros i. rewrite !filter_In. split.
    + intros Hin. rewrite Forall_forall in Hknown. specialize (Hknown i Hin).
      unfold known_severity in Hknown. cbv beta in Hknown.
      apply orb_true_iff in Hknown as [Hk | Hk];
        [apply orb_true_iff in Hk as [Hk | Hk]|]; tauto.
    + tauto.
  - intros i. rewrite !filter_In. unfold has_severity.
    intros [_ E]. apply String.eqb_eq in E. rewrite E. split; intros [_ H]; discriminate.
  - intros i. rewrite !filter_In. unfold has_severity.
    intros [_ E]. apply String.eqb_eq in E. rewrite E. intros [_ H]. discriminate.
Qed.

(** X2 at a namespace with three deployments. *)
Lemma X2_witness :
  exists report,
    outcome (run_health_checks degraded_world plain_monitor ["prod"]) = Ok report
    /\ total_issues report
       = (List.length (critical (issues_by_severity report))
          + List.length (warning (issues_by_severity report))
          + List.length (info (issues_by_severity report)))%nat.
Proof.
  eexists. split; [reflexivity|].
  apply (X2_buckets_partition_the_issues degraded_world plain_monitor ["prod"]).
  reflexivity.
Defined.

(** ** Pods *)

Lemma restart_issues_only (l : list issue) :
  Forall (fun i => type i = "high_restart_count" /\ severity i = "warning") l ->
  filter (has_type "pod_failed") l = []
  /\ filter (has_type "pod_pending") l = []
  /\ filter (has_type "high_restart_count") l = l.
Proof.
  induction 1 as [|i r [Hi _] _ (IH1 & IH2 & IH3)]; [repeat split|].
  cbn [filter]. unfold has_type in *. rewrite Hi. cbn. rewrite IH1, IH2, IH3.
  repeat split.
Qed.

Section PodHealth.
Variable w : World.
Variable self : CICDMonitor.
Variable namespace : string.
Variable max_restarts : Z.
Hypothesis Hthreshold :
  threshold self "max_container_restarts" 5 = Ok (JInt max_restarts).

Lemma container_step_extends (name : string) (s : list issue) (c : V1ContainerStatus) :
  container_step w self namespace name s c
  = ([], Ok (s ++ issues_of (container_step w self namespace name [] c))%list).
Proof.
  rewrite container_step_appended. unfold container_step. rewrite Hthreshold.
  rewrite !bind_lift_ok. cbn [py_gt_int]. rewrite !bind_lift_ok.
  destruct (max_restarts <? _); reflexivity.
Qed.

Lemma container_step_restarts (name : string) (c : V1ContainerStatus) :
  let added := issues_of (container_step w self namespace name [] c) in
  map resource added
  = (if restarts_above max_restarts c
     then [namespace ++ "/" ++ name ++ "/" ++ cs_name c] else [])
  /\ Forall (fun i => type i = "high_restart_count" /\ severity i = "warning") added.
Proof.
  unfold container_step, restarts_above. rewrite Hthreshold.
  rewrite !bind_lift_ok. cbn [py_gt_int]. rewrite !bind_lift_ok.
  destruct (max_restarts <? _); cbn; split; repeat constructor.
Qed.

Lemma pod_step_extends (s : list issue) (pod : V1Pod) :
  pod_step w self namespace s pod = ([], Ok (s ++ pod_added w self namespace pod)%list).
Proof.
  rewrite pod_step_appended. unfold pod_added, issues_of, appended.
  assert (pod_step w self namespace [] pod
          = ([], outcome (pod_step w self namespace [] pod))
          /\ is_ok (outcome (pod_step w self namespace [] pod)) = true) as [Ht Hok].
  { unfold pod_step.
    destruct (p_container_statuses pod) as [[|c cs]|];
      try (destruct (phase_is _ "Failed"); [|destruct (phase_is _ "Pending");
             [destruct (total_seconds_gt _ _)|]]; split; reflexivity).
    destruct (phase_is _ "Failed"); [|destruct (phase_is _ "Pending");
             [destruct (total_seconds_gt _ _)|]];
      rewrite (foldM_extends _ (fun c => issues_of
                 (container_step w self namespace (p_name pod) [] c)) (c :: cs)
                 (fun s0 x _ => container_step_extends (p_name pod) s0 x));
      split; reflexivity. }
  rewrite Ht. cbn [trace outcome fst snd].
  destruct (outcome (pod_step w self namespace [] pod)); [reflexivity | discriminate].
Qed.

Lemma check_pod_health_ok (pods : list V1Pod) :
  list_namespaced_pod w namespace = Ok pods ->
  check_pod_health w self namespace
  = ([], Ok (flat_map (pod_added w self namespace) pods)).
Proof.
  intros Hlist. unfold check_pod_health. rewrite Hlist, bind_lift_ok.
  rewrite (foldM_extends _ (pod_added w self namespace)).
  - reflexivity.
  - intros s x _. apply pod_step_extends.
Qed.

(** The issues of the containers of one pod. *)
Lemma containers_loop (name : string) (s : list issue) (l : list V1ContainerStatus) :
  foldM (container_step w self namespace name) l s
  = ([], Ok (s ++ flat_map (fun c => issues_of (container_step w self namespace name [] c))
                           l)%list).
Proof.
  apply foldM_extends. intros s0 x _. apply container_step_extends.
Qed.

Lemma restart_issues_of_containers (name : string) (l : list V1ContainerStatus) :
  let added :=
    flat_map (fun c => issues_of (container_step w self namespace name [] c)) l in
  map resource added
  = map (fun c => namespace ++ "/" ++ name ++ "/" ++ cs_name c)
        (filter (restarts_above max_restarts) l)
  /\ Forall (fun i => type i = "high_restart_count" /\ severity i = "warning") added.
Proof.
  induction l as [|c l [IHr IHt]]; [split; [reflexivity | constructor]|].
  cbn [flat_map filter]. destruct (container_step_restarts name c) as [Hr Ht].
  split.
  - rewrite map_app, IHr, Hr. destruct (restarts_above max_restarts c); reflexivity.
  - apply Forall_app. split; assumption.
Qed.

Lemma pod_added_split (pod : V1Pod) :
  pod_added w self namespace pod
  = (pod_added w self namespace (without_containers pod)
     ++ flat_map (fun c => issues_of (container_step w self namespace (p_name pod) [] c))
                 (containers_of pod))%list.
Proof.
  unfold pod_added, issues_of, pod_step, containers_of, without_containers.
  cbn [p_name p_phase p_creation_timestamp p_container_statuses].
  destruct (p_container_statuses pod) as [[|c cs]|].
  - cbn [flat_map]. now rewrite app_nil_r.
  - rewrite containers_loop. reflexivity.
  - cbn [flat_map]. now rewrite app_nil_r.
Qed.

(** What the phase of a pod adds. *)
Lemma phase_added_by_type (pod : V1Pod) :
  let added := pod_added w self namespace (without_containers pod) in
  map resource (filter (has_type "pod_failed") added)
  = (if is_failed pod then [namespace ++ "/" ++ p_name pod] else [])
  /\ map resource (filter (has_type "pod_pending") added)
     = (if is_stuck_pending (now w) pod then [namespace ++ "/" ++ p_name pod] else [])
  /\ filter (has_type "high_restart_count") added = []
  /\ Forall (fun i => (type i = "pod_failed" /\ severity i = "critical")
                      \/ (type i = "pod_pending" /\ severity i = "warning"))
            added.
Proof.
  cbv zeta. unfold pod_added, issues_of, pod_step, without_containers, is_failed,
            is_stuck_pending, phase_is, total_seconds_gt.
  cbn [p_name p_phase p_creation_timestamp p_container_statuses].
  destruct (p_phase pod) as [ph|]; [|repeat split; constructor].
  destruct (String.eqb ph "Failed") eqn:EF.
  - apply String.eqb_eq in EF. subst ph. cbn. repeat split.
    constructor; [left; split; reflexivity | constructor].
  - destruct (String.eqb ph "Pending"); [|repeat split; constructor].
    cbn [andb]. destruct (_ <? _); cbn; repeat split; try constructor.
    + right; split; reflexivity.
    + constructor.
Qed.

(** What one pod adds, by kind. *)
Lemma pod_added_by_type (pod : V1Pod) :
  let added := pod_added w self namespace pod in
  map resource (filter (has_type "pod_failed") added)
  = (if is_failed pod then [namespace ++ "/" ++ p_name pod] else [])
  /\ map resource (filter (has_type "pod_pending") added)
     = (if is_stuck_pending (now w) pod then [namespace ++ "/" ++ p_name pod] else [])
  /\ map resource (filter (has_type "high_restart_count") added)
     = map (fun c => namespace ++ "/" ++ p_name pod ++ "/" ++ cs_name c)
           (filter (restarts_above max_restarts) (containers_of pod))
  /\ Forall (fun i => (type i = "pod_failed" /\ severity i = "critical")
                      \/ (type i = "pod_pending" /\ severity i = "warning")
                      \/ (type i = "high_restart_count" /\ severity i = "warning"))
            added.
Proof.
  cbv zeta. rewrite pod_added_split.
  destruct (phase_added_by_type pod) as (P1 & P2 & P3 & P4).
  destruct (restart_issues_of_containers (p_name pod) (containers_of pod)) as [Hr Ht].
  cbv zeta in P1, P2, P3, P4, Hr, Ht.
  set (cs := flat_map _ (containers_of pod)) in *.
  destruct (restart_issues_only cs Ht) as (H1 & H2 & H3).
  rewrite !filter_app, !map_app, H1, H2, H3, P1, P2, P3, Hr, !app_nil_r.
  repeat split.
  apply Forall_app. split; (eapply Forall_impl; [|eassumption]); cbv beta; tauto.
Qed.

Lemma pods_by_type (pods : list V1Pod) :
  let issues := flat_map (pod_added w self namespace) pods in
  map resource (filter (has_type "pod_failed") issues)
  = map (fun p => namespace ++ "/" ++ p_name p) (filter is_failed pods)
  /\ map resource (filter (has_type "pod_pending") issues)
     = map (fun p => namespace ++ "/" ++ p_name p) (filter (is_stuck_pending (now w)) pods)
  /\ map resource (filter (has_type "high_restart_count") issues)
     = flat_map (fun p => map (fun c => namespace ++ "/" ++ p_name p ++ "/" ++ cs_name c)
                             (filter (restarts_above max_restarts) (containers_of p)))
                pods
  /\ Forall (fun i => (type i = "pod_failed" /\ severity i = "critical")
                      \/ (type i = "pod_pending" /\ severity i = "warning")
                      \/ (type i = "high_restart_count" /\ severity i = "warning"))
            issues.
Proof.
  induction pods as [|p pods (IH1 & IH2 & IH3 & IH4)];
    [repeat split; constructor|].
  cbv zeta in *. cbn [flat_map filter].
  destruct (pod_added_by_type p) as (P1 & P2 & P3 & P4). cbv zeta in P1, P2, P3, P4.
  rewrite !filter_app, !map_app, IH1, IH2, IH3, P1, P2, P3.
  repeat split.
  - destruct (is_failed p); reflexivity.
  - destruct (is_stuck_pending (now w) p); reflexivity.
  - apply Forall_app. split; assumption.
Qed.

End PodHealth.

(** X3.  When the pods of a namespace are listed and the restart threshold
    is an integer, [check_pod_health] returns, and its issues are, in the
    order of the pods: one critical [pod_failed] issue for each pod in
    phase Failed; one [pod_pending] warning for each pod in phase Pending
    created more than 300 seconds ago (exactly 300 seconds is not enough);
    one [high_restart_count] warning for each container restarted more
    often than the configured [max_container_restarts]. *)
Theorem X3_pod_rules
        (w : World) (self : CICDMonitor) (namespace : string)
        (pods : list V1Pod) (max_restarts : Z) :
  list_namespaced_pod w namespace = Ok pods ->
  threshold self "max_container_restarts" 5 = Ok (JInt max_restarts) ->
  exists issues,
    check_pod_health w self namespace = ([], Ok issues)
    /\ map resource (filter (has_type "pod_failed") issues)
       = map (fun p => namespace ++ "/" ++ p_name p) (filter is_failed pods)
    /\ map resource (filter (has_type "pod_pending") issues)
       = map (fun p => namespace ++ "/" ++ p_name p)
             (filter (is_stuck_pending (now w)) pods)
    /\ map resource (filter (has_type "high_restart_count") issues)
       = flat_map (fun p => map (fun c => namespace ++ "/" ++ p_name p ++ "/" ++ cs_name c)
                               (filter (restarts_above max_restarts) (containers_of p)))
                  pods
    /\ Forall (fun i => (type i = "pod_failed" /\ severity i = "critical")
                        \/ (type i = "pod_pending" /\ severity i = "warning")
                        \/ (type i = "high_restart_count" /\ severity i = "warning"))
              issues.
Proof.
  intros Hlist Hthr. eexists. split.
  - exact (check_pod_health_ok w self namespace max_restarts Hthr pods Hlist).
  - exact (pods_by_type w self namespace max_restarts Hthr pods).
Qed.

(** X3 at four pods: one failed, one pending for 301 seconds, one pending
    for 300 seconds, one with containers restarted 6 and 5 times. *)
Lemma X3_witness :
  exists issues,
    check_pod_health (with_pods quiet_world (fun _ => Ok four_pods)) plain_monitor "prod"
    = ([], Ok issues)
    /\ map resource (filter (has_type "pod_failed") issues) = ["prod/crashed"]
    /\ map resource (filter (has_type "pod_pending") issues) = ["prod/waiting"]
    /\ map resource (filter (has_type "high_restart_count") issues) = ["prod/flaky/app"].
Proof.
  destruct (X3_pod_rules (with_pods quiet_world (fun _ => Ok four_pods)) plain_monitor
              "prod" four_pods 5 eq_refl eq_refl)
    as (issues & Hrun & Hfailed & Hpending & Hrestart & _).
  exists issues. repeat split; assumption.
Defined.

(** ** The age of deployments *)

Lemma deployment_added_old
      (w : World) (self : CICDMonitor) (namespace : string) (max_age_days : Z)
      (d : V1Deployment) :
  threshold self "max_deployment_age_days" 90 = Ok (JInt max_age_days) ->
  let old := filter (has_type "deployment_old") (deployment_added w self namespace d) in
  map resource old
  = (if older_than (now w) max_age_days d then [namespace ++ "/" ++ d_name d] else [])
  /\ Forall (fun i => severity i = "info") old.
Proof.
  intros Hthr. unfold deployment_added, deployment_step, older_than.
  rewrite Hthr. rewrite !bind_lift_ok. cbn [py_gt_int]. rewrite !bind_lift_ok.
  destruct (max_age_days <? _); destruct (_ <? _)%nat; cbn; split; repeat constructor.
Qed.

(** X4.  When the deployments of a namespace are listed and the age
    threshold is an integer, the [deployment_old] issues of
    [check_deployment_health] correspond one to one, in order, to the
    deployments whose age in whole days is strictly above the configured
    [max_deployment_age_days]; all of them have severity info.  The
    threshold is 90 when the configuration has no ['thresholds']. *)
Theorem X4_deployment_age_rule
        (w : World) (self : CICDMonitor) (namespace : string)
        (ds : list V1Deployment) (max_age_days : Z) :
  list_namespaced_deployment w namespace = Ok ds ->
  threshold self "max_deployment_age_days" 90 = Ok (JInt max_age_days) ->
  (exists issues,
      check_deployment_health w self namespace = ([], Ok issues)
      /\ map resource (filter (has_type "deployment_old") issues)
         = map (fun d => namespace ++ "/" ++ d_name d)
               (filter (older_than (now w) max_age_days) ds)
      /\ Forall (fun i => severity i = "info") (filter (has_type "deployment_old") issues))
  /\ (forall entries, config self = JDict entries -> assoc "thresholds" entries = None ->
        max_age_days = 90).
Proof.
  intros Hlist Hthr. split.
  - eexists. split;
      [exact (check_deployment_health_ok w self namespace max_age_days Hthr ds Hlist)|].
    clear Hlist. induction ds as [|d ds IH]; [split; [reflexivity | constructor]|].
    destruct IH as [IHr IHs].
    destruct (deployment_added_old w self namespace max_age_days d Hthr) as [Hr Hs].
    cbv zeta in Hr, Hs. cbn [flat_map filter]. rewrite filter_app, map_app, IHr, Hr.
    split.
    + destruct (older_than (now w) max_age_days d); reflexivity.
    + apply Forall_app. split; assumption.
  - intros entries Hcfg Hnone. unfold threshold in Hthr. rewrite Hcfg in Hthr.
    cbn [py_get rbind] in Hthr. rewrite Hnone in Hthr. cbn in Hthr. congruence.
Qed.

(** X4 at a deployment of 91 days and one of exactly 90 days, with the
    default threshold. *)
Lemma X4_witness :
  exists issues,
    check_deployment_health
      (with_deployments quiet_world (fun _ => Ok two_aged_deployments)) plain_monitor "prod"
    = ([], Ok issues)
    /\ map resource (filter (has_type "deployment_old") issues) = ["prod/legacy"].
Proof.
  destruct (proj1 (X4_deployment_age_rule
                     (with_deployments quiet_world (fun _ => Ok two_aged_deployments))
                     plain_monitor "prod" two_aged_deployments 90 eq_refl eq_refl))
    as (issues & Hrun & Hold & _).
  exists issues. split; assumption.
Defined.

(** ** Failures of the deployment check *)

Lemma run_health_checks_raises_with (w : World) (self : CICDMonitor)
      (namespaces : list string) (namespace : string) :
  In namespace namespaces ->
  (forall s, is_ok (outcome (namespace_step w self s namespace)) = false) ->
  exists e, outcome (run_health_checks w self namespaces) = Raise e.
Proof.
  intros Hin Hstep. apply is_ok_false. unfold run_health_checks. apply bind_not_ok_l.
  now apply foldM_raises with (x := namespace).
Qed.

Lemma namespace_step_raises_deployments (w : World) (self : CICDMonitor)
      (namespace : string) (s : list issue) :
  is_ok (outcome (check_deployment_health w self namespace)) = false ->
  is_ok (outcome (namespace_step w self s namespace)) = false.
Proof.
  intros H. unfold namespace_step. apply bind_not_ok. intros _ _. now apply bind_not_ok_l.
Qed.

(** X5.  A [max_deployment_age_days] that is not a number is only noticed
    when a deployment is evaluated: with no deployment in the namespace the
    check returns no issue; with at least one it raises [TypeError], which
    no handler of the checks catches, so that [run_health_checks] raises for
    every list of namespaces that contains this one. *)
Theorem X5_age_threshold_checked_lazily
        (w : World) (self : CICDMonitor) (namespace : string)
        (ds : list V1Deployment) (v : json) :
  list_namespaced_deployment w namespace = Ok ds ->
  threshold self "max_deployment_age_days" 90 = Ok v ->
  (forall z, v <> JInt z) ->
  (forall b, v <> JBool b) ->
  (ds = [] -> check_deployment_health w self namespace = ([], Ok []))
  /\ (ds <> [] ->
      (exists e, check_deployment_health w self namespace = ([], Raise e)
                 /\ exn_cls e = TypeError)
      /\ forall namespaces, In namespace namespaces ->
           exists e, outcome (run_health_checks w self namespaces) = Raise e).
Proof.
  intros Hlist Hthr Hint Hbool.
  assert (ds <> [] -> exists e, check_deployment_health w self namespace = ([], Raise e)
                                /\ exn_cls e = TypeError) as Hraise.
  { intros Hne. destruct ds as [|d ds]; [congruence|].
    unfold check_deployment_health. rewrite Hlist, bind_lift_ok.
    cbn [foldM]. unfold deployment_step. rewrite Hthr, !bind_lift_ok.
    destruct v as [| b | z | | |]; try (eexists; split; reflexivity).
    - elim (Hbool b). reflexivity.
    - elim (Hint z). reflexivity. }
  split.
  - intros ->. unfold check_deployment_health. now rewrite Hlist.
  - intros Hne. split; [now apply Hraise|].
    intros namespaces Hin. apply run_health_checks_raises_with with (namespace := namespace);
      [exact Hin|].
    intros s. apply namespace_step_raises_deployments.
    destruct (Hraise Hne) as (e & -> & _). reflexivity.
Qed.

(** X5 at the threshold "ninety" and a namespace with three deployments. *)
Lemma X5_witness :
  exists e,
    outcome (run_health_checks degraded_world (monitor_of text_threshold_config) ["prod"])
    = Raise e.
Proof.
  refine (proj2 (proj2 (X5_age_threshold_checked_lazily degraded_world
                          (monitor_of text_threshold_config) "prod" three_deployments
                          (JStr "ninety") eq_refl eq_refl _ _) _)
                ["prod"] (or_introl eq_refl)); discriminate.
Defined.

(** X6.  Only [ApiException] is absorbed by the checks.  When the listing
    of the deployments or of the pods raises it, the check logs the failure
    and returns exactly one critical [api_error] issue for the namespace.
    When a listing (deployments, pods, quotas, secrets) raises anything
    else, such as a connection error, the check logs nothing and lets it
    through; for the deployments this makes [run_health_checks] raise for
    every list of namespaces that contains the namespace. *)
Theorem X6_only_api_exceptions_are_absorbed
        (w : World) (self : CICDMonitor) (namespace : string) (e : exn) :
  (is_ApiException e = true ->
   (list_namespaced_deployment w namespace = Raise e ->
    check_deployment_health w self namespace
    = ([LogError ("Failed to check deployment health: " ++ exn_str e)],
       Ok [api_error_issue w namespace e]))
   /\ (list_namespaced_pod w namespace = Raise e ->
       check_pod_health w self namespace
       = ([LogError ("Failed to check pod health: " ++ exn_str e)],
          Ok [api_error_issue w namespace e]))
   /\ type (api_error_issue w namespace e) = "api_error"
   /\ severity (api_error_issue w namespace e) = "critical"
   /\ resource (api_error_issue w namespace e) = "namespace/" ++ namespace)
  /\ (is_ApiException e = false ->
      (list_namespaced_deployment w namespace = Raise e ->
       check_deployment_health w self namespace = ([], Raise e)
       /\ forall namespaces, In namespace namespaces ->
            exists e', outcome (run_health_checks w self namespaces) = Raise e')
      /\ (list_namespaced_pod w namespace = Raise e ->
          check_pod_health w self namespace = ([], Raise e))
      /\ (list_namespaced_resource_quota w namespace = Raise e ->
          check_resource_usage w namespace = ([], Raise e))
      /\ (list_namespaced_secret w namespace = Raise e ->
          check_certificate_expiry w namespace = ([], Raise e))).
Proof.
  split; intros Hcls.
  - split; [intros H; now apply check_deployment_health_api_error|].
    split; [intros H; now apply check_pod_health_api_error|].
    repeat split.
  - assert (list_namespaced_deployment w namespace = Raise e ->
            check_deployment_health w self namespace = ([], Raise e)) as Hd.
    { intros H. unfold check_deployment_health.
      rewrite H, bind_lift_raise. cbn [try_except]. now rewrite Hcls. }
    split; [|split; [|split]].
    + intros H. split; [now apply Hd|].
      intros namespaces Hin.
      apply run_health_checks_raises_with with (namespace := namespace); [exact Hin|].
      intros s. apply namespace_step_raises_deployments. now rewrite (Hd H).
    + intros H. unfold check_pod_health.
      rewrite H, bind_lift_raise. cbn [try_except]. now rewrite Hcls.
    + intros H. unfold check_resource_usage.
      rewrite H, bind_lift_raise. cbn [try_except]. now rewrite Hcls.
    + intros H. unfold check_certificate_expiry.
      rewrite H, bind_lift_raise. cbn [try_except]. now rewrite Hcls.
Qed.

(** X6 at a cluster that answers with a connection error, and at one whose
    deployments of "payments" cannot be listed. *)
Lemma X6_witness :
  (exists e', outcome (run_health_checks unreachable_world plain_monitor ["prod"])
              = Raise e')
  /\ check_deployment_health deployment_outage_world plain_monitor "payments"
     = ([LogError ("Failed to check deployment health: " ++ exn_str api_outage)],
        Ok [api_error_issue deployment_outage_world "payments" api_outage]).
Proof.
  split.
  - exact (proj2 (proj1 (proj2 (X6_only_api_exceptions_are_absorbed unreachable_world
                                  plain_monitor "prod"
                                  (mk_exn OtherException "Max retries exceeded"))
                               eq_refl) eq_refl)
                 ["prod"] (or_introl eq_refl)).
  - exact (proj1 (proj1 (X6_only_api_exceptions_are_absorbed deployment_outage_world
                           plain_monitor "payments" api_outage) eq_refl) eq_refl).
Defined.

(** ** External services *)







(** X8.  An entry of ['external_services'] without a ['url'] makes
    [check_external_services] raise ([KeyError] is not a
    [RequestException]); the exception is not caught by
    [run_health_checks], which then returns no report whatever the
    namespaces.  An entry without a ['name'] has the same effect as soon as
    its service is down, and none while the service is healthy. *)
Theorem X8_incomplete_service_entry_aborts
        (w : World) (self : CICDMonitor) (services : list json)
        (d : list (string * json)) :
  py_get (config self) "external_services" (JList []) = Ok (JList services) ->
  In (JDict d) services ->
  (assoc "url" d = None ->
   (exists e, outcome (check_external_services w self) = Raise e)
   /\ (forall rest, services = JDict d :: rest ->
         check_external_services w self = ([], Raise (mk_exn KeyError (repr "url"))))
   /\ forall namespaces,
        exists e, outcome (run_health_checks w self namespaces) = Raise e)
  /\ (forall url, assoc "url" d = Some url -> assoc "name" d = None ->
        (service_down w (JDict d) = true ->
         exists e, outcome (check_external_services w self) = Raise e)
        /\ (service_down w (JDict d) = false ->
            (forall e, probe w (JDict d) <> Raise e) ->
            forall s, service_step w s (JDict d)
                      = ([HttpGet url (svc_timeout (JDict d))], Ok s))).
Proof.
  intros Hcfg Hin. split.
  - intros Hurl.
    assert (forall s, service_step w s (JDict d)
                      = ([], Raise (mk_exn KeyError (repr "url")))) as Hstep.
    { intros s. unfold service_step. cbn [py_index]. rewrite Hurl. reflexivity. }
    assert (is_ok (outcome (check_external_services w self)) = false) as Hraise.
    { unfold check_external_services. rewrite Hcfg, bind_lift_ok. cbn [py_iter].
      rewrite bind_lift_ok. apply foldM_raises with (x := JDict d); [exact Hin|].
      intros s. now rewrite Hstep. }
    split; [now apply is_ok_false|]. split.
    + intros rest ->. unfold check_external_services. rewrite Hcfg, bind_lift_ok.
      cbn [py_iter]. rewrite bind_lift_ok. cbn [foldM]. now rewrite Hstep.
    + intros namespaces. apply is_ok_false. unfold run_health_checks.
      apply bind_not_ok. intros all _. now apply bind_not_ok_l.
  - intros url Hurl Hname. unfold service_down, probe, svc_url, svc_timeout, svc_expected.
    cbn [py_index py_get]. rewrite Hurl. split.
    + intros Hdown. apply is_ok_false.
      unfold check_external_services. rewrite Hcfg, bind_lift_ok. cbn [py_iter].
      rewrite bind_lift_ok. apply foldM_raises with (x := JDict d); [exact Hin|].
      intros s. unfold service_step. cbn [py_index py_get]. rewrite Hurl, Hname.
      rewrite !bind_lift_ok.
      destruct (requests_get w url _) as [code | e]; cbn.
      * rewrite Hdown. reflexivity.
      * rewrite Hdown. reflexivity.
    + intros Hup Hok s. unfold service_step. cbn [py_index py_get]. rewrite Hurl, Hname.
      rewrite !bind_lift_ok.
      destruct (requests_get w url _) as [code | e]; cbn.
      * rewrite Hup. reflexivity.
      * elim (Hok e). reflexivity.
Qed.

(** X8 at a configuration whose only service entry has no URL. *)
Lemma X8_witness :
  exists e,
    outcome (run_health_checks quiet_world
               (monitor_of (JDict [("external_services", JList [nameless_url_service])]))
               ["prod"])
    = Raise e.
Proof.
  exact (proj2 (proj2 (proj1 (X8_incomplete_service_entry_aborts quiet_world
                                (monitor_of (JDict [("external_services",
                                                     JList [nameless_url_service])]))
                                [nameless_url_service] [("name", JStr "artifacts")]
                                eq_refl (or_introl eq_refl)) eq_refl))
               ["prod"]).
Defined.

(** ** The senders *)

Lemma py_get_raises_Exception (v : json) (key : string) (default : json) (e : exn) :
  py_get v key default = Raise e -> is_Exception e = true.
Proof. destruct v; cbn; intros H; try discriminate; injection H as <-; reflexivity. Qed.

Lemma py_index_raises_Exception (v : json) (key : string) (e : exn) :
  py_index v key = Raise e -> is_Exception e = true.
Proof.
  destruct v; cbn; try destruct (assoc key d); intros H; try discriminate;
    injection H as <-; reflexivity.
Qed.

(** A handler for [Exception] that returns leaves only exceptions outside
    [Exception] to propagate. *)
Lemma try_except_Exception_outcome {A} (body : M A) (handler : exn -> M A) (e : exn) :
  (forall e0, is_ok (outcome (handler e0)) = true) ->
  outcome (try_except body is_Exception handler) = Raise e ->
  is_Exception e = false /\ outcome body = Raise e.
Proof.
  intros Hh. rewrite try_except_unfold.
  destruct (outcome body) as [a | e0]; [discriminate|].
  destruct (is_Exception e0) eqn:E.
  - specialize (Hh e0). cbn [outcome snd]. intros H. rewrite H in Hh. discriminate.
  - cbn [outcome snd]. intros H. injection H as <-. now split.
Qed.

Lemma attempted_bind {A B} (c : channel) (m : M A) (k : A -> M B) :
  attempted c (trace (bind m k)) = true ->
  attempted c (trace m) = true
  \/ exists a, outcome m = Ok a /\ attempted c (trace (k a)) = true.
Proof.
  rewrite bind_unfold. destruct (outcome m) as [a | e] eqn:E; cbn [trace fst].
  - rewrite attempted_app. intros H. apply orb_true_iff in H as [H | H]; [now left|].
    right. now exists a.
  - now left.
Qed.

Ltac attempt_done :=
  let H := fresh "H" in
  intros H;
  match goal with c : channel |- _ => destruct c end;
  cbn in H; try discriminate H; split; reflexivity.

Section Senders.
Variable w : World.
Variable am : AlertManager.

Lemma send_email_alert_attempted (subject message : string) (recipients : json)
      (c : channel) :
  attempted c (trace (send_email_alert w am subject message recipients)) = true ->
  c = Email /\ channel_enabled am Email = Ok true.
Proof.
  unfold send_email_alert, channel_enabled, channel_config.
  destruct (py_get (smtp_config am) "enabled" (JBool false)) as [v | e];
    [|branches; attempt_done].
  rewrite bind_lift_ok. cbn [rbind]. destruct (truthy v); [|branches; attempt_done].
  cbn [negb]. branches; attempt_done.
Qed.

Lemma send_slack_alert_attempted (message : string) (ch : json) (c : channel) :
  attempted c (trace (send_slack_alert w am message ch)) = true ->
  c = Slack /\ channel_enabled am Slack = Ok true.
Proof.
  unfold send_slack_alert, channel_enabled, channel_config.
  destruct (py_get (slack_config am) "enabled" (JBool false)) as [v | e];
    [|branches; attempt_done].
  rewrite bind_lift_ok. cbn [rbind]. destruct (truthy v); [|branches; attempt_done].
  cbn [negb]. branches; attempt_done.
Qed.

Lemma send_webhook_alert_attempted (alert_data : http_body) (c : channel) :
  (forall ch u t i, alert_data <> SlackPayload ch u t i) ->
  attempted c (trace (send_webhook_alert w am alert_data)) = true ->
  c = Webhook /\ channel_enabled am Webhook = Ok true.
Proof.
  intros Hbody. unfold send_webhook_alert, channel_enabled, channel_config.
  destruct alert_data as [ch u t i | sev issues ts]; [elim (Hbody ch u t i); reflexivity|].
  destruct (py_get (webhook_config am) "enabled" (JBool false)) as [v | e];
    [|branches; attempt_done].
  rewrite bind_lift_ok. cbn [rbind]. destruct (truthy v); [|branches; attempt_done].
  cbn [negb]. branches; attempt_done.
Qed.

(** A disabled channel is silent. *)
Lemma disabled_senders_are_silent (subject message : string) (recipients : json)
      (alert_data : http_body) :
  (channel_enabled am Email = Ok false ->
   send_email_alert w am subject message recipients = ([], Ok false))
  /\ (channel_enabled am Slack = Ok false ->
      send_slack_alert w am message JNull = ([], Ok false))
  /\ (channel_enabled am Webhook = Ok false ->
      send_webhook_alert w am alert_data = ([], Ok false)).
Proof.
  unfold channel_enabled, channel_config, send_email_alert, send_slack_alert,
         send_webhook_alert.
  repeat split; intros H;
    match type of H with
    | rbind ?r _ = _ => destruct r as [v | e]; [|discriminate]
    end;
    cbn [rbind] in H; injection H as H; rewrite bind_lift_ok, H; reflexivity.
Qed.

End Senders.

Lemma raises_in_bind {A B} (P : exn -> Prop) (m : M A) (k : A -> M B) :
  raises_in P m -> (forall a, raises_in P (k a)) -> raises_in P (bind m k).
Proof.
  intros Hm Hk e. rewrite bind_unfold. destruct (outcome m) as [a | e0] eqn:E.
  - cbn [outcome snd]. apply Hk.
  - cbn [outcome snd]. intros H. injection H as <-. now apply Hm.
Qed.

Lemma raises_in_lift {A} (P : exn -> Prop) (r : result A) :
  (forall e, r = Raise e -> P e) -> raises_in P (lift r).
Proof. intros H e. exact (H e). Qed.

Lemma raises_in_ok {A} (P : exn -> Prop) (t : list event) (a : A) :
  raises_in P (t, Ok a).
Proof. intros e H. discriminate H. Qed.

Lemma py_iter_raises_Exception (v : json) (e : exn) :
  py_iter v = Raise e -> is_Exception e = true.
Proof. destruct v; cbn; intros H; try discriminate; injection H as <-; reflexivity. Qed.

Lemma py_join_raises_Exception (v : json) (e : exn) :
  py_join v = Raise e -> is_Exception e = true.
Proof.
  unfold py_join. destruct (py_iter v) as [items | e0] eqn:E; cbn [rbind].
  - clear E. revert e. induction items as [|x items IH]; intros e; [discriminate|].
    destruct x; try (intros H; injection H as <-; reflexivity).
    destruct items as [|y items]; [discriminate|].
    match goal with
    | |- rbind ?r _ = _ -> _ => destruct r as [rest | e1] eqn:Ej
    end; cbn [rbind]; [discriminate|].
    intros H. injection H as <-. now apply IH.
  - intros H. injection H as <-. exact (py_iter_raises_Exception _ _ E).
Qed.

Ltac soft_chain :=
  repeat match goal with
    | |- raises_in _ (if ?b then _ else _) => destruct b
    | |- raises_in _ (bind _ _) => apply raises_in_bind; [|intros ?]
    | |- raises_in _ (lift _) =>
        apply raises_in_lift; intros ? ?;
        first [ eapply py_get_raises_Exception; eassumption
              | eapply py_index_raises_Exception; eassumption
              | eapply py_join_raises_Exception; eassumption
              | eauto ]
    | |- raises_in _ (ret _) => apply raises_in_ok
    | |- raises_in _ (emit _) => apply raises_in_ok
    | |- raises_in _ (logger_info _) => apply raises_in_ok
    | |- raises_in _ (logger_error _) => apply raises_in_ok
    end.

Section SendersReturn.
Variable w : World.
Variable am : AlertManager.
Hypothesis Hsoft : transports_fail_softly w.

Lemma send_email_alert_returns (subject message : string) (recipients : json) :
  exists b, outcome (send_email_alert w am subject message recipients) = Ok b.
Proof.
  destruct (outcome (send_email_alert w am subject message recipients)) as [b | e] eqn:E;
    [now exists b|].
  exfalso. unfold send_email_alert in E.
  apply try_except_Exception_outcome in E as [Hne Hbody]; [|reflexivity].
  assert (is_Exception e = true) as He; [|congruence].
  clear Hne. revert e Hbody.
  refine (_ : raises_in (fun e => is_Exception e = true) _).
  destruct Hsoft as [Hsmtp _]. soft_chain.
Qed.

Lemma send_slack_alert_returns (message : string) (ch : json) :
  exists b, outcome (send_slack_alert w am message ch) = Ok b.
Proof.
  destruct (outcome (send_slack_alert w am message ch)) as [b | e] eqn:E;
    [now exists b|].
  exfalso. unfold send_slack_alert in E.
  apply try_except_Exception_outcome in E as [Hne Hbody]; [|reflexivity].
  assert (is_Exception e = true) as He; [|congruence].
  clear Hne. revert e Hbody.
  refine (_ : raises_in (fun e => is_Exception e = true) _).
  destruct Hsoft as [_ Hpost]. cbv zeta. soft_chain.
Qed.

Lemma send_webhook_alert_returns (alert_data : http_body) :
  exists b, outcome (send_webhook_alert w am alert_data) = Ok b.
Proof.
  destruct (outcome (send_webhook_alert w am alert_data)) as [b | e] eqn:E;
    [now exists b|].
  exfalso. unfold send_webhook_alert in E.
  apply try_except_Exception_outcome in E as [Hne Hbody]; [|reflexivity].
  assert (is_Exception e = true) as He; [|congruence].
  clear Hne. revert e Hbody.
  refine (_ : raises_in (fun e => is_Exception e = true) _).
  destruct Hsoft as [_ Hpost]. soft_chain.
Qed.

End SendersReturn.

(** X9.  The three senders of [AlertManager] keep failures to themselves:
    whatever they raise is outside [Exception], and when the transports
    fail only with exceptions of class [Exception] they always return.  A
    sender engages only its own transport, and only when its channel is
    enabled; a disabled channel returns [False] without logging or sending
    anything. *)
Theorem X9_senders_keep_failures
        (w : World) (am : AlertManager) (subject message : string)
        (recipients : json) (severity_ timestamp_ : string) (issues : list issue) :
  let email := send_email_alert w am subject message recipients in
  let slack := send_slack_alert w am message JNull in
  let webhook := send_webhook_alert w am (WebhookPayload severity_ issues timestamp_) in
  (forall e, outcome email = Raise e \/ outcome slack = Raise e \/ outcome webhook = Raise e ->
             is_Exception e = false)
  /\ (transports_fail_softly w ->
      (exists b, outcome email = Ok b)
      /\ (exists b, outcome slack = Ok b)
      /\ (exists b, outcome webhook = Ok b))
  /\ (forall c, attempted c (trace email) = true ->
                c = Email /\ channel_enabled am Email = Ok true)
  /\ (forall c, attempted c (trace slack) = true ->
                c = Slack /\ channel_enabled am Slack = Ok true)
  /\ (forall c, attempted c (trace webhook) = true ->
                c = Webhook /\ channel_enabled am Webhook = Ok true)
  /\ (channel_enabled am Email = Ok false -> email = ([], Ok false))
  /\ (channel_enabled am Slack = Ok false -> slack = ([], Ok false))
  /\ (channel_enabled am Webhook = Ok false -> webhook = ([], Ok false)).
Proof.
  cbv zeta. split.
  { intros e [H | [H | H]];
      [unfold send_email_alert in H | unfold send_slack_alert in H
       | unfold send_webhook_alert in H];
      apply try_except_Exception_outcome in H as [Hne _]; try exact Hne; reflexivity. }
  split.
  { intros Hsoft. split; [now apply send_email_alert_returns|].
    split; [now apply send_slack_alert_returns | now apply send_webhook_alert_returns]. }
  split; [intros c; apply send_email_alert_attempted|].
  split; [intros c; apply send_slack_alert_attempted|].
  split; [intros c; apply send_webhook_alert_attempted; discriminate|].
  apply disabled_senders_are_silent.
Qed.

Lemma refused_smtp_fails_softly :
  transports_fail_softly
    (with_smtp quiet_world (Raise (mk_exn OSError "Connection refused"))).
Proof.
  split.
  - intros cfg from to subject message e H. injection H as <-. reflexivity.
  - intros url body headers e H. discriminate H.
Qed.

(** X9 at a mail server that refuses the connection. *)
Lemma X9_witness :
  exists b,
    outcome (send_email_alert
               (with_smtp quiet_world (Raise (mk_exn OSError "Connection refused")))
               (alert_manager (monitor_of all_channels_config))
               "CRITICAL: CI/CD Infrastructure Issues" "text"
               (JList [JStr "ops@example.com"]))
    = Ok b.
Proof.
  exact (proj1 (proj1 (proj2 (X9_senders_keep_failures
                                (with_smtp quiet_world
                                   (Raise (mk_exn OSError "Connection refused")))
                                (alert_manager (monitor_of all_channels_config))
                                "CRITICAL: CI/CD Infrastructure Issues" "text"
                                (JList [JStr "ops@example.com"]) "critical" "t0" []))
                      refused_smtp_fails_softly)).
Defined.

(** ** The dispatch of critical issues *)

Lemma recipients_lookup {A} (self : CICDMonitor) (k : json -> M A) :
  (alerts <- lift (py_index (config self) "alerts") ;;
   email_cfg <- lift (py_index alerts "email") ;;
   recipients <- lift (py_index email_cfg "recipients") ;;
   k recipients)
  = (recipients <- lift (recipients_of self) ;; k recipients).
Proof.
  unfold recipients_of.
  destruct (py_index (config self) "alerts") as [alerts | e]; [|reflexivity].
  rewrite bind_lift_ok. cbn [rbind].
  destruct (py_index alerts "email") as [email | e]; [|reflexivity].
  rewrite bind_lift_ok. reflexivity.
Qed.

(** X10.  Info issues are never dispatched: [send_alerts] depends on the
    report only through its critical bucket, its warning bucket and its
    timestamp, and for a report without critical and warning issues it does
    nothing, whatever the configuration and the world: no event, no
    configuration lookup, no failure. *)
Theorem X10_info_issues_are_not_dispatched
        (w : World) (self : CICDMonitor) (report : HealthReport) :
  (forall report',
      critical (issues_by_severity report') = critical (issues_by_severity report) ->
      warning (issues_by_severity report') = warning (issues_by_severity report) ->
      report_timestamp report' = report_timestamp report ->
      send_alerts w self report' = send_alerts w self report)
  /\ (critical (issues_by_severity report) = [] ->
      warning (issues_by_severity report) = [] ->
      send_alerts w self report = ([], Ok tt)).
Proof.
  split.
  - intros report' Hc Hw Ht.
    unfold send_alerts, send_critical_alerts, send_warning_alerts.
    now rewrite Hc, Hw, Ht.
  - intros Hc Hw. unfold send_alerts, send_critical_alerts, send_warning_alerts.
    now rewrite Hc, Hw.
Qed.

(** X10 at a report with one info issue and every channel configured. *)
Lemma X10_witness :
  send_alerts quiet_world (monitor_of all_channels_config) info_report = ([], Ok tt).
Proof.
  exact (proj2 (X10_info_issues_are_not_dispatched quiet_world
                  (monitor_of all_channels_config) info_report) eq_refl eq_refl).
Defined.

Ltac peel_lift H E :=
  apply attempted_bind in H as [H | (? & E & H)];
  [cbn in H; discriminate H | cbn [lift outcome snd] in E].

Lemma send_critical_alerts_attempted
      (w : World) (self : CICDMonitor) (report : HealthReport) (c : channel) :
  attempted c (trace (send_critical_alerts w self report)) = true ->
  critical (issues_by_severity report) <> []
  /\ alert_gate self (channel_key c) "critical" = Ok true
  /\ channel_enabled (alert_manager self) c = Ok true.
Proof.
  unfold send_critical_alerts.
  destruct (critical (issues_by_severity report)) as [|i l]; [discriminate|].
  intros H. split; [discriminate|].
  peel_lift H Eemail.
  apply attempted_bind in H as [H | (_ & _ & H)].
  { destruct x; [|cbn in H; discriminate H].
    peel_lift H E1. peel_lift H E2. peel_lift H E3.
    apply attempted_bind in H as [H | (? & _ & H)]; [|cbn in H; discriminate H].
    apply send_email_alert_attempted in H as [-> Hen]. now split. }
  peel_lift H Eslack.
  apply attempted_bind in H as [H | (_ & _ & H)].
  { destruct x0; [|cbn in H; discriminate H].
    apply attempted_bind in H as [H | (? & _ & H)]; [|cbn in H; discriminate H].
    apply send_slack_alert_attempted in H as [-> Hen]. now split. }
  peel_lift H Ewebhook.
  destruct x1; [|cbn in H; discriminate H].
  apply attempted_bind in H as [H | (? & _ & H)]; [|cbn in H; discriminate H].
  apply send_webhook_alert_attempted in H as [-> Hen]; [now split | discriminate].
Qed.

Lemma send_warning_alerts_attempted
      (w : World) (self : CICDMonitor) (report : HealthReport) (c : channel) :
  attempted c (trace (send_warning_alerts w self report)) = true ->
  c = Slack
  /\ warning (issues_by_severity report) <> []
  /\ send_warnings self = Ok true
  /\ alert_gate self "slack" "warning" = Ok true
  /\ channel_enabled (alert_manager self) Slack = Ok true.
Proof.
  unfold send_warning_alerts.
  destruct (warning (issues_by_severity report)) as [|i l]; [discriminate|].
  intros H. peel_lift H Esw. destruct x; [|cbn in H; discriminate H].
  peel_lift H Egate. destruct x; [|cbn in H; discriminate H].
  apply attempted_bind in H as [H | (? & _ & H)]; [|cbn in H; discriminate H].
  apply send_slack_alert_attempted in H as [-> Hen].
  repeat split; try assumption. discriminate.
Qed.

(** X11.  [send_alerts] engages the transport of a channel only if the
    channel is enabled and gated: for a critical alert the critical bucket
    is non-empty and the channel's ['critical'] gate is set; for a warning
    the channel is Slack, the warning bucket is non-empty, [send_warnings]
    is true and the Slack ['warning'] gate is set. *)
Theorem X11_no_send_without_gate
        (w : World) (self : CICDMonitor) (report : HealthReport) (c : channel) :
  attempted c (trace (send_alerts w self report)) = true ->
  channel_enabled (alert_manager self) c = Ok true
  /\ ((critical (issues_by_severity report) <> []
       /\ alert_gate self (channel_key c) "critical" = Ok true)
      \/ (c = Slack
          /\ warning (issues_by_severity report) <> []
          /\ send_warnings self = Ok true
          /\ alert_gate self "slack" "warning" = Ok true)).
Proof.
  unfold send_alerts. intros H.
  apply attempted_bind in H as [H | (_ & _ & H)].
  - apply send_critical_alerts_attempted in H as (Hne & Hgate & Hen).
    split; [exact Hen | left; now split].
  - apply send_warning_alerts_attempted in H as (-> & Hne & Hsw & Hgate & Hen).
    split; [exact Hen | right; repeat split; assumption].
Qed.

(** X11 at a report with one warning and every channel configured. *)
Lemma X11_witness :
  channel_enabled (alert_manager (monitor_of all_channels_config)) Slack = Ok true.
Proof.
  exact (proj1 (X11_no_send_without_gate quiet_world (monitor_of all_channels_config)
                  warning_report Slack eq_refl)).
Defined.

(** X12.  A failing mail server does not suppress the Slack alert: when the
    transports fail only with exceptions of class [Exception], the critical
    bucket is non-empty, the email gate is either unset or set with
    recipients configured, and Slack is gated, enabled and has its webhook
    URL, [send_alerts] posts the critical alert to Slack, whatever happens
    to the email. *)
Theorem X12_email_failure_does_not_suppress_slack
        (w : World) (self : CICDMonitor) (report : HealthReport) (url : json) :
  transports_fail_softly w ->
  critical (issues_by_severity report) <> [] ->
  (alert_gate self "email" "critical" = Ok false
   \/ (alert_gate self "email" "critical" = Ok true
       /\ exists recipients, recipients_of self = Ok recipients)) ->
  alert_gate self "slack" "critical" = Ok true ->
  channel_enabled (alert_manager self) Slack = Ok true ->
  py_index (slack_config (alert_manager self)) "webhook_url" = Ok url ->
  attempted Slack (trace (send_critical_alerts w self report)) = true
  /\ attempted Slack (trace (send_alerts w self report)) = true.
Proof.
  intros Hsoft Hne Hemail Hslack Hen Hurl.
  assert (attempted Slack (trace (send_critical_alerts w self report)) = true) as Hcrit.
  { unfold send_critical_alerts.
    destruct (critical (issues_by_severity report)) as [|i l]; [congruence|].
    set (message := _format_alert_message (i :: l) "CRITICAL").
    assert (forall rest : M unit,
               attempted Slack
                 (trace (slack <- lift (alert_gate self "slack" "critical") ;;
                         (if slack
                          then send_slack_alert w (alert_manager self) message JNull ;;
                               ret tt
                          else ret tt) ;;
                         rest)) = true) as Hafter.
    { intros rest. rewrite Hslack, bind_lift_ok.
      pose proof (send_slack_alert_posts w (alert_manager self) message url Hen Hurl) as H.
      destruct (send_slack_alert_returns w (alert_manager self) Hsoft message JNull)
        as [b Hb].
      rewrite (bind_unfold (bind _ _)), (bind_unfold (send_slack_alert _ _ _ _)), Hb.
      cbn [trace outcome fst snd ret]. rewrite app_nil_r.
      destruct rest as [t r]. cbn [trace fst]. rewrite attempted_app, H. reflexivity. }
    destruct Hemail as [Hoff | [Hon [recipients Hrec]]].
    - rewrite Hoff, bind_lift_ok, bind_ok. apply Hafter.
    - rewrite Hon, bind_lift_ok.
      rewrite (recipients_lookup self), Hrec, bind_lift_ok.
      destruct (send_email_alert_returns w (alert_manager self) Hsoft
                  "CRITICAL: CI/CD Infrastructure Issues" message recipients) as [b Hb].
      rewrite (bind_unfold (bind (send_email_alert _ _ _ _ _) _)).
      rewrite (bind_unfold (send_email_alert _ _ _ _ _)), Hb.
      cbn [trace outcome fst snd ret]. rewrite attempted_app, Hafter.
      apply orb_true_r. }
  split; [exact Hcrit|].
  unfold send_alerts. rewrite bind_unfold.
  destruct (outcome (send_critical_alerts w self report)); cbn [trace fst];
    [rewrite attempted_app, Hcrit; reflexivity | exact Hcrit].
Qed.

(** X12 at a mail server that refuses the connection, with every channel
    configured. *)
Lemma X12_witness :
  attempted Slack
    (trace (send_alerts
              (with_smtp quiet_world (Raise (mk_exn OSError "Connection refused")))
              (monitor_of all_channels_config) critical_report))
  = true.
Proof.
  refine (proj2 (X12_email_failure_does_not_suppress_slack
                   (with_smtp quiet_world (Raise (mk_exn OSError "Connection refused")))
                   (monitor_of all_channels_config) critical_report
                   (JStr "https://hooks.example.com/T0")
                   refused_smtp_fails_softly _ _ eq_refl eq_refl eq_refl)).
  - discriminate.
  - right. split; [reflexivity|]. eexists. reflexivity.
Defined.

(** X13.  With the email gate set for critical issues and no recipients in
    the configuration, a report with a critical issue makes [send_alerts]
    raise before anything is sent: no channel is attempted, neither for the
    critical issues nor for the warnings.  In continuous mode the cycle then
    ends before the report is written. *)
Theorem X13_missing_recipients_abort_dispatch
        (w : World) (self : CICDMonitor) (report : HealthReport) (e : exn) :
  critical (issues_by_severity report) <> [] ->
  alert_gate self "email" "critical" = Ok true ->
  recipients_of self = Raise e ->
  send_alerts w self report = ([], Raise e)
  /\ is_Exception e = true
  /\ (forall args t,
        run_health_checks w self (args_namespaces args) = (t, Ok report) ->
        cycle_body w self args = (t, Raise e)).
Proof.
  intros Hne Hgate Hrec.
  assert (send_alerts w self report = ([], Raise e)) as Hsend.
  { unfold send_alerts, send_critical_alerts.
    destruct (critical (issues_by_severity report)) as [|i l]; [congruence|].
    rewrite Hgate, bind_lift_ok.
    rewrite (recipients_lookup self), Hrec. reflexivity. }
  split; [exact Hsend|]. split.
  - unfold recipients_of in Hrec.
    destruct (py_index (config self) "alerts") as [alerts | e0] eqn:E0; cbn [rbind] in Hrec;
      [|injection Hrec as <-; exact (py_index_raises_Exception _ _ _ E0)].
    destruct (py_index alerts "email") as [email | e1] eqn:E1; cbn [rbind] in Hrec;
      [|injection Hrec as <-; exact (py_index_raises_Exception _ _ _ E1)].
    exact (py_index_raises_Exception _ _ _ Hrec).
  - intros args t Hrun. unfold cycle_body. rewrite Hrun. cbn [bind].
    rewrite Hsend. cbn. now rewrite app_nil_r.
Qed.

(** X13 at a configuration with the email gate set and no recipients, where
    Slack is enabled and gated. *)
Lemma X13_witness :
  send_alerts quiet_world (monitor_of no_recipients_config) critical_report
  = ([], Raise (mk_exn KeyError (repr "recipients"))).
Proof.
  refine (proj1 (X13_missing_recipients_abort_dispatch quiet_world
                   (monitor_of no_recipients_config) critical_report _ _ eq_refl eq_refl)).
  discriminate.
Defined.

(** ** Start-up *)

Lemma main_after_startup_failure (worlds : nat -> World) (args : Args) (fuel : nat)
      (t0 : list event) (e : exn) :
  CICDMonitor_init (worlds O) (args_config args) = (t0, Raise e) ->
  is_Exception e = true ->
  main worlds args fuel
  = ((t0 ++ [LogError ("Monitor failed: " ++ exn_str e)])%list, Ok (Exit 1)).
Proof.
  intros Hinit He. unfold main. rewrite Hinit. cbn [bind try_except].
  assert (is_KeyboardInterrupt e = false) as ->.
  { destruct e as [[] msg]; try reflexivity; discriminate He. }
  cbn [try_except]. rewrite He. reflexivity.
Qed.

(** X14.  A start-up failure ends [main] with exit status 1 in both modes,
    before the cluster is queried: the only events are the error logs of
    the start-up and of [main].  Start-up fails when the configuration file
    cannot be read, when its content is not a dictionary (an empty YAML
    file gives [None]), or when the Kubernetes client cannot be set up. *)
Theorem X14_startup_failure_exits_with_1
        (worlds : nat -> World) (args : Args) (fuel : nat) :
  let w := worlds O in
  let file := args_config args in
  (forall t0 e,
      CICDMonitor_init w file = (t0, Raise e) -> is_Exception e = true ->
      main worlds args fuel
      = ((t0 ++ [LogError ("Monitor failed: " ++ exn_str e)])%list, Ok (Exit 1)))
  /\ (forall e,
        read_config w file = Raise e -> is_Exception e = true ->
        main worlds args fuel
        = ([LogError ("Failed to load config file " ++ file ++ ": " ++ exn_str e);
            LogError ("Monitor failed: " ++ exn_str e)],
           Ok (Exit 1)))
  /\ (forall c,
        read_config w file = Ok c -> (forall d, c <> JDict d) ->
        exists e,
          exn_cls e = AttributeError
          /\ main worlds args fuel
             = ([LogError ("Monitor failed: " ++ exn_str e)], Ok (Exit 1)))
  /\ (forall d e,
        read_config w file = Ok (JDict d) -> assoc "alerts" d = None ->
        kubernetes_client w = Raise e -> is_Exception e = true ->
        main worlds args fuel
        = ([LogError ("Failed to initialize Kubernetes client: " ++ exn_str e);
            LogError ("Monitor failed: " ++ exn_str e)],
           Ok (Exit 1))).
Proof.
  cbv zeta. split; [intros t0 e; apply main_after_startup_failure|].
  split; [|split].
  - intros e Hread He.
    apply (main_after_startup_failure worlds args fuel
             [LogError ("Failed to load config file " ++ args_config args ++ ": "
                        ++ exn_str e)] e); [|exact He].
    unfold CICDMonitor_init, _load_config. rewrite Hread. cbn [lift try_except].
    rewrite He. reflexivity.
  - intros c Hread Hc.
    exists (mk_exn AttributeError "object has no attribute 'get'").
    split; [reflexivity|].
    apply (main_after_startup_failure worlds args fuel []
             (mk_exn AttributeError "object has no attribute 'get'")); [|reflexivity].
    unfold CICDMonitor_init, _load_config. rewrite Hread. cbn [lift try_except bind].
    destruct c; try reflexivity. elim (Hc d). reflexivity.
  - intros d e Hread Halerts Hk He.
    apply (main_after_startup_failure worlds args fuel
             [LogError ("Failed to initialize Kubernetes client: " ++ exn_str e)] e);
      [|exact He].
    unfold CICDMonitor_init, _load_config. rewrite Hread, Hk.
    cbn [lift try_except bind py_get]. rewrite Halerts.
    cbn [AlertManager_init py_get assoc rbind bind try_except]. rewrite He. reflexivity.
Qed.

(** X14 at a configuration file that does not exist, in continuous mode. *)
Lemma X14_witness :
  main (fun _ => unreadable_config_world) continuous_args 3
  = ([LogError "Failed to load config file monitor.yaml: No such file or directory";
      LogError "Monitor failed: No such file or directory"],
     Ok (Exit 1)).
Proof.
  exact (proj1 (proj2 (X14_startup_failure_exits_with_1
                         (fun _ => unreadable_config_world) continuous_args 3))
               (mk_exn OSError "No such file or directory") eq_refl eq_refl).
Defined.

(** ** The continuous run *)

Lemma monitor_loop_raises_interrupt_only (worlds : nat -> World) (monitor : CICDMonitor)
      (args : Args) (fuel k : nat) (e : exn) :
  0 <= args_interval args ->
  (forall j, interrupts_only (sleep_outcome (worlds j) (args_interval args))) ->
  outcome (monitor_loop worlds monitor args fuel k) = Raise e ->
  is_Exception e = false.
Proof.
  intros Hint Hsleep. revert k. induction fuel as [|fuel IH]; intros k; [discriminate|].
  cbn [monitor_loop]. rewrite bind_unfold.
  destruct (outcome (cycle (worlds k) monitor args)) as [[] | e'] eqn:E.
  - cbn [outcome snd]. apply IH.
  - cbn [outcome snd]. intros H. injection H as <-.
    exact (cycle_raises_interrupt_only _ _ _ _ Hint (Hsleep k) E).
Qed.

Lemma main_continuous (worlds : nat -> World) (args : Args) (fuel : nat)
      (t0 : list event) (monitor : CICDMonitor) :
  args_once args = false ->
  CICDMonitor_init (worlds O) (args_config args) = (t0, Ok monitor) ->
  let started :=
    (t0 ++ [LogInfo ("Starting continuous monitoring with "
                     ++ str_of_Z (args_interval args) ++ "s interval")]
        ++ trace (monitor_loop worlds monitor args fuel O))%list in
  main worlds args fuel
  = match outcome (monitor_loop worlds monitor args fuel O) with
    | Ok _ => (started, Ok Running)
    | Raise e =>
        if is_KeyboardInterrupt e
        then ((started ++ [LogInfo "Monitoring stopped by user"])%list, Ok (Exit 0))
        else if is_Exception e
             then ((started ++ [LogError ("Monitor failed: " ++ exn_str e)])%list,
                   Ok (Exit 1))
             else (started, Raise e)
    end.
Proof.
  intros Honce Hinit. cbv zeta. unfold main. rewrite Hinit, Honce.
  cbn [bind logger_info emit].
  destruct (monitor_loop worlds monitor args fuel O) as [tl [[] | e]];
    cbn [bind logger_info emit trace outcome fst snd ret try_except app].
  - now rewrite app_nil_r.
  - destruct (is_KeyboardInterrupt e);
      cbn [bind logger_info emit trace outcome fst snd ret try_except app];
      [now rewrite <- !app_assoc|].
    destruct (is_Exception e);
      cbn [bind logger_error emit trace outcome fst snd ret try_except app];
      [now rewrite <- !app_assoc | reflexivity].
Qed.

(** X15.  In continuous mode, after a successful start-up and with a
    non-negative interval, [main] never exits with status 1: while the
    sleep can only be interrupted, the loop is either still running, or it
    was interrupted from the keyboard, and then [main] logs "Monitoring
    stopped by user" and exits with status 0, or an exception outside
    [Exception] left [main]. *)
Theorem X15_continuous_mode_exit_status
        (worlds : nat -> World) (args : Args) (fuel : nat)
        (t0 : list event) (monitor : CICDMonitor) :
  args_once args = false ->
  CICDMonitor_init (worlds O) (args_config args) = (t0, Ok monitor) ->
  0 <= args_interval args ->
  (forall j, interrupts_only (sleep_outcome (worlds j) (args_interval args))) ->
  outcome (main worlds args fuel) <> Ok (Exit 1)
  /\ (outcome (main worlds args fuel) = Ok Running
      \/ (outcome (main worlds args fuel) = Ok (Exit 0)
          /\ In (LogInfo "Monitoring stopped by user") (trace (main worlds args fuel)))
      \/ exists e, outcome (main worlds args fuel) = Raise e
                   /\ is_Exception e = false /\ is_KeyboardInterrupt e = false)
  /\ (forall e, outcome (monitor_loop worlds monitor args fuel O) = Raise e ->
                is_KeyboardInterrupt e = true ->
                outcome (main worlds args fuel) = Ok (Exit 0)).
Proof.
  intros Honce Hinit Hint Hsleep.
  pose proof (main_continuous worlds args fuel t0 monitor Honce Hinit) as Hmain.
  cbv zeta in Hmain.
  pose proof (monitor_loop_raises_interrupt_only worlds monitor args fuel O) as Hloop.
  destruct (outcome (monitor_loop worlds monitor args fuel O)) as [[] | e] eqn:E.
  - rewrite Hmain. cbn [outcome snd]. split; [discriminate|]. split; [now left|].
    intros e H. discriminate H.
  - specialize (Hloop e Hint Hsleep eq_refl). rewrite Hloop in Hmain.
    destruct (is_KeyboardInterrupt e) eqn:EK; rewrite Hmain; cbn [outcome snd trace fst].
    + split; [discriminate|]. split.
      * right. left. split; [reflexivity|]. apply in_or_app. right. now left.
      * intros e0 H _. reflexivity.
    + split; [discriminate|]. split.
      * right. right. exists e. now repeat split.
      * intros e0 H HK. injection H as <-. congruence.
Qed.

(** X15 at a sleep interrupted from the keyboard. *)
Lemma X15_witness :
  outcome (main (fun _ => interrupted_world) continuous_args 2) = Ok (Exit 0).
Proof.
  refine (proj2 (proj2 (X15_continuous_mode_exit_status (fun _ => interrupted_world)
                          continuous_args 2 [] plain_monitor eq_refl eq_refl _ _))
                (mk_exn KeyboardInterrupt "") eq_refl eq_refl).
  - simpl. lia.
  - intros j e H. injection H as <-. reflexivity.
Defined.

(** X16.  With a negative [--interval], continuous mode runs one cycle and
    stops: [time.sleep] raises [ValueError] outside the guarded part of the
    loop, so when the first cycle is not interrupted, [main] logs "Monitor
    failed: sleep length must be non-negative" and exits with status 1
    without ever sleeping. *)
Theorem X16_negative_interval_stops_after_one_cycle
        (worlds : nat -> World) (args : Args) (fuel : nat)
        (t0 : list event) (monitor : CICDMonitor) :
  args_once args = false ->
  CICDMonitor_init (worlds O) (args_config args) = (t0, Ok monitor) ->
  args_interval args < 0 ->
  outcome (guarded_cycle (worlds O) monitor args) = Ok tt ->
  main worlds args (S fuel)
  = ((t0 ++ [LogInfo ("Starting continuous monitoring with "
                      ++ str_of_Z (args_interval args) ++ "s interval")]
         ++ trace (guarded_cycle (worlds O) monitor args)
         ++ [LogError "Monitor failed: sleep length must be non-negative"])%list,
     Ok (Exit 1)).
Proof.
  intros Honce Hinit Hneg Hcycle.
  pose proof (main_continuous worlds args (S fuel) t0 monitor Honce Hinit) as Hmain.
  cbv zeta in Hmain.
  assert (monitor_loop worlds monitor args (S fuel) O
          = (trace (guarded_cycle (worlds O) monitor args),
             Raise (mk_exn ValueError "sleep length must be non-negative"))) as Hloop.
  { cbn [monitor_loop]. unfold cycle. fold (guarded_cycle (worlds O) monitor args).
    unfold time_sleep. rewrite (proj2 (Z.ltb_lt _ _) Hneg).
    destruct (guarded_cycle (worlds O) monitor args) as [t r].
    cbn [outcome snd] in Hcycle. subst r. cbn. now rewrite ?app_nil_r. }
  rewrite Hloop in Hmain. cbn [outcome snd trace fst] in Hmain.
  rewrite Hmain. cbn. now rewrite <- !app_assoc.
Qed.

(** X16 at [--interval -5] over an empty cluster. *)
Lemma X16_witness :
  main (fun _ => quiet_world) negative_interval_args 1
  = ([LogInfo "Starting continuous monitoring with -5s interval";
      LogInfo "Checking health for namespace: prod";
      LogInfo "Health check completed. Found 0 issues.";
      LogError "Monitor failed: sleep length must be non-negative"],
     Ok (Exit 1)).
Proof.
  refine (X16_negative_interval_stops_after_one_cycle (fun _ => quiet_world)
            negative_interval_args 0 [] plain_monitor eq_refl eq_refl _ eq_refl).
  simpl. lia.
Defined.

(** ** The CPU parser *)




(** ** Integer literals and the plain quota keys *)

Lemma list_ascii_of_string_append (a b : string) :
  list_ascii_of_string (a ++ b)
  = (list_ascii_of_string a ++ list_ascii_of_string b)%list.
Proof. induction a as [|c a IH]; cbn; [reflexivity | now rewrite IH]. Qed.

Lemma lstrip_keeps (c : ascii) (l : list ascii) :
  In c l -> is_space c = false -> In c (lstrip l).
Proof.
  induction l as [|x l IH]; intros Hin Hc; [destruct Hin|].
  cbn [lstrip]. destruct (is_space x) eqn:Ex; [|exact Hin].
  destruct Hin as [-> | Hin]; [congruence | now apply IH].
Qed.

Lemma strip_keeps (c : ascii) (l : list ascii) :
  In c l -> is_space c = false -> In c (strip l).
Proof.
  intros Hin Hc. unfold strip. apply -> in_rev.
  apply lstrip_keeps; [|exact Hc]. apply -> in_rev. now apply lstrip_keeps.
Qed.

(** A digit part that reaches the end of the string holds only digits and
    underscores. *)
Lemma digits_tail_chars (n : nat) (l : list ascii) (ds : list Z) (c : ascii) :
  (List.length l <= n)%nat ->
  digits_tail l = (ds, []) -> In c l -> is_digit c = true \/ c = "_"%char.
Proof.
  revert l ds. induction n as [|n IH]; intros l ds Hlen.
  - destruct l; [intros _ [] | cbn in Hlen; lia].
  - destruct l as [|x l]; [intros _ []|]. cbn [digits_tail].
    destruct (is_digit x) eqn:Ex.
    + destruct (digits_tail l) as [ds' r] eqn:E. intros H. injection H as _ ->.
      intros [<- | Hin]; [now left|].
      apply (IH l ds'); [cbn in Hlen; lia | exact E | exact Hin].
    + destruct (Ascii.eqb x "_") eqn:Eu; [|discriminate].
      apply Ascii.eqb_eq in Eu. subst x.
      destruct l as [|d l]; [discriminate|].
      destruct (is_digit d) eqn:Ed; [|discriminate].
      destruct (digits_tail l) as [ds' r] eqn:E. intros H. injection H as _ ->.
      intros [<- | [<- | Hin]]; [now right | now left|].
      apply (IH l ds'); [cbn in Hlen; lia | exact E | exact Hin].
Qed.

Lemma int_literal_chars (l : list ascii) (z : Z) (c : ascii) :
  int_literal l = Some z -> In c l -> not_integer_char c = false.
Proof.
  unfold int_literal, not_integer_char. intros H Hin.
  apply andb_false_iff. right.
  destruct (is_space c) eqn:Es; [reflexivity|].
  pose proof (strip_keeps c l Hin Es) as Hstrip.
  destruct (sign (strip l)) as [neg r] eqn:Esign.
  assert (In c r \/ c = "+"%char \/ c = "-"%char) as Hc.
  { unfold sign in Esign. destruct (strip l) as [|x l']; [destruct Hstrip|].
    destruct (Ascii.eqb x "-") eqn:Em.
    - apply Ascii.eqb_eq in Em. injection Esign as _ <-.
      destruct Hstrip as [<- | Hin']; [now right; right | now left].
    - destruct (Ascii.eqb x "+") eqn:Ep.
      + apply Ascii.eqb_eq in Ep. injection Esign as _ <-.
        destruct Hstrip as [<- | Hin']; [now right; left | now left].
      + injection Esign as _ <-. now left. }
  destruct Hc as [Hr | [-> | ->]]; [|reflexivity | reflexivity].
  destruct (digitpart r) as [[ds rest]|] eqn:Ed; [|discriminate].
  destruct rest; [|discriminate].
  unfold digitpart in Ed. destruct r as [|x r']; [discriminate|].
  destruct (is_digit x) eqn:Ex; [|discriminate].
  destruct (digits_tail r') as [ds' rest] eqn:Et. injection Ed as _ ->.
  destruct Hr as [<- | Hr]; [now rewrite Ex|].
  destruct (digits_tail_chars (List.length r') r' ds' c (le_n _) Et Hr) as [Hd | ->];
    [now rewrite Hd | reflexivity].
Qed.

Lemma py_int_rejects (s : string) (c : ascii) :
  In c (list_ascii_of_string s) -> not_integer_char c = true ->
  exists e, py_int s = Raise e /\ exn_cls e = ValueError.
Proof.
  intros Hin Hc. unfold py_int.
  destruct (int_literal (list_ascii_of_string s)) as [z|] eqn:E.
  - rewrite (int_literal_chars _ z c E Hin) in Hc. discriminate.
  - eexists. split; reflexivity.
Qed.

(** X18.  The hard limit and the usage of a quota resource whose name ends
    neither in [.cpu] nor in [.memory] (the plain keys [cpu], [memory],
    [pods], ...) are read with [int()]: a value with a unit or a fraction,
    such as "8Gi", "500m" or "1.5", raises [ValueError], no suffix of the
    memory parser makes [int()] accept a string, and [run_health_checks]
    raises for every list of namespaces that contains the namespace of such
    a quota. *)
Theorem X18_plain_quota_keys_take_integers_only
        (w : World) (self : CICDMonitor) (namespaces : list string) (namespace : string)
        (quotas : list V1ResourceQuota) (q : V1ResourceQuota)
        (hard used : list (string * string)) (res hard_limit : string) (c : ascii) :
  endswith res ".cpu" = false ->
  endswith res ".memory" = false ->
  In c (list_ascii_of_string hard_limit) ->
  not_integer_char c = true ->
  (exists e, quota_values res hard_limit (used_of used res) = Raise e
             /\ exn_cls e = ValueError)
  /\ (forall p unit multiplier, In (unit, multiplier) units ->
        exists e, py_int (p ++ unit) = Raise e /\ exn_cls e = ValueError)
  /\ (forall p, exists e, py_int (p ++ "m") = Raise e /\ exn_cls e = ValueError)
  /\ (In namespace namespaces ->
      list_namespaced_resource_quota w namespace = Ok quotas ->
      In q quotas -> q_hard q = Some hard -> q_used q = Some used -> used <> [] ->
      In (res, hard_limit) hard ->
      exists e, outcome (run_health_checks w self namespaces) = Raise e).
Proof.
  intros Hcpu Hmem Hin Hc.
  destruct (py_int_rejects hard_limit c Hin Hc) as (e & He & Hcls).
  assert (quota_values res hard_limit (used_of used res) = Raise e) as Hvals.
  { unfold quota_values. now rewrite Hcpu, Hmem, He. }
  split; [now exists e|]. split; [|split].
  - intros p unit multiplier Hunit.
    apply py_int_rejects with (c := "i"%char); [|reflexivity].
    rewrite list_ascii_of_string_append. apply in_or_app. right.
    cbn in Hunit. repeat (destruct Hunit as [Hunit | Hunit];
                          [injection Hunit as <- _; cbn; tauto|]).
    destruct Hunit.
  - intros p. apply py_int_rejects with (c := "m"%char); [|reflexivity].
    rewrite list_ascii_of_string_append. apply in_or_app. right. now left.
  - intros Hns Hlist Hq Hh Hu Hne Hentry.
    apply run_health_checks_raises_with with (namespace := namespace); [exact Hns|].
    intros s. apply namespace_step_raises with (e := e).
    exists quotas, q, hard, used, res, hard_limit. now repeat split.
Qed.

(** X18 at a quota with the key [memory] and the limit "8Gi". *)
Lemma X18_witness :
  exists e,
    outcome (run_health_checks (with_quotas quiet_world (fun _ => Ok [plain_keys_quota]))
                               plain_monitor ["prod"])
    = Raise e.
Proof.
  refine (proj2 (proj2 (proj2 (X18_plain_quota_keys_take_integers_only
                                 (with_quotas quiet_world (fun _ => Ok [plain_keys_quota]))
                                 plain_monitor ["prod"] "prod" [plain_keys_quota]
                                 plain_keys_quota [("memory", "8Gi")] [("memory", "1Gi")]
                                 "memory" "8Gi" "G"%char eq_refl eq_refl _ eq_refl)))
                (or_introl eq_refl) eq_refl (or_introl eq_refl) eq_refl eq_refl _
                (or_introl eq_refl)).
  - simpl. tauto.
  - discriminate.
Defined.

(** ** Quotas without limits or usage *)

Lemma zero_usage_values (res hard_limit : string) (hard_val used_val : pynum) :
  quota_values res hard_limit "0" = Ok (hard_val, used_val) ->
  exists z, to_float used_val = Fin z /\ (z == 0)%Q.
Proof.
  unfold quota_values.
  destruct (endswith res ".cpu"); [|destruct (endswith res ".memory")].
  - destruct (_parse_cpu hard_limit); cbn; [|discriminate].
    intros H. injection H as _ <-. eexists. split; reflexivity.
  - destruct (_parse_memory hard_limit); cbn; [|discriminate].
    intros H. injection H as _ <-. eexists. split; reflexivity.
  - destruct (py_int hard_limit); cbn; [|discriminate].
    intros H. injection H as _ <-. eexists. split; reflexivity.
Qed.

(** X19.  A quota whose status has no hard limits or no usage (absent or
    empty) is skipped: nothing is converted and no issue is added, whatever
    its other map holds.  A resource with a hard limit and no entry in the
    usage map counts as used "0": when its limit converts to a finite
    number, no issue is added for it. *)
Theorem X19_quota_without_usage
        (w : World) (namespace : string) (issues : list issue) (q : V1ResourceQuota) :
  ((q_hard q = None \/ q_hard q = Some [] \/ q_used q = None \/ q_used q = Some []) ->
   quota_loop_step w namespace issues q = ([], Ok issues))
  /\ (forall used_map res hard_limit hard_val used_val hard,
        assoc res used_map = None ->
        quota_values res hard_limit "0" = Ok (hard_val, used_val) ->
        to_float hard_val = Fin hard ->
        quota_step w namespace (q_name q) used_map issues (res, hard_limit)
        = ([], Ok issues)).
Proof.
  split.
  - unfold quota_loop_step. intros [H | [H | [H | H]]]; rewrite H; try reflexivity;
      destruct (q_hard q) as [[|h hs]|]; reflexivity.
  - intros used_map res hard_limit hard_val used_val hard Hnone Hvals Hh.
    destruct (zero_usage_values _ _ _ _ Hvals) as (z & Hz & Hzero).
    unfold quota_step. rewrite Hnone, Hvals, bind_lift_ok.
    rewrite (usage_percent_finite _ _ _ _ Hh Hz), bind_lift_ok.
    destruct (Qlt_bool 0 hard) eqn:Epos; [|reflexivity].
    unfold num_gt. cbn [to_float float_of_int fgt].
    assert (Qlt_bool (inject_Z 90) (percent_used z hard) = false) as ->; [|reflexivity].
    apply Qlt_bool_false_iff. unfold percent_used. rewrite Hzero.
    apply Qlt_bool_iff in Epos.
    assert (0 / hard * 100 == 0)%Q as -> by (field; intros E; rewrite E in Epos;
                                            exact (Qlt_irrefl _ Epos)).
    discriminate.
Qed.

(** X19 at a quota that limits the pods and records no usage for them. *)
Lemma X19_witness :
  quota_step quiet_world "prod" (q_name unused_pods_quota) [("services", "3")] []
             ("pods", "10")
  = ([], Ok []).
Proof.
  exact (proj2 (X19_quota_without_usage quiet_world "prod" [] unused_pods_quota)
               [("services", "3")] "pods" "10" (PInt 10) (PInt 0) (inject_Z 10)
               eq_refl eq_refl eq_refl).
Defined.

(** ** The output of the report *)

(** X20.  The two modes order the output and the dispatch differently.  In
    single-shot mode the report is written to [--output] (or printed, when
    no path or an empty path is given) before the alerts are dispatched: a
    failing dispatch leaves the report written, and a failing write leaves
    the alerts unsent.  In continuous mode the alerts are dispatched first:
    a failing write comes after them. *)
Theorem X20_output_and_dispatch_order
        (w : World) (monitor : CICDMonitor) (args : Args)
        (t : list event) (report : HealthReport) :
  run_health_checks w monitor (args_namespaces args) = (t, Ok report) ->
  (forall path,
      output_path args = Some path -> write_report w path report = Ok tt ->
      run_once w monitor args
      = ((t ++ [WriteFile path report; LogInfo ("Health report saved to " ++ path)]
            ++ trace (send_alerts w monitor report))%list,
         outcome (send_alerts w monitor report)))
  /\ (output_path args = None ->
      run_once w monitor args
      = ((t ++ [Print report] ++ trace (send_alerts w monitor report))%list,
         outcome (send_alerts w monitor report)))
  /\ (forall path e,
        output_path args = Some path -> write_report w path report = Raise e ->
        run_once w monitor args = ((t ++ [WriteFile path report])%list, Raise e)
        /\ (outcome (send_alerts w monitor report) = Ok tt ->
            cycle_body w monitor args
            = ((t ++ trace (send_alerts w monitor report) ++ [WriteFile path report])%list,
               Raise e)))
  /\ (args_output args = Some "" -> output_path args = None).
Proof.
  intros Hrun. split; [|split; [|split]].
  - intros path Hpath Hwrite. unfold run_once.
    rewrite Hrun, Hpath. cbn [bind]. unfold dump_report. rewrite Hwrite.
    cbn [bind emit lift logger_info app].
    destruct (send_alerts w monitor report) as [ts r]. cbn [trace outcome fst snd].
    reflexivity.
  - intros Hpath. unfold run_once. rewrite Hrun, Hpath. cbn [bind emit app].
    destruct (send_alerts w monitor report) as [ts r]. cbn [trace outcome fst snd].
    reflexivity.
  - intros path e Hpath Hwrite. split.
    + unfold run_once. rewrite Hrun, Hpath. cbn [bind]. unfold dump_report.
      rewrite Hwrite. cbn [bind emit lift app]. rewrite ?app_nil_r. reflexivity.
    + intros Hsend. unfold cycle_body. rewrite Hrun, Hpath. cbn [bind].
      destruct (send_alerts w monitor report) as [ts r].
      cbn [outcome snd] in Hsend. subst r. cbn [bind trace fst]. unfold dump_report.
      rewrite Hwrite. cbn [bind emit lift app]. rewrite ?app_nil_r, <- ?app_assoc.
      reflexivity.
  - unfold output_path. now intros ->.
Qed.

(** X20 at a file system that cannot be written. *)
Lemma X20_witness :
  exists report,
    run_once read_only_world plain_monitor once_output_args
    = ([LogInfo "Checking health for namespace: prod"; WriteFile "report.json" report],
       Raise (mk_exn OSError "Read-only file system")).
Proof.
  eexists.
  refine (proj1 (proj1 (proj2 (proj2 (X20_output_and_dispatch_order read_only_world
                                        plain_monitor once_output_args _ _ eq_refl)))
                       "report.json" (mk_exn OSError "Read-only file system")
                       eq_refl eq_refl)).
Defined.

(** ** The monitor that start-up builds *)

Lemma CICDMonitor_init_ok (w : World) (file : string) (t : list event)
      (monitor : CICDMonitor) :
  CICDMonitor_init w file = (t, Ok monitor) ->
  t = []
  /\ read_config w file = Ok (config monitor)
  /\ kubernetes_client w = Ok tt
  /\ exists alerts,
       py_get (config monitor) "alerts" (JDict []) = Ok alerts
       /\ forall c, py_get alerts (transport_section c) (JDict [])
                    = Ok (channel_config (alert_manager monitor) c).
Proof.
  unfold CICDMonitor_init, _load_config.
  destruct (read_config w file) as [c | e]; cbn [lift try_except];
    [|destruct (is_Exception e); discriminate].
  cbn [bind]. destruct (py_get c "alerts" (JDict [])) as [alerts | e] eqn:Ea;
    [|discriminate].
  cbn [bind lift]. unfold AlertManager_init.
  destruct (py_get alerts "smtp" (JDict [])) as [smtp | e] eqn:E1; [|discriminate].
  destruct (py_get alerts "slack" (JDict [])) as [slack | e] eqn:E2; [|discriminate].
  destruct (py_get alerts "webhook" (JDict [])) as [webhook | e] eqn:E3; [|discriminate].
  cbn [rbind bind].
  destruct (kubernetes_client w) as [[] | e]; cbn [lift try_except];
    [|destruct (is_Exception e); discriminate].
  cbn. intros H. injection H as <- <-. cbn.
  repeat split. exists alerts. split; [exact Ea|]. intros []; assumption.
Qed.

(** X21.  Start-up succeeds silently and only from a configuration that is
    a dictionary whose ['alerts'], if present, is one too.  The monitor it
    builds takes the transport of each channel, and its ['enabled'] flag,
    from the sections ['smtp'], ['slack'] and ['webhook'] of ['alerts']: a
    channel whose section is missing is never attempted, whatever the gates
    say; in particular an ['email'] section does not enable email without
    an ['smtp'] section. *)
Theorem X21_channels_need_their_transport_section
        (w : World) (file : string) (t : list event) (monitor : CICDMonitor) :
  CICDMonitor_init w file = (t, Ok monitor) ->
  t = []
  /\ read_config w file = Ok (config monitor)
  /\ (exists d, config monitor = JDict d)
  /\ (forall alerts c,
        py_get (config monitor) "alerts" (JDict []) = Ok (JDict alerts) ->
        assoc (transport_section c) alerts = None ->
        channel_enabled (alert_manager monitor) c = Ok false
        /\ forall w' report,
             attempted c (trace (send_alerts w' monitor report)) = false).
Proof.
  intros Hinit.
  destruct (CICDMonitor_init_ok w file t monitor Hinit)
    as (Ht & Hread & _ & alerts & Ha & Hsections).
  split; [exact Ht|]. split; [exact Hread|]. split.
  { destruct (config monitor); try discriminate Ha. now eexists. }
  intros alerts' c Ha' Hnone. rewrite Ha in Ha'. injection Ha' as ->.
  assert (channel_enabled (alert_manager monitor) c = Ok false) as Hoff.
  { specialize (Hsections c). cbn [py_get] in Hsections. rewrite Hnone in Hsections.
    injection Hsections as Hcfg. unfold channel_enabled. rewrite <- Hcfg. reflexivity. }
  split; [exact Hoff|].
  intros w' report.
  destruct (attempted c (trace (send_alerts w' monitor report))) eqn:E; [|reflexivity].
  unfold send_alerts in E.
  apply attempted_bind in E as [E | (_ & _ & E)].
  - apply send_critical_alerts_attempted in E as (_ & _ & Hen). congruence.
  - apply send_warning_alerts_attempted in E as (-> & _ & _ & _ & Hen). congruence.
Qed.

(** X21 at a configuration with an enabled and gated ['email'] section and
    no ['smtp'] section. *)
Lemma X21_witness :
  attempted Email
    (trace (send_alerts quiet_world (monitor_of email_without_smtp_config)
                        critical_report))
  = false.
Proof.
  refine (proj2 (proj2 (proj2 (proj2 (X21_channels_need_their_transport_section
                                        (with_config quiet_world email_without_smtp_config)
                                        "monitor.yaml" [] (monitor_of
                                                             email_without_smtp_config)
                                        eq_refl)))
                       _ Email eq_refl eq_refl)
                quiet_world critical_report).
Defined.
